(** * Berry mapping: class wrappers and the generic native-call dispatcher

    A shallow embedding of [lib/libesp32/berry_mapping/src/be_class_wrapper.c]:
    the name resolver [be_find_global_or_module_member], the value converter
    [be_convert_single_elt], the descriptor parser [be_check_arg_type], the
    constructor pointer store [be_set_ctor_ptr] and the dispatcher
    [be_call_c_func].

    The C functions work on a Berry virtual machine through its C API.  The
    virtual machine is represented by an explicit state ([bvm]): an evaluation
    stack, the global and builtin tables and the object store.  [be_raise] and
    [be_raisef] unwind with [longjmp]; they are the [Throw] outcome of the
    monad [M] in which every function of the file is written. *)

From Stdlib Require Import ZArith String Ascii List Lia Bool.
From stdpp Require Import base option list gmap strings pretty.

Local Open Scope string_scope.
Local Open Scope Z_scope.

(** ** Machine words

    The file is written for a target where [int], [int32_t], [intptr_t] and
    pointers are all 32 bits wide.  A word is a [Z]; a conversion to [int] or
    [int32_t] wraps around, a comparison of the loop counter (an [uint32_t])
    reads its operand as unsigned.  A pointer is represented by the signed
    value of its 32-bit pattern. *)

Definition to_int32 (z : Z) : Z := (z + 2 ^ 31) mod 2 ^ 32 - 2 ^ 31.
Definition to_uint32 (z : Z) : Z := z mod 2 ^ 32.
Definition is_int32 (z : Z) : Prop := - 2 ^ 31 <= z < 2 ^ 31.

(** ** C strings *)

Definition NUL : ascii := Ascii.zero.

Definition strlen (s : string) : Z := Z.of_nat (String.length s).

(** [s[i]]: the character at [i], the terminating NUL at the end. *)
Definition char_at (s : string) (i : Z) : ascii :=
  if i <? 0 then NUL
  else match String.get (Z.to_nat i) s with
       | Some c => c
       | None => NUL
       end.

(** [&s[i]]: the string that starts at position [i]. *)
Fixpoint str_drop (n : nat) (s : string) : string :=
  match n, s with
  | O, _ => s
  | S n', String _ r => str_drop n' r
  | S _, EmptyString => EmptyString
  end.

(** The string held by a [char] array: the characters before the first NUL. *)
Fixpoint c_str (buf : list ascii) : string :=
  match buf with
  | [] => EmptyString
  | c :: r => if Ascii.eqb c NUL then EmptyString else String c (c_str r)
  end.

Definition buf_store (buf : list ascii) (i : Z) (c : ascii) : list ascii :=
  <[Z.to_nat i := c]> buf.

Definition is_lower (c : ascii) : bool :=
  (97 <=? Z.of_nat (nat_of_ascii c)) && (Z.of_nat (nat_of_ascii c) <=? 122).

(** [strtok_r(s, ".", &saveptr)] for the one-character delimiter set: leading
    delimiters are skipped, the token runs to the next delimiter or to the end
    of the string, and the rest is kept for the next call. *)
Fixpoint skip_delim (d : ascii) (s : string) : string :=
  match s with
  | EmptyString => EmptyString
  | String c r => if Ascii.eqb c d then skip_delim d r else s
  end.

Fixpoint take_token (d : ascii) (s : string) : string * string :=
  match s with
  | EmptyString => (EmptyString, EmptyString)
  | String c r =>
      if Ascii.eqb c d then (EmptyString, r)
      else let '(t, rest) := take_token d r in (String c t, rest)
  end.

Definition strtok_r (d : ascii) (s : string) : option string * string :=
  match skip_delim d s with
  | EmptyString => (None, EmptyString)
  | s' => let '(t, rest) := take_token d s' in (Some t, rest)
  end.

(** ** The Berry virtual machine *)

Inductive bvalue : Type :=
| BNil
| BInt (i : Z)
| BReal (bits : Z)
| BBool (b : bool)
| BString (s : string)
| BComptr (p : Z)
| BClosure (c : nat)
| BNtvfunc (f : nat)
| BClass (c : nat)
| BInstance (o : nat)
| BModule (m : nat).

#[global] Instance bvalue_eq_dec : EqDecision bvalue.
Proof. solve_decision. Defined.

Record bclass : Type := mk_class {
  c_name : string;
  c_super : option nat;
  c_members : gmap string bvalue
}.

Record binstance : Type := mk_instance {
  i_class : nat;
  i_fields : gmap string bvalue
}.

Record bworld : Type := mk_world {
  globals : gmap string bvalue;
  builtins : gmap string bvalue;
  classes : gmap nat bclass;
  instances : gmap nat binstance;
  modules : gmap nat (gmap string bvalue)
}.

Record bvm : Type := mk_vm {
  world : bworld;
  stack : list bvalue;
  native_calls : list (list Z)
}.

Inductive bexception : Type :=
| Exception (class_name : string) (message : string)
| MallocFail.

(** One run of a C function over the virtual machine: it returns, it unwinds
    with a Berry exception, it leaves the defined behaviour of C (a stack
    index outside of the frame, a store past the end of [p], a NULL
    string), or the model runs out of fuel. *)
Inductive outcome (A : Type) : Type :=
| Done (a : A) (vm : bvm)
| Throw (e : bexception) (vm : bvm)
| Undefined (why : string)
| Timeout.

Arguments Done {A} a vm.
Arguments Throw {A} e vm.
Arguments Undefined {A} why.
Arguments Timeout {A}.

Definition M (A : Type) : Type := bvm -> outcome A.

Definition ret {A} (a : A) : M A := fun vm => Done a vm.

Definition bind {A B} (m : M A) (k : A -> M B) : M B :=
  fun vm =>
    match m vm with
    | Done a vm' => k a vm'
    | Throw e vm' => Throw e vm'
    | Undefined why => Undefined why
    | Timeout => Timeout
    end.

Notation "x <- c1 ;; c2" := (bind c1 (fun x => c2))
  (at level 100, c1 at next level, c2 at level 200, right associativity).
Notation "c1 ;; c2" := (bind c1 (fun _ => c2))
  (at level 100, c2 at level 200, right associativity).

Definition undefined {A} (why : string) : M A := fun _ => Undefined why.
Definition timeout {A} : M A := fun _ => Timeout.
Definition get_vm : M bvm := fun vm => Done vm vm.
Definition put_vm (vm : bvm) : M unit := fun _ => Done tt vm.

Definition set_stack (st : list bvalue) (vm : bvm) : bvm :=
  mk_vm (world vm) st (native_calls vm).
Definition set_world (w : bworld) (vm : bvm) : bvm :=
  mk_vm w (stack vm) (native_calls vm).
Definition set_instances (h : gmap nat binstance) (w : bworld) : bworld :=
  mk_world (globals w) (builtins w) (classes w) h (modules w).
Definition set_modules (ms : gmap nat (gmap string bvalue)) (w : bworld) : bworld :=
  mk_world (globals w) (builtins w) (classes w) (instances w) ms.

(** ** The C API of the interpreter *)

(** Modelled from the spec: the interpreter primitives of [berry.h] that the
    file consumes (spec section 6: get a named global, get and set a named
    member on an object, push and pop typed values on the evaluation stack,
    invoke a callable, classify a value's runtime kind, raise a typed error,
    query a class name, test derivation) are not part of this source file.
    They are given here over [bvm], with the stack effects that the source
    relies on and records in its comments ("stack = instance, init_func,
    instance, ptr", "remove nil").  The virtual [member] and [setmember]
    methods of instances are outside of the model. *)

Definition top_of (vm : bvm) : Z := Z.of_nat (length (stack vm)).

Definition abs_index (vm : bvm) (idx : Z) : Z :=
  if 0 <? idx then idx else top_of vm + idx + 1.

Definition be_top : M Z := fun vm => Done (top_of vm) vm.

Definition be_absindex (idx : Z) : M Z := fun vm => Done (abs_index vm idx) vm.

(** [be_indexof]: stack position 1 is the first argument of the call, -1 is
    the top of the stack. *)
Definition index_of (idx : Z) : M bvalue :=
  fun vm =>
    let a := abs_index vm idx in
    if (1 <=? a) && (a <=? top_of vm) then
      match stack vm !! Z.to_nat (a - 1) with
      | Some v => Done v vm
      | None => Undefined "stack index"
      end
    else Undefined "stack index".

Definition be_isint (idx : Z) : M bool :=
  v <- index_of idx ;; ret (match v with BInt _ => true | _ => false end).
Definition be_isbool (idx : Z) : M bool :=
  v <- index_of idx ;; ret (match v with BBool _ => true | _ => false end).
Definition be_isstring (idx : Z) : M bool :=
  v <- index_of idx ;; ret (match v with BString _ => true | _ => false end).
Definition be_iscomptr (idx : Z) : M bool :=
  v <- index_of idx ;; ret (match v with BComptr _ => true | _ => false end).
Definition be_isnil (idx : Z) : M bool :=
  v <- index_of idx ;; ret (match v with BNil => true | _ => false end).
Definition be_isclosure (idx : Z) : M bool :=
  v <- index_of idx ;; ret (match v with BClosure _ => true | _ => false end).
Definition be_isinstance (idx : Z) : M bool :=
  v <- index_of idx ;; ret (match v with BInstance _ => true | _ => false end).

Definition be_toint (idx : Z) : M Z :=
  v <- index_of idx ;;
  match v with BInt i => ret i | _ => undefined "be_toint" end.
Definition be_tobool (idx : Z) : M bool :=
  v <- index_of idx ;;
  match v with BBool b => ret b | _ => undefined "be_tobool" end.
Definition be_tostring (idx : Z) : M string :=
  v <- index_of idx ;;
  match v with BString s => ret s | _ => undefined "be_tostring" end.
(** [be_tocomptr] answers NULL for a value that is not a pointer. *)
Definition be_tocomptr (idx : Z) : M Z :=
  v <- index_of idx ;;
  ret (match v with BComptr p => p | _ => 0 end).

Definition push (v : bvalue) : M unit :=
  fun vm => Done tt (set_stack (stack vm ++ [v]) vm).

Definition be_pushnil : M unit := push BNil.
Definition be_pushint (i : Z) : M unit := push (BInt i).
Definition be_pushbool (b : bool) : M unit := push (BBool b).
Definition be_pushstring (s : string) : M unit := push (BString s).
Definition be_pushcomptr (p : Z) : M unit := push (BComptr p).
Definition be_pushvalue (idx : Z) : M unit := v <- index_of idx ;; push v.

Definition be_pop (n : Z) : M unit :=
  fun vm =>
    if (0 <=? n) && (n <=? top_of vm) then
      Done tt (set_stack (take (Z.to_nat (top_of vm - n)) (stack vm)) vm)
    else Undefined "be_pop".

(** [be_remove]: the values above [idx] move down by one. *)
Definition be_remove (idx : Z) : M unit :=
  _ <- index_of idx ;;
  fun vm =>
    let a := Z.to_nat (abs_index vm idx - 1) in
    Done tt (set_stack (take a (stack vm) ++ drop (S a) (stack vm)) vm).

Definition global_find (w : bworld) (name : string) : option bvalue :=
  match globals w !! name with
  | Some v => Some v
  | None => builtins w !! name
  end.

(** [be_getglobal] and [be_getbuiltin] push the value, or nil when the name
    is unknown, and answer whether it was found. *)
Definition be_getglobal (name : option string) : M bool :=
  match name with
  | None => undefined "be_getglobal(NULL)"
  | Some n =>
      vm <- get_vm ;;
      match global_find (world vm) n with
      | Some v => push v ;; ret true
      | None => push BNil ;; ret false
      end
  end.

Definition be_getbuiltin (name : string) : M bool :=
  vm <- get_vm ;;
  match builtins (world vm) !! name with
  | Some v => push v ;; ret true
  | None => push BNil ;; ret false
  end.

(** The classes from [c] up its chain of super classes. *)
Fixpoint class_chain (fuel : nat) (cs : gmap nat bclass) (c : nat) : list nat :=
  match fuel with
  | O => []
  | S f =>
      c :: match cs !! c with
           | Some k =>
               match c_super k with
               | Some s => class_chain f cs s
               | None => []
               end
           | None => []
           end
  end.

Definition ancestors (w : bworld) (c : nat) : list nat :=
  class_chain (S (size (classes w))) (classes w) c.

Fixpoint chain_member (cs : gmap nat bclass) (chain : list nat) (name : string)
  : option bvalue :=
  match chain with
  | [] => None
  | c :: r =>
      match cs !! c with
      | Some k =>
          match c_members k !! name with
          | Some v => Some v
          | None => chain_member cs r name
          end
      | None => chain_member cs r name
      end
  end.

Definition non_nil (r : option bvalue) : option bvalue :=
  match r with
  | Some BNil => None
  | _ => r
  end.

Definition class_member (w : bworld) (c : nat) (name : string) : option bvalue :=
  non_nil (chain_member (classes w) (ancestors w c) name).

(** An instance variable is found whatever it holds; a method or a static
    member is looked up along the classes of the instance. *)
Definition instance_member (w : bworld) (o : nat) (name : string) : option bvalue :=
  match instances w !! o with
  | Some ins =>
      match i_fields ins !! name with
      | Some v => Some v
      | None => class_member w (i_class ins) name
      end
  | None => None
  end.

Definition lookup_member (w : bworld) (v : bvalue) (name : string) : option bvalue :=
  match v with
  | BInstance o => instance_member w o name
  | BClass c => class_member w c name
  | BModule m =>
      match modules w !! m with
      | Some t => non_nil (t !! name)
      | None => None
      end
  | _ => None
  end.

(** [be_getmember] pushes the member, or nil when there is none, and answers
    whether it was found. *)
Definition be_getmember (idx : Z) (name : string) : M bool :=
  o <- index_of idx ;;
  vm <- get_vm ;;
  match lookup_member (world vm) o name with
  | Some v => push v ;; ret true
  | None => push BNil ;; ret false
  end.

(** The object store after a write to the variable [name] of instance [id]. *)
Definition store_member (w : bworld) (id : nat) (ins : binstance) (name : string)
    (v : bvalue) : bworld :=
  set_instances
    (<[id := mk_instance (i_class ins) (<[name := v]> (i_fields ins))]> (instances w))
    w.

(** [be_setmember] stores the top of the stack in a declared instance
    variable, or in the table of a module; the value stays on the stack. *)
Definition be_setmember (idx : Z) (name : string) : M bool :=
  o <- index_of idx ;;
  v <- index_of (-1) ;;
  vm <- get_vm ;;
  let w := world vm in
  match o with
  | BInstance id =>
      match instances w !! id with
      | Some ins =>
          match i_fields ins !! name with
          | Some _ =>
              put_vm (set_world (store_member w id ins name v) vm) ;;
              ret true
          | None => ret false
          end
      | None => ret false
      end
  | BModule m =>
      match modules w !! m with
      | Some t =>
          put_vm (set_world (set_modules (<[m := <[name := v]> t]> (modules w)) w) vm) ;;
          ret true
      | None => ret false
      end
  | _ => ret false
  end.

(** [be_classof] pushes the class of an instance, and nothing otherwise. *)
Definition be_classof (idx : Z) : M bool :=
  v <- index_of idx ;;
  vm <- get_vm ;;
  match v with
  | BInstance o =>
      match instances (world vm) !! o with
      | Some ins => push (BClass (i_class ins)) ;; ret true
      | None => undefined "dangling instance"
      end
  | _ => ret false
  end.

Definition class_of_value (w : bworld) (v : bvalue) : option nat :=
  match v with
  | BClass c => Some c
  | BInstance o => i_class <$> instances w !! o
  | _ => None
  end.

(** [be_isderived]: is the class (or the class of the instance) at [idx] the
    class on the top of the stack, or one of its sub classes? *)
Definition be_isderived (idx : Z) : M bool :=
  t <- index_of (-1) ;;
  v <- index_of idx ;;
  vm <- get_vm ;;
  match class_of_value (world vm) t, class_of_value (world vm) v with
  | Some target, Some c => ret (bool_decide (target ∈ ancestors (world vm) c))
  | _, _ => ret false
  end.

(** [be_classname] answers NULL, printed as "(null)", for a value that is
    neither a class nor an instance. *)
Definition be_classname (idx : Z) : M string :=
  v <- index_of idx ;;
  vm <- get_vm ;;
  match class_of_value (world vm) v with
  | Some c =>
      match classes (world vm) !! c with
      | Some k => ret (c_name k)
      | None => undefined "dangling class"
      end
  | None => ret "(null)"
  end.

Definition be_typename (idx : Z) : M string :=
  v <- index_of idx ;;
  ret (match v with
       | BNil => "nil"
       | BInt _ => "int"
       | BReal _ => "real"
       | BBool _ => "bool"
       | BString _ => "string"
       | BComptr _ => "ptr"
       | BClosure _ => "function"
       | BNtvfunc _ => "function"
       | BClass _ => "class"
       | BInstance _ => "instance"
       | BModule _ => "module"
       end).

Definition be_raise {A} (class_name message : string) : M A :=
  fun vm => Throw (Exception class_name message) vm.

Definition be_throw {A} (e : bexception) : M A := fun vm => Throw e vm.

Definition fmt_s (s : option string) : string :=
  match s with
  | Some t => t
  | None => "(null)"
  end.

Definition fmt_c (c : ascii) : string := String c EmptyString.

Definition fmt_d (z : Z) : string := pretty z.

Section Wrapper.

(** What lies behind [be_call]: running a Berry callable (a closure, a
    native function, a class to instantiate) on its arguments changes the
    object store and gives a value, or raises. *)
Variable berry_call :
  bworld -> bvalue -> list bvalue -> bexception + (bvalue * bworld).

(** The address of the characters of a Berry string, and the C string
    found at an address (none at an address that holds no string). *)
Variable str_addr : string -> Z.
Variable c_str_at : Z -> option string.

(** [be_call(vm, argc)]: the callable sits below its [argc] arguments; on
    return its slot holds the result and the arguments are still there. *)
Definition be_call (argc : Z) : M unit :=
  fun vm =>
    if (0 <=? argc) && (argc + 1 <=? top_of vm) then
      let fpos := Z.to_nat (top_of vm - argc - 1) in
      match stack vm !! fpos with
      | Some f =>
          match berry_call (world vm) f (drop (S fpos) (stack vm)) with
          | inl e => Throw e vm
          | inr (r, w') =>
              Done tt (mk_vm w' (<[fpos := r]> (stack vm)) (native_calls vm))
          end
      | None => Undefined "be_call"
      end
    else Undefined "be_call".

(** *** [be_create_class_wrapper] *)
Definition be_create_class_wrapper (class_name : string) (ptr : Z) : M unit :=
  (if ptr =? 0 then be_throw MallocFail else ret tt) ;;
  be_getglobal (Some class_name) ;;
  be_call 0 ;;
  be_getmember (-1) "init" ;;
  be_pushvalue (-2) ;;
  be_pushcomptr ptr ;;
  be_call 2 ;;
  be_pop 3.

(** *** [be_find_global_or_module_member]

    The result is the number of values left on the stack: 1 for a single
    value, 2 for a method with its instance, 0 when nothing was found. *)
Definition be_find_global_or_module_member (name : option string) : M Z :=
  match name with
  | None => be_pushnil ;; ret 0
  | Some name_buf =>
      let '(prefix, saveptr) := strtok_r "." name_buf in
      let '(suffix, _) := strtok_r "." saveptr in
      match suffix with
      | Some suffix =>
          found <- be_getglobal prefix ;;
          if found : bool then
            found <- be_getmember (-1) suffix ;;
            if found : bool then
              inst <- be_isinstance (-2) ;;
              if inst : bool then
                be_pushvalue (-2) ;;
                be_remove (-3) ;;
                ret 2
              else
                be_remove (-2) ;;
                ret 1
            else
              be_pop 2 ;;
              ret 0
          else
            be_pop 1 ;;
            ret 0
      | None =>
          found <- be_getglobal prefix ;;
          if found : bool then ret 1
          else
            be_pop 1 ;;
            ret 0
      end
  end.

(** *** [be_convert_single_elt] *)

(** Lines 170-174: the word and the type letter of a simple value; the
    letter stays NUL for any other value. *)
Definition convert_simple (idx : Z) : M (Z * ascii) :=
  isint <- be_isint idx ;;
  if isint : bool then
    i <- be_toint idx ;; ret (to_int32 i, "i"%char)
  else
    isbool <- be_isbool idx ;;
    if isbool : bool then
      b <- be_tobool idx ;; ret (if b : bool then 1 else 0, "b"%char)
    else
      isstring <- be_isstring idx ;;
      if isstring : bool then
        s <- be_tostring idx ;; ret (to_int32 (str_addr s), "s"%char)
      else
        iscomptr <- be_iscomptr idx ;;
        if iscomptr : bool then
          p <- be_tocomptr idx ;; ret (to_int32 p, "c"%char)
        else
          isnil <- be_isnil idx ;;
          if isnil : bool then ret (0, "c"%char)
          else ret (0, NUL).

(** Lines 206-209: push the pointer member of the instance, [_p] or else
    [.p] (nil when there is neither). *)
Definition get_pointer_member (idx : Z) : M unit :=
  found <- be_getmember idx "_p" ;;
  if negb found then
    be_pop 1 ;;
    be_getmember idx ".p" ;;
    ret tt
  else ret tt.

(** Lines 213-228: check the class of the instance against the tag. *)
Definition check_instance_type (idx : Z) (arg_type : string) (arg_type_len : Z)
  : M unit :=
  if 1 <? arg_type_len then
    be_classof idx ;;
    class_found <- be_find_global_or_module_member (Some arg_type) ;;
    (if negb (class_found =? 0) then
       derived <- be_isderived (-2) ;;
       if negb derived then
         cn <- be_classname idx ;;
         be_raise "type_error"
           ("Unexpected class type '" +:+ cn +:+ "', expected '"
            +:+ arg_type +:+ "'")
       else ret tt
     else
       be_raise "value_error"
         ("Unable to find class '" +:+ arg_type +:+ "' ("
          +:+ fmt_d arg_type_len +:+ ")")) ;;
    be_pop 2
  else if negb (Ascii.eqb (char_at arg_type 0) ".") then
    cn <- be_classname idx ;;
    be_raise "value_error"
      ("Unexpected instance type '" +:+ cn +:+ "', expected '"
       +:+ arg_type +:+ "'")
  else ret tt.

(** Lines 148-166: a callback tag.  The closure is handed to the callback
    generator, whose result is the address of the native callback. *)
Definition convert_callback (idx : Z) (arg_type : string) (gen_cb : option string)
  : M Z :=
  isclosure <- be_isclosure idx ;;
  if isclosure : bool then
    r <- be_find_global_or_module_member gen_cb ;;
    if negb (r =? 0) then
      be_remove (-3) ;;
      be_pushvalue idx ;;
      be_pushvalue 1 ;;
      be_pushstring arg_type ;;
      be_call (2 + r) ;;
      func <- be_tocomptr (- (3 + r)) ;;
      be_pop (3 + r) ;;
      ret (to_int32 func)
    else
      be_raise "type_error" ("Can't find callback generator: " +:+ fmt_s gen_cb)
  else
    be_raise "type_error" "Closure expected for callback type".

(** The recursion on the pointer member of an instance is not bounded by
    the source; [fuel] bounds its depth in the model, and is only used up
    by the recursive call. *)
Fixpoint be_convert_single_elt (fuel : nat) (idx : Z)
    (arg_type gen_cb : option string) : M Z :=
  idx <- be_absindex idx ;;
  let arg_type := match arg_type with None => "." | Some t => t end in
  let arg_type_len := strlen arg_type in
  if (1 <? arg_type_len) && Ascii.eqb (char_at arg_type 0) "^" then
    convert_callback idx (str_drop 1 arg_type) gen_cb
  else
    simple <- convert_simple idx ;;
    let '(r, provided_type) := simple in
    if negb (Ascii.eqb provided_type NUL) then
      let type_ok :=
        Ascii.eqb (char_at arg_type 0) "."
        || Ascii.eqb (char_at arg_type 0) provided_type
        || ((r =? 0) && negb (arg_type_len =? 1)) in
      if negb type_ok then
        be_raise "type_error"
          ("Unexpected argument type '" +:+ fmt_c provided_type
           +:+ "', expected '" +:+ arg_type +:+ "'")
      else ret r
    else
      isinstance <- be_isinstance idx ;;
      if isinstance : bool then
        be_getbuiltin "bytes" ;;
        derived <- be_isderived idx ;;
        if derived : bool then
          be_pop 1 ;;
          be_getmember idx "_buffer" ;;
          be_pushvalue idx ;;
          be_call 1 ;;
          p <- be_tocomptr (-2) ;;
          be_pop 2 ;;
          ret (to_int32 p)
        else
          be_pop 1 ;;
          get_pointer_member idx ;;
          r <- match fuel with
               | O => timeout
               | S fuel' => be_convert_single_elt fuel' (-1) None None
               end ;;
          let r := to_int32 r in
          be_pop 1 ;;
          check_instance_type idx arg_type arg_type_len ;;
          ret r
      else
        tn <- be_typename idx ;;
        be_raise "value_error" ("Unexpected '" +:+ tn +:+ "'").

(** *** [be_check_arg_type] *)

(** The state of the loop over the arguments: the descriptor still to be
    read (NULL once it is used up), the position in it, the token buffer
    [type_short_name], the words [p] and the next free slot. *)
Record parse_state : Type := mk_parse {
  ps_arg_type : option string;
  ps_arg_idx : Z;
  ps_buf : list ascii;
  ps_p : list Z;
  ps_p_idx : Z
}.

(** Lines 288-292: copy a class or callback name into the token buffer.
    The test [offset+prefix+1 < sizeof(type_short_name)] stops the loop
    after 31 rounds at most, so that 32 rounds of fuel are never used up. *)
Fixpoint scan_name (fuel : nat) (arg_type : string) (arg_idx prefix offset : Z)
    (buf : list ascii) : Z * list ascii :=
  match fuel with
  | O => (offset, buf)
  | S fuel' =>
      let c := char_at arg_type (arg_idx + offset) in
      if negb (Ascii.eqb c ")") && negb (Ascii.eqb c "^")
         && negb (Ascii.eqb c NUL) && (offset + prefix + 1 <? 32) then
        scan_name fuel' arg_type arg_idx prefix (offset + 1)
          (buf_store (buf_store buf (offset + prefix) c) (offset + prefix + 1) NUL)
      else (offset, buf)
  end.

(** Lines 264-303: read one token of the descriptor.  The result is the
    descriptor (NULL when it is used up), the new position, the token
    buffer, and whether the argument is skipped ([continue]). *)
Definition next_token (arg_type : option string) (arg_idx : Z) (buf : list ascii)
  : option string * Z * list ascii * bool :=
  let buf := buf_store buf 0 NUL in
  match arg_type with
  | None => (None, arg_idx, buf, false)
  | Some t =>
      let c := char_at t arg_idx in
      if Ascii.eqb c "-" then (Some t, arg_idx + 1, buf, true)
      else if Ascii.eqb c "." || is_lower c then
        (Some t, arg_idx + 1, buf_store (buf_store buf 0 c) 1 NUL, false)
      else if Ascii.eqb c "(" || Ascii.eqb c "^" then
        let '(prefix, buf) :=
          if Ascii.eqb c "^"
          then (1, buf_store (buf_store buf 0 "^"%char) 1 NUL)
          else (0, buf) in
        let arg_idx := arg_idx + 1 in
        let '(offset, buf) := scan_name 32 t arg_idx prefix 0 buf in
        let arg_type' :=
          if Ascii.eqb (char_at t (arg_idx + offset)) NUL then None else Some t in
        (arg_type', arg_idx + offset + 1, buf, false)
      else if Ascii.eqb c NUL then (None, arg_idx, buf, false)
      else (Some t, arg_idx, buf, false)
  end.

(** The [for] loop of lines 263-306, [n] rounds from argument [i] on. *)
Fixpoint check_loop (fuel : nat) (n : nat) (i arg_start : Z) (arg_type_check : bool)
    (st : parse_state) : M parse_state :=
  match n with
  | O => ret st
  | S n' =>
      let '(arg_type, arg_idx, buf, skip) :=
        next_token (ps_arg_type st) (ps_arg_idx st) (ps_buf st) in
      if skip then
        check_loop fuel n' (i + 1) arg_start arg_type_check
          (mk_parse arg_type arg_idx buf (ps_p st) (ps_p_idx st))
      else
        w <- be_convert_single_elt fuel (i + arg_start)
               (if arg_type_check then Some (c_str buf) else None)
               (Some "_lvgl.gen_cb") ;;
        if ps_p_idx st <? 8 then
          check_loop fuel n' (i + 1) arg_start arg_type_check
            (mk_parse arg_type arg_idx buf
               (<[Z.to_nat (ps_p_idx st) := w]> (ps_p st)) (ps_p_idx st + 1))
        else undefined "p[] overflow"
  end.

(** The token buffer is a local array; what it holds before its first
    element is cleared is never read. *)
Definition type_short_name0 : list ascii := repeat NUL 32.

(** The loop counter is an [uint32_t], so that [argc] is read as unsigned
    in [i < argc]. *)
Definition be_check_arg_type (fuel : nat) (arg_start argc : Z)
    (arg_type : option string) (p : list Z) : M (list Z) :=
  let arg_type_check := bool_decide (arg_type <> None) in
  st <- check_loop fuel (Z.to_nat (to_uint32 argc)) 0 arg_start arg_type_check
          (mk_parse arg_type 0 type_short_name0 p 0) ;;
  match ps_arg_type st with
  | Some t =>
      if negb (Ascii.eqb (char_at t (ps_arg_idx st)) NUL) then
        be_raise "value_error"
          ("Missing arguments, remaining type '"
           +:+ str_drop (Z.to_nat (ps_arg_idx st)) t +:+ "'")
      else ret (ps_p st)
  | None => ret (ps_p st)
  end.

(** *** [be_set_ctor_ptr] *)
Definition be_set_ctor_ptr (ptr : Z) (name : option string) : M unit :=
  match name with
  | None => ret tt
  | Some name =>
      let name := if Ascii.eqb (char_at name 0) "+" then str_drop 1 name else name in
      if strlen name =? 0 then ret tt
      else
        be_pushcomptr ptr ;;
        ok <- be_setmember 1 name ;;
        if ok : bool then be_pop 1
        else be_raise "attribute_error" ("Missing member '" +:+ name +:+ "' in ctor")
  end.

(** *** [be_call_c_func] *)

(** Line 379: the call through the function pointer, with the eight words
    of [p].  The calls made are recorded in [native_calls]. *)
Definition invoke (f : list Z -> Z) (p : list Z) : M Z :=
  fun vm => Done (f p) (mk_vm (world vm) (stack vm) (native_calls vm ++ [p])).

(** [be_return] gives the top of the stack to the caller, [be_return_nil]
    gives nil. *)
Definition be_return : M bvalue := index_of (-1).
Definition be_return_nil : M bvalue := ret BNil.

(** Line 365: [return_type && return_type[0] == '+']. *)
Definition ctor_mode (return_type : option string) : bool :=
  match return_type with
  | Some rt => Ascii.eqb (char_at rt 0) "+"
  | None => false
  end.

Definition p0 : list Z := [0; 0; 0; 0; 0; 0; 0; 0].

Definition be_call_c_func (fuel : nat) (func : list Z -> Z)
    (return_type arg_type : option string) : M bvalue :=
  let p := p0 in
  argc <- be_top ;;
  let ctor := ctor_mode return_type in
  adopt <- (if ctor then
              if 1 <? argc then be_iscomptr 2 else ret false
            else ret false) ;;
  if adopt : bool then
    obj <- be_tocomptr 2 ;;
    be_set_ctor_ptr obj return_type ;;
    be_return_nil
  else
    let arg_start := if ctor then 2 else 1 in
    let arg_count := if ctor then argc - 1 else argc in
    p <- be_check_arg_type fuel arg_start arg_count arg_type p ;;
    r <- invoke func p ;;
    match return_type with
    | None => be_return_nil
    | Some rt =>
        if strlen rt =? 0 then be_return_nil
        else if Ascii.eqb (char_at rt 0) "+" then
          be_set_ctor_ptr r return_type ;;
          be_return_nil
        else if strlen rt =? 1 then
          let c := char_at rt 0 in
          (if Ascii.eqb c "." || Ascii.eqb c "i" then be_pushint r
           else if Ascii.eqb c "b" then be_pushbool (negb (r =? 0))
           else if Ascii.eqb c "s" then
             match c_str_at r with
             | Some s => be_pushstring s
             | None => undefined "be_pushstring"
             end
           else if Ascii.eqb c "c" then be_pushint r
           else be_raise "internal_error" "Unsupported return type") ;;
          be_return
        else
          be_find_global_or_module_member return_type ;;
          be_pushcomptr r ;;
          be_pushcomptr (-1) ;;
          be_call 2 ;;
          be_pop 2 ;;
          be_return
    end.

End Wrapper.

(** ** Tags and values *)

(** A one-letter tag is a simple tag; a longer tag that starts with a caret
    is a callback tag; any other tag with more than one character names a
    class. *)
Definition named_class_tag (t : string) : Prop :=
  1 < strlen t /\ char_at t 0 <> "^"%char.

(** The values whose word is zero: nil, the NULL pointer, and with them the
    integer 0 and the boolean false. *)
Inductive null_valued : bvalue -> Prop :=
| null_nil : null_valued BNil
| null_comptr : null_valued (BComptr 0)
| null_int : null_valued (BInt 0)
| null_bool : null_valued (BBool false).

(** The values that lines 170-174 convert by themselves. *)
Definition is_simple (v : bvalue) : bool :=
  match v with
  | BInt _ | BBool _ | BString _ | BComptr _ | BNil => true
  | _ => false
  end.

(** The word and the type letter that lines 170-174 give to a value. *)
Definition simple_word (str_addr : string -> Z) (v : bvalue) : Z :=
  match v with
  | BInt i => to_int32 i
  | BBool b => if b then 1 else 0
  | BString s => to_int32 (str_addr s)
  | BComptr p => to_int32 p
  | _ => 0
  end.

Definition simple_letter (v : bvalue) : ascii :=
  match v with
  | BInt _ => "i"
  | BBool _ => "b"
  | BString _ => "s"
  | BComptr _ | BNil => "c"
  | _ => NUL
  end%char.

(** The acceptance test of lines 179-181. *)
Definition type_ok (str_addr : string -> Z) (arg_type : string) (v : bvalue) : bool :=
  Ascii.eqb (char_at arg_type 0) "."
  || Ascii.eqb (char_at arg_type 0) (simple_letter v)
  || ((simple_word str_addr v =? 0) && negb (strlen arg_type =? 1)).

Definition is_callback_tag (t : string) : bool :=
  (1 <? strlen t) && Ascii.eqb (char_at t 0) "^".

Definition tag_or_wildcard (arg_type : option string) : string :=
  match arg_type with
  | None => "."
  | Some t => t
  end.

(** Does the value derive from the builtin class [bytes]?  This is what
    lines 194-195 compute. *)
Definition derives_from_bytes (w : bworld) (v : bvalue) : bool :=
  match class_of_value w (default BNil (builtins w !! "bytes")),
        class_of_value w v with
  | Some target, Some c => bool_decide (target ∈ ancestors w c)
  | _, _ => false
  end.

(** The value that lines 206-209 leave on the stack. *)
Definition pointer_member (w : bworld) (v : bvalue) : bvalue :=
  match lookup_member w v "_p" with
  | Some p => p
  | None => default BNil (lookup_member w v ".p")
  end.

(** The two tokens that [strtok_r] cuts out of a name. *)
Definition split_name (name : string) : option string * option string :=
  let '(prefix, saveptr) := strtok_r "." name in
  let '(suffix, _) := strtok_r "." saveptr in
  (prefix, suffix).

(** The name resolver finds nothing for [name]: the global is unknown, or it
    has no such member. *)
Definition unresolved (w : bworld) (name : string) : bool :=
  match split_name name with
  | (Some prefix, None) => bool_decide (global_find w prefix = None)
  | (Some prefix, Some suffix) =>
      match global_find w prefix with
      | None => true
      | Some g => bool_decide (lookup_member w g suffix = None)
      end
  | (None, _) => false
  end.

Definition is_instance (v : bvalue) : bool :=
  match v with
  | BInstance _ => true
  | _ => false
  end.

(** A name part: not empty and without a dot. *)
Fixpoint no_dot (s : string) : bool :=
  match s with
  | EmptyString => true
  | String c r => negb (Ascii.eqb c ".") && no_dot r
  end.

Definition name_part (s : string) : Prop :=
  s <> EmptyString /\ no_dot s = true.

(** ** Sample machines

    A small object store on which the statements below are run: the class
    [lv_obj] with one method, one instance of it with the pointer member
    [_p], a module [lv] that holds the instance, and a class without any
    member. *)

Definition no_call : bworld -> bvalue -> list bvalue -> bexception + (bvalue * bworld) :=
  fun _ _ _ => inl (Exception "internal_error" "no callable").

Definition addr_of : string -> Z := fun s => 4096 + strlen s.

Definition no_c_string : Z -> option string := fun _ => None.

Definition sample_world : bworld :=
  mk_world
    {[ "lv_obj" := BClass 0%nat; "lv" := BModule 0%nat; "scr" := BInstance 0%nat ]}
    ∅
    {[ 0%nat := mk_class "lv_obj" None {[ "get" := BClosure 1%nat ]};
       1%nat := mk_class "bare" None ∅ ]}
    {[ 0%nat := mk_instance 0%nat {[ "_p" := BNil ]};
       1%nat := mk_instance 1%nat ∅ ]}
    {[ 0%nat := {[ "obj" := BInstance 0%nat ]} ]}.

Definition sample_vm (st : list bvalue) : bvm := mk_vm sample_world st [].

(** ** The dispatch *)

(** Lines 365-366: the dispatch adopts the pointer that it is given. *)
Definition adopts (return_type : option string) (vm : bvm) : bool :=
  ctor_mode return_type && (1 <? top_of vm)
  && match stack vm !! 1%nat with
     | Some (BComptr _) => true
     | _ => false
     end.

(** The native function was not called during a run: the record of the
    calls is the one of the machine [vm] that the run started from. *)
Definition no_native_call {A} (vm : bvm) (o : outcome A) : Prop :=
  match o with
  | Done _ vm' | Throw _ vm' => native_calls vm' = native_calls vm
  | _ => True
  end.

(** A computation that never calls the native function. *)
Definition keeps_calls {A} (m : M A) : Prop :=
  forall vm, no_native_call vm (m vm).

(** The conversion of some argument fails during the loop of
    [be_check_arg_type]: in the round at hand, or in a later round that is
    reached after a skipped argument or after a conversion that succeeded.
    [n] is the number of rounds left, [i] the loop counter. *)
Inductive conversion_fails
    (berry_call : bworld -> bvalue -> list bvalue -> bexception + (bvalue * bworld))
    (str_addr : string -> Z) (fuel : nat) (arg_start : Z) (arg_type_check : bool)
  : nat -> Z -> parse_state -> bvm -> bexception -> bvm -> Prop :=
| fails_now n i st vm arg_type arg_idx buf e vm' :
    next_token (ps_arg_type st) (ps_arg_idx st) (ps_buf st)
    = (arg_type, arg_idx, buf, false) ->
    be_convert_single_elt berry_call str_addr fuel (i + arg_start)
      (if arg_type_check then Some (c_str buf) else None) (Some "_lvgl.gen_cb") vm
    = Throw e vm' ->
    conversion_fails berry_call str_addr fuel arg_start arg_type_check
      (S n) i st vm e vm'
| fails_after_skip n i st vm arg_type arg_idx buf e vm' :
    next_token (ps_arg_type st) (ps_arg_idx st) (ps_buf st)
    = (arg_type, arg_idx, buf, true) ->
    conversion_fails berry_call str_addr fuel arg_start arg_type_check
      n (i + 1) (mk_parse arg_type arg_idx buf (ps_p st) (ps_p_idx st)) vm e vm' ->
    conversion_fails berry_call str_addr fuel arg_start arg_type_check
      (S n) i st vm e vm'
| fails_after_success n i st vm arg_type arg_idx buf w vm1 e vm' :
    next_token (ps_arg_type st) (ps_arg_idx st) (ps_buf st)
    = (arg_type, arg_idx, buf, false) ->
    be_convert_single_elt berry_call str_addr fuel (i + arg_start)
      (if arg_type_check then Some (c_str buf) else None) (Some "_lvgl.gen_cb") vm
    = Done w vm1 ->
    ps_p_idx st < 8 ->
    conversion_fails berry_call str_addr fuel arg_start arg_type_check
      n (i + 1)
      (mk_parse arg_type arg_idx buf
         (<[Z.to_nat (ps_p_idx st) := w]> (ps_p st)) (ps_p_idx st + 1)) vm1 e vm' ->
    conversion_fails berry_call str_addr fuel arg_start arg_type_check
      (S n) i st vm e vm'.

(** ** Descriptors *)

(** The characters of a simple token: the wildcard and the lower case
    letters (line 271-272). *)
Definition simple_tag_char (c : ascii) : bool :=
  Ascii.eqb c "." || is_lower c.

(** The characters that the copy loop of line 288 takes into a name. *)
Fixpoint plain_name (s : string) : bool :=
  match s with
  | EmptyString => true
  | String c r =>
      negb (Ascii.eqb c ")") && negb (Ascii.eqb c "^") && negb (Ascii.eqb c NUL)
      && plain_name r
  end.

(** A run of simple tokens and as many simple values, each accepted by its
    token. *)
Fixpoint accepted (str_addr : string -> Z) (pre : string) (vs : list bvalue) : bool :=
  match pre, vs with
  | EmptyString, [] => true
  | String c r, v :: vs' =>
      simple_tag_char c && is_simple v && type_ok str_addr (String c EmptyString) v
      && accepted str_addr r vs'
  | _, _ => false
  end.

(** The token that [next_token] leaves in the buffer. *)
Definition token_of (r : option string * Z * list ascii * bool) : string :=
  c_str (snd (fst r)).

(** A name of forty letters, longer than the token buffer. *)
Definition forty : string := "abcdefghijklmnopqrstuvwxyzabcdefghijklmn".

(** ** Further vocabulary *)

(** The characters that the [switch] of line 267 has no case for. *)
Definition unsupported_char (c : ascii) : bool :=
  negb (Ascii.eqb c "-") && negb (simple_tag_char c) && negb (Ascii.eqb c "(")
  && negb (Ascii.eqb c "^") && negb (Ascii.eqb c NUL).

(** The characters that end the copy loop of line 288 before the buffer is
    full: the closing parenthesis, the caret, and the end of the string. *)
Definition stop_char (c : ascii) : bool :=
  Ascii.eqb c ")" || Ascii.eqb c "^" || Ascii.eqb c NUL.

(** The words that a descriptor of skips and simple tokens asks of as many
    arguments: nothing for an argument under [-], the word of a simple value
    that its token accepts, and no answer when a value is refused or when
    the two runs differ in length. *)
Fixpoint slot_words (str_addr : string -> Z) (pre : string) (vs : list bvalue)
  : option (list Z) :=
  match pre, vs with
  | EmptyString, [] => Some []
  | String c r, v :: vs' =>
      if Ascii.eqb c "-" then slot_words str_addr r vs'
      else if simple_tag_char c && is_simple v
              && type_ok str_addr (String c EmptyString) v
      then match slot_words str_addr r vs' with
           | Some ws => Some (simple_word str_addr v :: ws)
           | None => None
           end
      else None
  | _, _ => None
  end.

(** Is the class (or the class of the instance) [v] the class [g] or one of
    its sub classes?  This is [be_isderived] with [g] on the top. *)
Definition derives_from (w : bworld) (g v : bvalue) : bool :=
  match class_of_value w g, class_of_value w v with
  | Some target, Some c => bool_decide (target ∈ ancestors w c)
  | _, _ => false
  end.

Definition comptr_of (v : bvalue) : Z :=
  match v with
  | BComptr p => p
  | _ => 0
  end.

Definition is_closure (v : bvalue) : bool :=
  match v with
  | BClosure _ => true
  | _ => false
  end.

(** The value that a one-letter return tag makes of the word [r]
    (lines 389-395); none for a letter without a case, and none for [s]
    when there is no string at the address. *)
Definition return_value (c_str_at : Z -> option string) (c : ascii) (r : Z)
  : option bvalue :=
  if Ascii.eqb c "." || Ascii.eqb c "i" then Some (BInt r)
  else if Ascii.eqb c "b" then Some (BBool (negb (r =? 0)))
  else if Ascii.eqb c "s" then BString <$> c_str_at r
  else if Ascii.eqb c "c" then Some (BInt r)
  else None.

Definition supported_return (c : ascii) : bool :=
  Ascii.eqb c "." || Ascii.eqb c "i" || Ascii.eqb c "b" || Ascii.eqb c "s"
  || Ascii.eqb c "c".

(** ** A second sample machine

    The class [lv_btn] derives from [lv_obj]; [bytes] is the builtin byte
    buffer class and [buf] derives from it.  Instance 2 is a button that
    wraps the pointer 77, instance 3 is a byte buffer, instance 4 holds
    itself in [_p] and instance 5 wraps instance 2.  The module [_lvgl]
    holds the callback generator. *)

Definition zoo_world : bworld :=
  mk_world
    {[ "lv_obj" := BClass 0%nat; "lv_btn" := BClass 2%nat;
       "_lvgl" := BModule 0%nat; "bare" := BClass 1%nat ]}
    {[ "bytes" := BClass 3%nat ]}
    {[ 0%nat := mk_class "lv_obj" None {[ "init" := BClosure 7%nat ]};
       1%nat := mk_class "bare" None ∅;
       2%nat := mk_class "lv_btn" (Some 0%nat) ∅;
       3%nat := mk_class "bytes" None {[ "_buffer" := BNtvfunc 3%nat ]};
       4%nat := mk_class "buf" (Some 3%nat) ∅ ]}
    {[ 0%nat := mk_instance 0%nat {[ "_p" := BNil ]};
       1%nat := mk_instance 1%nat ∅;
       2%nat := mk_instance 2%nat {[ "_p" := BComptr 77 ]};
       3%nat := mk_instance 4%nat ∅;
       4%nat := mk_instance 0%nat {[ "_p" := BInstance 4%nat ]};
       5%nat := mk_instance 0%nat {[ "_p" := BInstance 2%nat ]} ]}
    {[ 0%nat := {[ "gen_cb" := BNtvfunc 9%nat ]} ]}.

Definition zoo_vm (st : list bvalue) : bvm := mk_vm zoo_world st [].

(** What the callables of the sample machine do: the class [lv_obj] gives
    instance 0, its [init] gives nil, the buffer accessor gives the pointer
    4242 and the callback generator the pointer 555. *)
Definition zoo_call : bworld -> bvalue -> list bvalue -> bexception + (bvalue * bworld) :=
  fun w f args =>
    match f with
    | BClass 0%nat => inr (BInstance 0%nat, w)
    | BClosure 7%nat => inr (BNil, w)
    | BNtvfunc 3%nat => inr (BComptr 4242, w)
    | BNtvfunc 9%nat => inr (BComptr 555, w)
    | _ => inl (Exception "type_error" "not callable")
    end.

Arguments be_call berry_call argc vm : simpl never.

(** ** Running the monad *)

Lemma bind_Done {A B} (m : M A) (k : A -> M B) vm a vm' :
  m vm = Done a vm' -> bind m k vm = k a vm'.
Proof. unfold bind. intros ->. reflexivity. Qed.

Lemma bind_Throw {A B} (m : M A) (k : A -> M B) vm e vm' :
  m vm = Throw e vm' -> bind m k vm = Throw e vm'.
Proof. unfold bind. intros ->. reflexivity. Qed.

(** ** Stack access *)

Lemma abs_index_pos vm idx : 0 < idx -> abs_index vm idx = idx.
Proof. unfold abs_index. intros H. apply Z.ltb_lt in H. rewrite H. reflexivity. Qed.

Lemma index_of_Done idx vm v vm' :
  index_of idx vm = Done v vm' ->
  vm' = vm /\ 1 <= abs_index vm idx <= top_of vm
  /\ stack vm !! Z.to_nat (abs_index vm idx - 1) = Some v.
Proof.
  unfold index_of. intros H.
  destruct ((1 <=? abs_index vm idx) && (abs_index vm idx <=? top_of vm)) eqn:E;
    [|discriminate].
  apply andb_true_iff in E as [E1 E2].
  apply Z.leb_le in E1. apply Z.leb_le in E2.
  destruct (stack vm !! Z.to_nat (abs_index vm idx - 1)) eqn:L; [|discriminate].
  inversion H; subst. auto.
Qed.

Lemma index_of_lookup w st l idx v :
  1 <= idx -> st !! Z.to_nat (idx - 1) = Some v ->
  index_of idx (mk_vm w st l) = Done v (mk_vm w st l).
Proof.
  intros Hi Hl. unfold index_of.
  rewrite abs_index_pos by lia.
  assert (Hlen : (Z.to_nat (idx - 1) < length st)%nat)
    by (apply lookup_lt_is_Some; eauto).
  unfold top_of. simpl stack.
  replace ((1 <=? idx) && (idx <=? Z.of_nat (length st))) with true.
  - rewrite Hl. reflexivity.
  - symmetry. apply andb_true_iff. split; [apply Z.leb_le|apply Z.leb_le]; lia.
Qed.

(** Reading at the absolute index gives what reading at the index gave. *)
Lemma index_of_abs idx vm v :
  index_of idx vm = Done v vm ->
  index_of (abs_index vm idx) vm = Done v vm.
Proof.
  intros H. apply index_of_Done in H as (_ & Hr & Hl).
  destruct vm as [w st l]. apply index_of_lookup; [lia|exact Hl].
Qed.

(** The [k]-th value from the top. *)
Lemma index_of_top w st l (k : Z) v :
  1 <= k -> reverse st !! Z.to_nat (k - 1) = Some v ->
  index_of (- k) (mk_vm w st l) = Done v (mk_vm w st l).
Proof.
  intros Hk Hl. unfold index_of, abs_index, top_of. simpl stack.
  apply reverse_lookup_Some in Hl as [Hl Hlen].
  replace (0 <? - k) with false by (symmetry; apply Z.ltb_ge; lia).
  replace ((1 <=? Z.of_nat (length st) + - k + 1)
           && (Z.of_nat (length st) + - k + 1 <=? Z.of_nat (length st))) with true
    by (symmetry; apply andb_true_iff; split; apply Z.leb_le; lia).
  replace (Z.to_nat (Z.of_nat (length st) + - k + 1 - 1))
    with (length st - S (Z.to_nat (k - 1)))%nat by lia.
  rewrite Hl. reflexivity.
Qed.

Lemma index_of_m1 w st l a :
  index_of (-1) (mk_vm w (st ++ [a]) l) = Done a (mk_vm w (st ++ [a]) l).
Proof.
  apply (index_of_top w (st ++ [a]) l 1); [lia|].
  rewrite reverse_app. reflexivity.
Qed.

Lemma index_of_m2 w st l a b :
  index_of (-2) (mk_vm w (st ++ [a; b]) l) = Done a (mk_vm w (st ++ [a; b]) l).
Proof.
  apply (index_of_top w (st ++ [a; b]) l 2); [lia|].
  rewrite reverse_app. reflexivity.
Qed.

Lemma index_of_m3 w st l a b c :
  index_of (-3) (mk_vm w (st ++ [a; b; c]) l)
  = Done a (mk_vm w (st ++ [a; b; c]) l).
Proof.
  apply (index_of_top w (st ++ [a; b; c]) l 3); [lia|].
  rewrite reverse_app. reflexivity.
Qed.

(** A value below the top is not moved by a push. *)
Lemma index_of_below w st t l idx v :
  index_of idx (mk_vm w st l) = Done v (mk_vm w st l) -> 0 < idx ->
  index_of idx (mk_vm w (st ++ t) l) = Done v (mk_vm w (st ++ t) l).
Proof.
  intros H Hpos. apply index_of_Done in H as (_ & Hr & Hl).
  rewrite abs_index_pos in Hl, Hr by lia. simpl in Hl.
  apply index_of_lookup; [lia|].
  apply lookup_app_l_Some. exact Hl.
Qed.

Lemma be_pop_app w st t l n :
  n = Z.of_nat (length t) ->
  be_pop n (mk_vm w (st ++ t) l) = Done tt (mk_vm w st l).
Proof.
  intros ->. unfold be_pop, top_of, set_stack. simpl.
  rewrite length_app.
  replace ((0 <=? Z.of_nat (length t))
           && (Z.of_nat (length t) <=? Z.of_nat (length st + length t))) with true
    by (symmetry; apply andb_true_iff; split; apply Z.leb_le; lia).
  replace (Z.to_nat (Z.of_nat (length st + length t) - Z.of_nat (length t)))
    with (length st) by lia.
  rewrite take_app_length. reflexivity.
Qed.

Lemma push_app w st l v :
  push v (mk_vm w st l) = Done tt (mk_vm w (st ++ [v]) l).
Proof. reflexivity. Qed.

(** ** The conversion of a simple value *)

Section SimpleValues.

Variable berry_call :
  bworld -> bvalue -> list bvalue -> bexception + (bvalue * bworld).
Variable str_addr : string -> Z.

Lemma convert_simple_at idx vm v :
  index_of idx vm = Done v vm ->
  convert_simple str_addr idx vm
  = Done (simple_word str_addr v, simple_letter v) vm.
Proof.
  intros H. unfold convert_simple, be_isint, be_isbool, be_isstring,
    be_iscomptr, be_isnil, be_toint, be_tobool, be_tostring, be_tocomptr.
  destruct v; unfold bind; rewrite ?H; cbn; rewrite ?H; cbn; rewrite ?H; cbn;
    rewrite ?H; cbn; rewrite ?H; cbn; rewrite ?H; reflexivity.
Qed.

Lemma simple_letter_NUL v : simple_letter v = NUL <-> is_simple v = false.
Proof. destruct v; cbn; split; intros H; try reflexivity; discriminate. Qed.

Lemma be_convert_single_elt_simple fuel idx arg_type gen_cb vm v :
  index_of idx vm = Done v vm ->
  is_simple v = true ->
  is_callback_tag (tag_or_wildcard arg_type) = false ->
  be_convert_single_elt berry_call str_addr fuel idx arg_type gen_cb vm
  = if type_ok str_addr (tag_or_wildcard arg_type) v
    then Done (simple_word str_addr v) vm
    else Throw (Exception "type_error"
                  ("Unexpected argument type '" +:+ fmt_c (simple_letter v)
                   +:+ "', expected '" +:+ tag_or_wildcard arg_type +:+ "'")) vm.
Proof.
  intros Hidx Hs Hcb. apply index_of_abs in Hidx.
  assert (Hl : Ascii.eqb (simple_letter v) NUL = false).
  { apply Ascii.eqb_neq. intros E. apply simple_letter_NUL in E. congruence. }
  unfold is_callback_tag, tag_or_wildcard in Hcb.
  destruct fuel; cbn [be_convert_single_elt];
    unfold bind at 1; unfold be_absindex;
    rewrite Hcb;
    rewrite (bind_Done _ _ _ _ _ (convert_simple_at _ _ _ Hidx));
    rewrite Hl; cbn [negb]; unfold type_ok, tag_or_wildcard;
    match goal with |- context [negb ?b] => destruct b end; reflexivity.
Qed.

End SimpleValues.

(** C3. For every tag that names a class (more than one character, no
    caret in front) and every nil or null-valued argument, the conversion
    succeeds with the word 0 and leaves the virtual machine as it was; the
    class name is never looked up, so that it does not matter whether the
    class exists. *)
Theorem C3_named_class_accepts_null :
  forall berry_call str_addr fuel idx tag gen_cb vm v,
    named_class_tag tag ->
    index_of idx vm = Done v vm ->
    null_valued v ->
    be_convert_single_elt berry_call str_addr fuel idx (Some tag) gen_cb vm
    = Done 0 vm.
Proof.
  intros berry_call str_addr fuel idx tag gen_cb vm v [Hlen Hc] Hidx Hv.
  rewrite (be_convert_single_elt_simple berry_call str_addr fuel idx (Some tag)
             gen_cb vm v Hidx).
  - unfold type_ok, tag_or_wildcard.
    assert (H1 : (strlen tag =? 1) = false) by (apply Z.eqb_neq; lia).
    rewrite H1. destruct Hv; cbn; rewrite ?orb_true_r; reflexivity.
  - destruct Hv; reflexivity.
  - unfold is_callback_tag, tag_or_wildcard.
    apply andb_false_iff. right. apply Ascii.eqb_neq. exact Hc.
Qed.

(** ** The primitives on a known stack *)

Lemma be_getglobal_at w st l name :
  be_getglobal (Some name) (mk_vm w st l)
  = match global_find w name with
    | Some v => Done true (mk_vm w (st ++ [v]) l)
    | None => Done false (mk_vm w (st ++ [BNil]) l)
    end.
Proof.
  unfold be_getglobal, bind, get_vm. cbn [world].
  destruct (global_find w name); reflexivity.
Qed.

Lemma be_getbuiltin_at w st l name :
  be_getbuiltin name (mk_vm w st l)
  = Done (bool_decide (is_Some (builtins w !! name)))
      (mk_vm w (st ++ [default BNil (builtins w !! name)]) l).
Proof.
  unfold be_getbuiltin, bind, get_vm. cbn [world].
  destruct (builtins w !! name); reflexivity.
Qed.

Lemma be_getmember_at w st l idx o name :
  index_of idx (mk_vm w st l) = Done o (mk_vm w st l) ->
  be_getmember idx name (mk_vm w st l)
  = Done (bool_decide (is_Some (lookup_member w o name)))
      (mk_vm w (st ++ [default BNil (lookup_member w o name)]) l).
Proof.
  intros H. unfold be_getmember. rewrite (bind_Done _ _ _ _ _ H).
  unfold bind, get_vm. cbn [world].
  destruct (lookup_member w o name); reflexivity.
Qed.

Lemma be_isinstance_at idx vm v :
  index_of idx vm = Done v vm -> be_isinstance idx vm = Done (is_instance v) vm.
Proof.
  intros H. unfold be_isinstance. rewrite (bind_Done _ _ _ _ _ H).
  destruct v; reflexivity.
Qed.

Lemma be_pushvalue_at w st l idx v :
  index_of idx (mk_vm w st l) = Done v (mk_vm w st l) ->
  be_pushvalue idx (mk_vm w st l) = Done tt (mk_vm w (st ++ [v]) l).
Proof. intros H. unfold be_pushvalue. rewrite (bind_Done _ _ _ _ _ H). reflexivity. Qed.

Lemma be_remove_m2 w st l a b :
  be_remove (-2) (mk_vm w (st ++ [a; b]) l) = Done tt (mk_vm w (st ++ [b]) l).
Proof.
  unfold be_remove. rewrite (bind_Done _ _ _ _ _ (index_of_m2 w st l a b)).
  unfold abs_index, top_of, set_stack. cbn [stack world native_calls].
  rewrite length_app. cbn [length].
  replace (0 <? -2) with false by reflexivity.
  replace (Z.to_nat (Z.of_nat (length st + 2) + -2 + 1 - 1)) with (length st) by lia.
  rewrite take_app_length.
  replace (S (length st)) with (length st + 1)%nat by lia.
  rewrite drop_app_add. reflexivity.
Qed.

Lemma be_remove_m3 w st l a b c :
  be_remove (-3) (mk_vm w (st ++ [a; b; c]) l) = Done tt (mk_vm w (st ++ [b; c]) l).
Proof.
  unfold be_remove. rewrite (bind_Done _ _ _ _ _ (index_of_m3 w st l a b c)).
  unfold abs_index, top_of, set_stack. cbn [stack world native_calls].
  rewrite length_app. cbn [length].
  replace (0 <? -3) with false by reflexivity.
  replace (Z.to_nat (Z.of_nat (length st + 3) + -3 + 1 - 1)) with (length st) by lia.
  rewrite take_app_length.
  replace (S (length st)) with (length st + 1)%nat by lia.
  rewrite drop_app_add. reflexivity.
Qed.

Lemma app_two {A} (st : list A) (a b : A) :
  ((st ++ [a]) ++ [b] = st ++ [a; b])%list.
Proof. rewrite <- app_assoc. reflexivity. Qed.

Lemma app_three {A} (st : list A) (a b c : A) :
  ((st ++ [a; b]) ++ [c] = st ++ [a; b; c])%list.
Proof. rewrite <- app_assoc. reflexivity. Qed.

(** ** The name resolver *)

Lemma append_cons c r s : String c r +:+ s = String c (r +:+ s).
Proof. reflexivity. Qed.

Lemma take_token_no_dot s :
  no_dot s = true -> take_token "." s = (s, EmptyString).
Proof.
  induction s as [|c r IH]; cbn [no_dot take_token]; [reflexivity|].
  intros H. apply andb_true_iff in H as [Hc Hr].
  apply negb_true_iff in Hc. rewrite Hc, (IH Hr). reflexivity.
Qed.

Lemma take_token_dotted s rest :
  no_dot s = true -> take_token "." (s +:+ String "." rest) = (s, rest).
Proof.
  induction s as [|c r IH]; cbn [no_dot].
  - intros _. reflexivity.
  - intros H. apply andb_true_iff in H as [Hc Hr].
    apply negb_true_iff in Hc. rewrite append_cons. cbn [take_token].
    rewrite Hc, (IH Hr). reflexivity.
Qed.

Lemma split_name_dotted prefix suffix :
  name_part prefix -> name_part suffix ->
  split_name (prefix +:+ "." +:+ suffix) = (Some prefix, Some suffix).
Proof.
  intros [Hp Hpd] [Hs Hsd]. unfold split_name, strtok_r.
  destruct prefix as [|c r]; [congruence|].
  cbn [no_dot] in Hpd. apply andb_true_iff in Hpd as [Hc Hr].
  apply negb_true_iff in Hc.
  rewrite append_cons. cbn [skip_delim]. rewrite Hc.
  cbn [take_token]. rewrite Hc.
  change ("." +:+ suffix) with (String "." suffix).
  rewrite (take_token_dotted r suffix Hr).
  destruct suffix as [|d q]; [congruence|].
  cbn [no_dot] in Hsd. apply andb_true_iff in Hsd as [Hd Hq].
  apply negb_true_iff in Hd.
  cbn [skip_delim]. rewrite Hd. cbn [take_token]. rewrite Hd.
  rewrite (take_token_no_dot q Hq). reflexivity.
Qed.

(** What the resolver returns and leaves on the stack, from the two parts
    of the name. *)
Lemma be_find_global_or_module_member_at w st l name prefix suffix :
  split_name name = (Some prefix, suffix) ->
  be_find_global_or_module_member (Some name) (mk_vm w st l)
  = match suffix with
    | Some sfx =>
        match global_find w prefix with
        | Some g =>
            match lookup_member w g sfx with
            | Some m =>
                if is_instance g then Done 2 (mk_vm w (st ++ [m; g]) l)
                else Done 1 (mk_vm w (st ++ [m]) l)
            | None => Done 0 (mk_vm w st l)
            end
        | None => Done 0 (mk_vm w st l)
        end
    | None =>
        match global_find w prefix with
        | Some g => Done 1 (mk_vm w (st ++ [g]) l)
        | None => Done 0 (mk_vm w st l)
        end
    end.
Proof.
  unfold split_name, be_find_global_or_module_member.
  destruct (strtok_r "." name) as [p saveptr].
  destruct (strtok_r "." saveptr) as [s rest].
  intros H. inversion H; subst. clear H.
  destruct suffix as [sfx|].
  - rewrite (bind_Done _ _ _ _ _ (be_getglobal_at w st l prefix)) || idtac.
    unfold bind at 1. rewrite be_getglobal_at.
    destruct (global_find w prefix) as [g|].
    + unfold bind at 1.
      rewrite (be_getmember_at w (st ++ [g]) l (-1) g sfx (index_of_m1 w st l g)).
      rewrite app_two.
      destruct (lookup_member w g sfx) as [m|]; cbn [from_option id].
      * rewrite bool_decide_eq_true_2 by eauto.
        unfold bind at 1.
        rewrite (be_isinstance_at (-2) _ g (index_of_m2 w st l g m)).
        destruct (is_instance g).
        -- unfold bind at 1.
           rewrite (be_pushvalue_at w _ l (-2) g (index_of_m2 w st l g m)).
           rewrite app_three. unfold bind at 1.
           rewrite be_remove_m3. reflexivity.
        -- unfold bind at 1. rewrite be_remove_m2. reflexivity.
      * rewrite bool_decide_eq_false_2 by (intros [? ?]; discriminate).
        unfold bind at 1.
        rewrite (be_pop_app w st [g; BNil] l 2) by reflexivity. reflexivity.
    + unfold bind at 1.
      rewrite (be_pop_app w st [BNil] l 1) by reflexivity. reflexivity.
  - unfold bind at 1. rewrite be_getglobal_at.
    destruct (global_find w prefix) as [g|].
    + reflexivity.
    + unfold bind at 1.
      rewrite (be_pop_app w st [BNil] l 1) by reflexivity. reflexivity.
Qed.

Lemma be_find_unresolved w st l name :
  unresolved w name = true ->
  be_find_global_or_module_member (Some name) (mk_vm w st l)
  = Done 0 (mk_vm w st l).
Proof.
  unfold unresolved. destruct (split_name name) as [[prefix|] suffix] eqn:E;
    [|discriminate].
  rewrite (be_find_global_or_module_member_at w st l name prefix suffix E).
  destruct suffix as [sfx|].
  - destruct (global_find w prefix) as [g|]; [|reflexivity].
    intros H. apply bool_decide_eq_true in H. rewrite H. reflexivity.
  - intros H. apply bool_decide_eq_true in H. rewrite H. reflexivity.
Qed.

(** C7 (as amended). For every dotted name [module.member] where [module]
    resolves to a global and [member] is found on it, the name resolver
    reports the member together with the global (result 2, the member and
    then the global on the stack) exactly when the global itself is an
    instance, and the member alone (result 1) otherwise.  What the member
    is plays no part. *)
Theorem C7_found_method_iff_global_is_instance :
  forall w st l prefix suffix g m,
    name_part prefix ->
    name_part suffix ->
    global_find w prefix = Some g ->
    lookup_member w g suffix = Some m ->
    be_find_global_or_module_member (Some (prefix +:+ "." +:+ suffix))
      (mk_vm w st l)
    = if is_instance g then Done 2 (mk_vm w (st ++ [m; g]) l)
      else Done 1 (mk_vm w (st ++ [m]) l).
Proof.
  intros w st l prefix suffix g m Hp Hs Hg Hm.
  rewrite (be_find_global_or_module_member_at w st l _ prefix (Some suffix)
             (split_name_dotted prefix suffix Hp Hs)).
  rewrite Hg, Hm. reflexivity.
Qed.

Lemma C7_witness :
  name_part "lv" /\ name_part "obj"
  /\ global_find sample_world "lv" = Some (BModule 0)
  /\ lookup_member sample_world (BModule 0) "obj" = Some (BInstance 0)
  /\ be_find_global_or_module_member (Some "lv.obj") (sample_vm [])
     = Done 1 (sample_vm [BInstance 0]).
Proof.
  assert (H1 : name_part "lv") by (split; [discriminate|reflexivity]).
  assert (H2 : name_part "obj") by (split; [discriminate|reflexivity]).
  assert (H3 : global_find sample_world "lv" = Some (BModule 0))
    by (vm_compute; reflexivity).
  assert (H4 : lookup_member sample_world (BModule 0) "obj" = Some (BInstance 0))
    by (vm_compute; reflexivity).
  exact (conj H1 (conj H2 (conj H3 (conj H4
           (C7_found_method_iff_global_is_instance sample_world [] [] "lv" "obj"
              (BModule 0) (BInstance 0) H1 H2 H3 H4))))).
Defined.

(** C7 as stated fails: [lv.obj] is a member that is an instance, held by a
    module, and is reported alone; [scr.get] is a method, not an instance,
    held by an instance, and is reported with its instance. *)
Lemma C7_counterexample :
  (lookup_member sample_world (BModule 0) "obj" = Some (BInstance 0)
   /\ be_find_global_or_module_member (Some "lv.obj") (sample_vm [])
      = Done 1 (sample_vm [BInstance 0]))
  /\ (lookup_member sample_world (BInstance 0) "get" = Some (BClosure 1)
      /\ be_find_global_or_module_member (Some "scr.get") (sample_vm [])
         = Done 2 (sample_vm [BClosure 1; BInstance 0])).
Proof. vm_compute. repeat split; reflexivity. Qed.

(** ** Machine words *)

Lemma to_int32_range z : is_int32 (to_int32 z).
Proof.
  unfold is_int32, to_int32.
  pose proof (Z.mod_pos_bound (z + 2 ^ 31) (2 ^ 32) ltac:(lia)). lia.
Qed.

Lemma to_int32_small z : is_int32 z -> to_int32 z = z.
Proof.
  unfold is_int32, to_int32. intros H.
  rewrite Z.mod_small by lia. lia.
Qed.

Lemma to_int32_idem z : to_int32 (to_int32 z) = to_int32 z.
Proof. apply to_int32_small, to_int32_range. Qed.

Lemma simple_word_int32 str_addr v :
  to_int32 (simple_word str_addr v) = simple_word str_addr v.
Proof.
  destruct v; cbn [simple_word]; try apply to_int32_idem; try reflexivity.
  destruct b; reflexivity.
Qed.

(** ** The conversion of an instance *)

Lemma be_isderived_bytes w st l idx v :
  index_of idx (mk_vm w st l) = Done v (mk_vm w st l) -> 0 < idx ->
  be_isderived idx (mk_vm w (st ++ [default BNil (builtins w !! "bytes")]) l)
  = Done (derives_from_bytes w v)
      (mk_vm w (st ++ [default BNil (builtins w !! "bytes")]) l).
Proof.
  intros H Hpos. unfold be_isderived.
  rewrite (bind_Done _ _ _ _ _ (index_of_m1 w st l _)).
  rewrite (bind_Done _ _ _ _ _ (index_of_below w st _ l idx v H Hpos)).
  unfold bind, get_vm, derives_from_bytes. cbn [world].
  destruct (class_of_value w (default BNil (builtins w !! "bytes")));
    [|reflexivity].
  destruct (class_of_value w v); reflexivity.
Qed.

Lemma get_pointer_member_at w st l idx v :
  index_of idx (mk_vm w st l) = Done v (mk_vm w st l) ->
  get_pointer_member idx (mk_vm w st l)
  = Done tt (mk_vm w (st ++ [pointer_member w v]) l).
Proof.
  intros H. unfold get_pointer_member, pointer_member.
  unfold bind at 1. rewrite (be_getmember_at w st l idx v "_p" H).
  destruct (lookup_member w v "_p") as [p|]; cbn [from_option id].
  - rewrite bool_decide_eq_true_2 by eauto. reflexivity.
  - rewrite bool_decide_eq_false_2 by (intros [? ?]; discriminate).
    cbn [negb]. unfold bind at 1.
    rewrite (be_pop_app w st [BNil] l 1) by reflexivity.
    unfold bind at 1. rewrite (be_getmember_at w st l idx v ".p" H).
    reflexivity.
Qed.

Lemma be_classof_at w st l idx o ins :
  index_of idx (mk_vm w st l) = Done (BInstance o) (mk_vm w st l) ->
  instances w !! o = Some ins ->
  be_classof idx (mk_vm w st l)
  = Done true (mk_vm w (st ++ [BClass (i_class ins)]) l).
Proof.
  intros H Hi. unfold be_classof. rewrite (bind_Done _ _ _ _ _ H).
  unfold bind, get_vm. cbn [world]. rewrite Hi. reflexivity.
Qed.

Lemma be_classname_instance w st l idx o ins k :
  index_of idx (mk_vm w st l) = Done (BInstance o) (mk_vm w st l) ->
  instances w !! o = Some ins ->
  classes w !! i_class ins = Some k ->
  be_classname idx (mk_vm w st l) = Done (c_name k) (mk_vm w st l).
Proof.
  intros H Hi Hk. unfold be_classname. rewrite (bind_Done _ _ _ _ _ H).
  unfold bind, get_vm. cbn [world class_of_value]. rewrite Hi.
  cbn [fmap option_fmap option_map]. rewrite Hk. reflexivity.
Qed.

Section Instances.

Variable berry_call :
  bworld -> bvalue -> list bvalue -> bexception + (bvalue * bworld).
Variable str_addr : string -> Z.

(** An instance that is no byte buffer and whose pointer member is a simple
    value: the word is the word of the member, and what is left is the
    check of the class. *)
Lemma be_convert_single_elt_instance fuel idx arg_type gen_cb w st l v :
  index_of idx (mk_vm w st l) = Done v (mk_vm w st l) ->
  is_instance v = true ->
  is_callback_tag (tag_or_wildcard arg_type) = false ->
  derives_from_bytes w v = false ->
  is_simple (pointer_member w v) = true ->
  be_convert_single_elt berry_call str_addr (S fuel) idx arg_type gen_cb
    (mk_vm w st l)
  = (check_instance_type (abs_index (mk_vm w st l) idx)
       (tag_or_wildcard arg_type) (strlen (tag_or_wildcard arg_type)) ;;
     ret (simple_word str_addr (pointer_member w v))) (mk_vm w st l).
Proof.
  intros Hidx Hinst Hcb Hbytes Hpm.
  pose proof (index_of_Done _ _ _ _ Hidx) as (_ & Hrange & _).
  apply index_of_abs in Hidx.
  set (a := abs_index (mk_vm w st l) idx) in *.
  assert (Ha : 0 < a) by lia.
  unfold is_callback_tag, tag_or_wildcard in Hcb.
  cbn [be_convert_single_elt].
  unfold bind at 1. unfold be_absindex. fold a.
  rewrite Hcb.
  rewrite (bind_Done _ _ _ _ _ (convert_simple_at str_addr _ _ _ Hidx)).
  destruct v; try discriminate Hinst.
  cbn [simple_letter simple_word].
  change (Ascii.eqb NUL NUL) with true. cbn [negb].
  rewrite (bind_Done _ _ _ _ _ (be_isinstance_at _ _ _ Hidx)). cbn [is_instance].
  rewrite (bind_Done _ _ _ _ _ (be_getbuiltin_at w st l "bytes")).
  rewrite (bind_Done _ _ _ _ _ (be_isderived_bytes w st l a _ Hidx Ha)).
  rewrite Hbytes.
  rewrite (bind_Done _ _ _ _ _ (be_pop_app w st [_] l 1 eq_refl)).
  rewrite (bind_Done _ _ _ _ _ (get_pointer_member_at w st l a _ Hidx)).
  unfold bind at 1.
  rewrite (be_convert_single_elt_simple berry_call str_addr fuel (-1) None None
             _ _ (index_of_m1 w st l _) Hpm eq_refl).
  replace (type_ok str_addr (tag_or_wildcard None) (pointer_member w (BInstance o)))
    with true by reflexivity.
  rewrite (bind_Done _ _ _ _ _ (be_pop_app w st [_] l 1 eq_refl)).
  rewrite simple_word_int32. reflexivity.
Qed.

End Instances.




(** C8 (as amended). For every instance that has no [_p] member, no [.p]
    member and does not derive from the byte buffer class, the missing
    pointer member reads as nil and the word is 0: with the wildcard tag the
    conversion succeeds with 0, and with another tag of at most one letter
    it fails with "Unexpected instance type".  (The error "Unexpected
    '<kind>'" is kept for the values that are neither simple nor
    instances.) *)
Theorem C8_bare_instance_reads_as_null :
  forall berry_call str_addr fuel idx gen_cb w st l o ins k tag,
    index_of idx (mk_vm w st l) = Done (BInstance o) (mk_vm w st l) ->
    instances w !! o = Some ins ->
    classes w !! i_class ins = Some k ->
    lookup_member w (BInstance o) "_p" = None ->
    lookup_member w (BInstance o) ".p" = None ->
    derives_from_bytes w (BInstance o) = false ->
    strlen tag <= 1 ->
    be_convert_single_elt berry_call str_addr (S fuel) idx (Some tag) gen_cb
      (mk_vm w st l)
    = if Ascii.eqb (char_at tag 0) "." then Done 0 (mk_vm w st l)
      else Throw (Exception "value_error"
                    ("Unexpected instance type '" +:+ c_name k
                     +:+ "', expected '" +:+ tag +:+ "'")) (mk_vm w st l).
Proof.
  intros berry_call str_addr fuel idx gen_cb w st l o ins k tag
    Hidx Hins Hk Hp Hdp Hbytes Hlen.
  assert (Hpm : pointer_member w (BInstance o) = BNil).
  { unfold pointer_member. rewrite Hp, Hdp. reflexivity. }
  assert (Hlt : (1 <? strlen tag) = false) by (apply Z.ltb_ge; lia).
  rewrite (be_convert_single_elt_instance berry_call str_addr fuel idx (Some tag)
             gen_cb w st l (BInstance o) Hidx eq_refl).
  - cbn [tag_or_wildcard]. rewrite Hpm. cbn [simple_word].
    unfold check_instance_type. rewrite Hlt.
    destruct (Ascii.eqb (char_at tag 0) "."); cbn [negb].
    + reflexivity.
    + apply index_of_abs in Hidx.
      unfold bind at 1. unfold bind at 1.
      rewrite (be_classname_instance w st l _ o ins k Hidx Hins Hk).
      reflexivity.
  - unfold is_callback_tag, tag_or_wildcard. rewrite Hlt. reflexivity.
  - exact Hbytes.
  - rewrite Hpm. reflexivity.
Qed.

Lemma C8_witness :
  index_of 1 (sample_vm [BInstance 1]) = Done (BInstance 1) (sample_vm [BInstance 1])
  /\ instances sample_world !! 1%nat = Some (mk_instance 1%nat ∅)
  /\ classes sample_world !! 1%nat = Some (mk_class "bare" None ∅)
  /\ lookup_member sample_world (BInstance 1) "_p" = None
  /\ lookup_member sample_world (BInstance 1) ".p" = None
  /\ derives_from_bytes sample_world (BInstance 1) = false
  /\ strlen "i" <= 1
  /\ be_convert_single_elt no_call addr_of 1 1 (Some "i") None
       (sample_vm [BInstance 1])
     = Throw (Exception "value_error" "Unexpected instance type 'bare', expected 'i'")
         (sample_vm [BInstance 1]).
Proof.
  assert (H1 : index_of 1 (sample_vm [BInstance 1])
               = Done (BInstance 1) (sample_vm [BInstance 1])) by reflexivity.
  assert (H2 : instances sample_world !! 1%nat = Some (mk_instance 1%nat ∅))
    by (vm_compute; reflexivity).
  assert (H3 : classes sample_world !! 1%nat = Some (mk_class "bare" None ∅))
    by (vm_compute; reflexivity).
  assert (H4 : lookup_member sample_world (BInstance 1) "_p" = None)
    by (vm_compute; reflexivity).
  assert (H5 : lookup_member sample_world (BInstance 1) ".p" = None)
    by (vm_compute; reflexivity).
  assert (H6 : derives_from_bytes sample_world (BInstance 1) = false)
    by (vm_compute; reflexivity).
  assert (H7 : strlen "i" <= 1) by (vm_compute; discriminate).
  exact (conj H1 (conj H2 (conj H3 (conj H4 (conj H5 (conj H6 (conj H7
    (C8_bare_instance_reads_as_null no_call addr_of 0 1 None sample_world
       [BInstance 1] [] 1%nat _ _ "i" H1 H2 H3 H4 H5 H6 H7)))))))).
Defined.

(** C8 as stated fails: an instance of the class [bare], which has no
    member at all and no byte buffer among its ancestors, is converted with
    the wildcard tag to the word 0. *)
Lemma C8_counterexample :
  lookup_member sample_world (BInstance 1) "_p" = None
  /\ lookup_member sample_world (BInstance 1) ".p" = None
  /\ derives_from_bytes sample_world (BInstance 1) = false
  /\ be_convert_single_elt no_call addr_of 1 1 (Some ".") None
       (sample_vm [BInstance 1])
     = Done 0 (sample_vm [BInstance 1]).
Proof. vm_compute. repeat split; reflexivity. Qed.

(** The error "Unexpected '<kind>'" is raised for a value that is neither
    simple nor an instance. *)
Lemma unexpected_value_kind berry_call str_addr fuel idx arg_type gen_cb vm v :
  index_of idx vm = Done v vm ->
  is_simple v = false ->
  is_instance v = false ->
  is_callback_tag (tag_or_wildcard arg_type) = false ->
  exists tn,
    be_typename idx vm = Done tn vm
    /\ be_convert_single_elt berry_call str_addr fuel idx arg_type gen_cb vm
       = Throw (Exception "value_error" ("Unexpected '" +:+ tn +:+ "'")) vm.
Proof.
  intros Hidx Hs Hi Hcb.
  assert (Ht : forall i, index_of i vm = Done v vm ->
             exists tn, be_typename i vm = Done tn vm).
  { intros i H. unfold be_typename. rewrite (bind_Done _ _ _ _ _ H).
    eexists. reflexivity. }
  pose proof (index_of_abs _ _ _ Hidx) as Habs.
  destruct (Ht _ Habs) as [tn Htn].
  exists tn. split.
  { unfold be_typename in *. rewrite (bind_Done _ _ _ _ _ Hidx).
    rewrite (bind_Done _ _ _ _ _ Habs) in Htn. exact Htn. }
  unfold is_callback_tag, tag_or_wildcard in Hcb.
  destruct fuel; cbn [be_convert_single_elt];
    unfold bind at 1; unfold be_absindex; rewrite Hcb;
    rewrite (bind_Done _ _ _ _ _ (convert_simple_at str_addr _ _ _ Habs));
    (assert (Hl : simple_letter v = NUL) by (apply simple_letter_NUL; exact Hs));
    rewrite Hl; change (Ascii.eqb NUL NUL) with true; cbn [negb];
    rewrite (bind_Done _ _ _ _ _ (be_isinstance_at _ _ _ Habs)); rewrite Hi;
    rewrite (bind_Done _ _ _ _ _ Htn); reflexivity.
Qed.

(** ** The constructor pointer store *)

Lemma strlen_nonempty name : name <> EmptyString -> (strlen name =? 0) = false.
Proof.
  intros H. apply Z.eqb_neq. unfold strlen.
  destruct name; [congruence|]. cbn [String.length]. lia.
Qed.

Lemma be_setmember_instance w st l o ins old name v :
  st !! 0%nat = Some (BInstance o) ->
  instances w !! o = Some ins ->
  i_fields ins !! name = Some old ->
  be_setmember 1 name (mk_vm w (st ++ [v]) l)
  = Done true (mk_vm (store_member w o ins name v) (st ++ [v]) l).
Proof.
  intros Hst Hins Hf. unfold be_setmember.
  assert (H1 : index_of 1 (mk_vm w (st ++ [v]) l)
               = Done (BInstance o) (mk_vm w (st ++ [v]) l)).
  { apply index_of_lookup; [lia|]. apply lookup_app_l_Some. exact Hst. }
  rewrite (bind_Done _ _ _ _ _ H1).
  rewrite (bind_Done _ _ _ _ _ (index_of_m1 w st l v)).
  unfold bind, get_vm, put_vm. cbn [world]. rewrite Hins, Hf. reflexivity.
Qed.

(** With a member name after the [+] and an instance at position 1 that
    has this member, the pointer is stored and the stack is as before. *)
Lemma be_set_ctor_ptr_stores w st l o ins old name ptr :
  name <> EmptyString ->
  st !! 0%nat = Some (BInstance o) ->
  instances w !! o = Some ins ->
  i_fields ins !! name = Some old ->
  be_set_ctor_ptr ptr (Some (String "+" name)) (mk_vm w st l)
  = Done tt (mk_vm (store_member w o ins name (BComptr ptr)) st l).
Proof.
  intros Hname Hst Hins Hf. unfold be_set_ctor_ptr.
  change (char_at (String "+" name) 0) with "+"%char.
  change (Ascii.eqb "+" "+") with true. cbn [str_drop].
  rewrite (strlen_nonempty name Hname).
  unfold be_pushcomptr. rewrite (bind_Done _ _ _ _ _ (push_app w st l _)).
  rewrite (bind_Done _ _ _ _ _
             (be_setmember_instance w st l o ins old name _ Hst Hins Hf)).
  apply be_pop_app. reflexivity.
Qed.

Lemma store_member_lookup w o ins name v :
  lookup_member (store_member w o ins name v) (BInstance o) name = Some v.
Proof.
  unfold lookup_member, instance_member, store_member, set_instances.
  cbn [instances]. rewrite lookup_insert_eq. cbn [i_fields].
  rewrite lookup_insert_eq. reflexivity.
Qed.

Lemma store_member_class_of w o ins name v x :
  instances w !! o = Some ins ->
  class_of_value (store_member w o ins name v) x = class_of_value w x.
Proof.
  intros Hins. destruct x; try reflexivity.
  unfold class_of_value, store_member, set_instances. cbn [instances].
  destruct (decide (o0 = o)) as [->|Hne].
  - rewrite lookup_insert_eq, Hins. reflexivity.
  - rewrite lookup_insert_ne by congruence. reflexivity.
Qed.

Lemma store_member_bytes w o ins name v x :
  instances w !! o = Some ins ->
  derives_from_bytes (store_member w o ins name v) x = derives_from_bytes w x.
Proof.
  intros Hins. unfold derives_from_bytes.
  rewrite !(store_member_class_of w o ins name v _ Hins).
  reflexivity.
Qed.

(** The round trip for any [P]: the word is [P] cut to 32 bits. *)
Lemma ctor_store_roundtrip_word berry_call str_addr fuel gen_cb w st l o ins old P :
  st !! 0%nat = Some (BInstance o) ->
  instances w !! o = Some ins ->
  i_fields ins !! "_p" = Some old ->
  derives_from_bytes w (BInstance o) = false ->
  be_set_ctor_ptr P (Some "+_p") (mk_vm w st l)
  = Done tt (mk_vm (store_member w o ins "_p" (BComptr P)) st l)
  /\ be_convert_single_elt berry_call str_addr (S fuel) 1 (Some ".") gen_cb
       (mk_vm (store_member w o ins "_p" (BComptr P)) st l)
     = Done (to_int32 P) (mk_vm (store_member w o ins "_p" (BComptr P)) st l).
Proof.
  intros Hst Hins Hf Hbytes.
  set (w' := store_member w o ins "_p" (BComptr P)).
  assert (Hidx : index_of 1 (mk_vm w' st l) = Done (BInstance o) (mk_vm w' st l)).
  { apply index_of_lookup; [lia|exact Hst]. }
  assert (Hpm : pointer_member w' (BInstance o) = BComptr P).
  { unfold pointer_member, w'. rewrite store_member_lookup. reflexivity. }
  split.
  - apply (be_set_ctor_ptr_stores w st l o ins old "_p" P);
      [discriminate|exact Hst|exact Hins|exact Hf].
  - rewrite (be_convert_single_elt_instance berry_call str_addr fuel 1 (Some ".")
               gen_cb w' st l (BInstance o) Hidx eq_refl eq_refl).
    + rewrite Hpm. reflexivity.
    + unfold w'. rewrite (store_member_bytes w o ins "_p" _ _ Hins). exact Hbytes.
    + rewrite Hpm. reflexivity.
Qed.

(** C6. Round trip: for every pointer [P] (a 32-bit word), when the
    constructor pointer store writes [P] into the member [_p] of the
    instance under construction (an object that wraps a pointer: it has the
    member [_p] and is no byte buffer), the conversion of that instance with
    the wildcard tag gives the word [P]. *)
Theorem C6_ctor_store_roundtrip :
  forall berry_call str_addr fuel gen_cb w st l o ins old P,
    is_int32 P ->
    st !! 0%nat = Some (BInstance o) ->
    instances w !! o = Some ins ->
    i_fields ins !! "_p" = Some old ->
    derives_from_bytes w (BInstance o) = false ->
    exists vm',
      be_set_ctor_ptr P (Some "+_p") (mk_vm w st l) = Done tt vm'
      /\ be_convert_single_elt berry_call str_addr (S fuel) 1 (Some ".") gen_cb vm'
         = Done P vm'.
Proof.
  intros berry_call str_addr fuel gen_cb w st l o ins old P HP Hst Hins Hf Hbytes.
  destruct (ctor_store_roundtrip_word berry_call str_addr fuel gen_cb w st l o ins
              old P Hst Hins Hf Hbytes) as [Hstore Hconv].
  eexists. split; [exact Hstore|].
  rewrite Hconv, (to_int32_small P HP). reflexivity.
Qed.

Lemma C6_witness :
  is_int32 1234
  /\ [BInstance 0] !! 0%nat = Some (BInstance 0)
  /\ instances sample_world !! 0%nat = Some (mk_instance 0%nat {[ "_p" := BNil ]})
  /\ ({[ "_p" := BNil ]} : gmap string bvalue) !! "_p" = Some BNil
  /\ derives_from_bytes sample_world (BInstance 0) = false
  /\ exists vm',
       be_set_ctor_ptr 1234 (Some "+_p") (sample_vm [BInstance 0]) = Done tt vm'
       /\ be_convert_single_elt no_call addr_of 1 1 (Some ".") None vm'
          = Done 1234 vm'.
Proof.
  assert (H0 : is_int32 1234) by (unfold is_int32; lia).
  assert (H1 : [BInstance 0] !! 0%nat = Some (BInstance 0)) by reflexivity.
  assert (H2 : instances sample_world !! 0%nat
               = Some (mk_instance 0%nat {[ "_p" := BNil ]}))
    by (vm_compute; reflexivity).
  assert (H3 : ({[ "_p" := BNil ]} : gmap string bvalue) !! "_p" = Some BNil)
    by (vm_compute; reflexivity).
  assert (H4 : derives_from_bytes sample_world (BInstance 0) = false)
    by (vm_compute; reflexivity).
  exact (conj H0 (conj H1 (conj H2 (conj H3 (conj H4
    (C6_ctor_store_roundtrip no_call addr_of 0 None sample_world [BInstance 0] []
       0%nat (mk_instance 0%nat {[ "_p" := BNil ]}) BNil 1234 H0 H1 H2 H3 H4)))))).
Defined.

(** ** The native function is called by line 379 only

    Everything but [invoke] leaves the record of the native calls as it
    is. *)

Create HintDb keeps discriminated.

Lemma keeps_ret {A} (a : A) : keeps_calls (ret a).
Proof. intros vm. reflexivity. Qed.

Lemma keeps_bind {A B} (m : M A) (k : A -> M B) :
  keeps_calls m -> (forall a, keeps_calls (k a)) -> keeps_calls (bind m k).
Proof.
  intros Hm Hk vm. unfold bind. specialize (Hm vm).
  destruct (m vm) as [a vm1|e vm1|why|]; cbn in *; try exact I; try exact Hm.
  specialize (Hk a vm1). destruct (k a vm1); cbn in *; try exact I; congruence.
Qed.

Lemma keeps_raise {A} c m : keeps_calls (@be_raise A c m).
Proof. intros vm. reflexivity. Qed.

Lemma keeps_throw {A} e : keeps_calls (@be_throw A e).
Proof. intros vm. reflexivity. Qed.

Lemma keeps_undefined {A} why : keeps_calls (@undefined A why).
Proof. intros vm. exact I. Qed.

Lemma keeps_timeout {A} : keeps_calls (@timeout A).
Proof. intros vm. exact I. Qed.

Lemma keeps_get_vm : keeps_calls get_vm.
Proof. intros vm. reflexivity. Qed.

Lemma keeps_index_of idx : keeps_calls (index_of idx).
Proof.
  intros vm. unfold index_of.
  destruct ((1 <=? abs_index vm idx) && (abs_index vm idx <=? top_of vm));
    [|exact I].
  destruct (stack vm !! Z.to_nat (abs_index vm idx - 1)); [reflexivity|exact I].
Qed.

Lemma keeps_push v : keeps_calls (push v).
Proof. intros vm. reflexivity. Qed.

Lemma keeps_be_pop n : keeps_calls (be_pop n).
Proof.
  intros vm. unfold be_pop.
  destruct ((0 <=? n) && (n <=? top_of vm)); [reflexivity|exact I].
Qed.

Lemma keeps_be_absindex idx : keeps_calls (be_absindex idx).
Proof. intros vm. reflexivity. Qed.

Lemma keeps_be_top : keeps_calls be_top.
Proof. intros vm. reflexivity. Qed.

#[global] Hint Resolve keeps_ret keeps_raise keeps_throw keeps_undefined
  keeps_timeout keeps_get_vm keeps_index_of keeps_push keeps_be_pop
  keeps_be_absindex keeps_be_top : keeps.

Ltac keeps_step :=
  match goal with
  | |- keeps_calls (bind _ _) => apply keeps_bind; [|intro]
  | |- keeps_calls (if ?b then _ else _) => destruct b
  | |- keeps_calls (match ?x with _ => _ end) => destruct x
  | |- keeps_calls _ => solve [eauto with keeps]
  end.

Ltac keeps := repeat keeps_step.

Lemma keeps_be_remove idx : keeps_calls (be_remove idx).
Proof.
  unfold be_remove. apply keeps_bind; [auto with keeps|].
  intros _ vm. reflexivity.
Qed.

Lemma keeps_be_setmember idx name : keeps_calls (be_setmember idx name).
Proof.
  unfold be_setmember. apply keeps_bind; [auto with keeps|]. intros o.
  apply keeps_bind; [auto with keeps|]. intros v.
  intros vm. unfold bind, get_vm, put_vm, ret.
  destruct o; try reflexivity.
  - destruct (instances (world vm) !! o); [|reflexivity].
    destruct (i_fields b !! name); reflexivity.
  - destruct (modules (world vm) !! m); reflexivity.
Qed.

Lemma keeps_be_isint idx : keeps_calls (be_isint idx).
Proof. unfold be_isint. keeps. Qed.
Lemma keeps_be_isbool idx : keeps_calls (be_isbool idx).
Proof. unfold be_isbool. keeps. Qed.
Lemma keeps_be_isstring idx : keeps_calls (be_isstring idx).
Proof. unfold be_isstring. keeps. Qed.
Lemma keeps_be_iscomptr idx : keeps_calls (be_iscomptr idx).
Proof. unfold be_iscomptr. keeps. Qed.
Lemma keeps_be_isnil idx : keeps_calls (be_isnil idx).
Proof. unfold be_isnil. keeps. Qed.
Lemma keeps_be_isclosure idx : keeps_calls (be_isclosure idx).
Proof. unfold be_isclosure. keeps. Qed.
Lemma keeps_be_isinstance idx : keeps_calls (be_isinstance idx).
Proof. unfold be_isinstance. keeps. Qed.
Lemma keeps_be_toint idx : keeps_calls (be_toint idx).
Proof. unfold be_toint. keeps. Qed.
Lemma keeps_be_tobool idx : keeps_calls (be_tobool idx).
Proof. unfold be_tobool. keeps. Qed.
Lemma keeps_be_tostring idx : keeps_calls (be_tostring idx).
Proof. unfold be_tostring. keeps. Qed.
Lemma keeps_be_tocomptr idx : keeps_calls (be_tocomptr idx).
Proof. unfold be_tocomptr. keeps. Qed.
Lemma keeps_be_pushvalue idx : keeps_calls (be_pushvalue idx).
Proof. unfold be_pushvalue. keeps. Qed.
Lemma keeps_be_getglobal name : keeps_calls (be_getglobal name).
Proof. unfold be_getglobal. keeps. Qed.
Lemma keeps_be_getbuiltin name : keeps_calls (be_getbuiltin name).
Proof. unfold be_getbuiltin. keeps. Qed.
Lemma keeps_be_getmember idx name : keeps_calls (be_getmember idx name).
Proof. unfold be_getmember. keeps. Qed.
Lemma keeps_be_classof idx : keeps_calls (be_classof idx).
Proof. unfold be_classof. keeps. Qed.
Lemma keeps_be_isderived idx : keeps_calls (be_isderived idx).
Proof. unfold be_isderived. keeps. Qed.
Lemma keeps_be_classname idx : keeps_calls (be_classname idx).
Proof. unfold be_classname. keeps. Qed.
Lemma keeps_be_typename idx : keeps_calls (be_typename idx).
Proof. unfold be_typename. keeps. Qed.

#[global] Hint Resolve keeps_be_remove keeps_be_setmember keeps_be_isint
  keeps_be_isbool keeps_be_isstring keeps_be_iscomptr keeps_be_isnil
  keeps_be_isclosure keeps_be_isinstance keeps_be_toint keeps_be_tobool
  keeps_be_tostring keeps_be_tocomptr keeps_be_pushvalue keeps_be_getglobal
  keeps_be_getbuiltin keeps_be_getmember keeps_be_classof keeps_be_isderived
  keeps_be_classname keeps_be_typename : keeps.

Lemma keeps_be_find name : keeps_calls (be_find_global_or_module_member name).
Proof.
  unfold be_find_global_or_module_member, be_pushnil.
  destruct name as [n|]; [|keeps].
  destruct (strtok_r "." n) as [prefix saveptr].
  destruct (strtok_r "." saveptr) as [suffix rest].
  keeps.
Qed.

Lemma keeps_be_set_ctor_ptr ptr name : keeps_calls (be_set_ctor_ptr ptr name).
Proof. unfold be_set_ctor_ptr, be_pushcomptr. keeps. Qed.

Lemma keeps_get_pointer_member idx : keeps_calls (get_pointer_member idx).
Proof. unfold get_pointer_member. keeps. Qed.

#[global] Hint Resolve keeps_be_find keeps_be_set_ctor_ptr
  keeps_get_pointer_member : keeps.

Lemma keeps_check_instance_type idx t n : keeps_calls (check_instance_type idx t n).
Proof. unfold check_instance_type. keeps. Qed.

#[global] Hint Resolve keeps_check_instance_type : keeps.

Section KeepsCalls.

Variable berry_call :
  bworld -> bvalue -> list bvalue -> bexception + (bvalue * bworld).
Variable str_addr : string -> Z.

Lemma keeps_be_call argc : keeps_calls (be_call berry_call argc).
Proof.
  intros vm. unfold be_call.
  destruct ((0 <=? argc) && (argc + 1 <=? top_of vm)); [|exact I].
  destruct (stack vm !! Z.to_nat (top_of vm - argc - 1)); [|exact I].
  destruct (berry_call _ _ _) as [e|[r w']]; reflexivity.
Qed.

#[local] Hint Resolve keeps_be_call : keeps.

Lemma keeps_convert_simple idx : keeps_calls (convert_simple str_addr idx).
Proof. unfold convert_simple. keeps. Qed.

Lemma keeps_convert_callback idx t g :
  keeps_calls (convert_callback berry_call idx t g).
Proof. unfold convert_callback, be_pushstring. keeps. Qed.

#[local] Hint Resolve keeps_convert_simple keeps_convert_callback : keeps.

Lemma keeps_be_convert_single_elt fuel :
  forall idx arg_type gen_cb,
    keeps_calls (be_convert_single_elt berry_call str_addr fuel idx arg_type gen_cb).
Proof.
  induction fuel as [|fuel IH]; intros idx arg_type gen_cb;
    cbn [be_convert_single_elt]; keeps.
Qed.

#[local] Hint Resolve keeps_be_convert_single_elt : keeps.

Lemma keeps_check_loop fuel n :
  forall i arg_start arg_type_check st,
    keeps_calls (check_loop berry_call str_addr fuel n i arg_start arg_type_check st).
Proof.
  induction n as [|n IH]; intros i arg_start arg_type_check st;
    cbn [check_loop]; [keeps|].
  destruct (next_token (ps_arg_type st) (ps_arg_idx st) (ps_buf st))
    as [[[ty idx] buf] skip].
  keeps.
Qed.

#[local] Hint Resolve keeps_check_loop : keeps.

Lemma keeps_be_check_arg_type fuel arg_start argc arg_type p :
  keeps_calls (be_check_arg_type berry_call str_addr fuel arg_start argc arg_type p).
Proof. unfold be_check_arg_type. keeps. Qed.

End KeepsCalls.

#[global] Hint Resolve keeps_be_call keeps_be_check_arg_type : keeps.

(** ** The dispatcher *)

Lemma adopt_test return_type vm :
  (if ctor_mode return_type
   then if 1 <? top_of vm then be_iscomptr 2 else ret false
   else ret false) vm
  = Done (adopts return_type vm) vm.
Proof.
  unfold adopts. destruct (ctor_mode return_type); [|reflexivity].
  destruct (1 <? top_of vm) eqn:E; [|reflexivity].
  apply Z.ltb_lt in E. cbn [andb].
  destruct vm as [w st l]. unfold top_of in E. cbn [stack] in *.
  destruct (st !! 1%nat) as [v|] eqn:Hv.
  - unfold be_iscomptr.
    rewrite (bind_Done _ _ _ _ _ (index_of_lookup w st l 2 v ltac:(lia) Hv)).
    destruct v; reflexivity.
  - apply lookup_ge_None in Hv. lia.
Qed.

Lemma be_tocomptr_at idx vm v :
  index_of idx vm = Done v vm ->
  be_tocomptr idx vm = Done (match v with BComptr p => p | _ => 0 end) vm.
Proof. intros H. unfold be_tocomptr. rewrite (bind_Done _ _ _ _ _ H). reflexivity. Qed.

Section Dispatch.

Variable berry_call :
  bworld -> bvalue -> list bvalue -> bexception + (bvalue * bworld).
Variable str_addr : string -> Z.
Variable c_str_at : Z -> option string.

Lemma be_call_c_func_unfold fuel func return_type arg_type vm :
  be_call_c_func berry_call str_addr c_str_at fuel func return_type arg_type vm
  = if adopts return_type vm then
      (obj <- be_tocomptr 2 ;;
       be_set_ctor_ptr obj return_type ;;
       be_return_nil) vm
    else
      (p <- be_check_arg_type berry_call str_addr fuel
              (if ctor_mode return_type then 2 else 1)
              (if ctor_mode return_type then top_of vm - 1 else top_of vm)
              arg_type p0 ;;
       r <- invoke func p ;;
       match return_type with
       | None => be_return_nil
       | Some rt =>
           if strlen rt =? 0 then be_return_nil
           else if Ascii.eqb (char_at rt 0) "+" then
             be_set_ctor_ptr r return_type ;;
             be_return_nil
           else if strlen rt =? 1 then
             let c := char_at rt 0 in
             (if Ascii.eqb c "." || Ascii.eqb c "i" then be_pushint r
              else if Ascii.eqb c "b" then be_pushbool (negb (r =? 0))
              else if Ascii.eqb c "s" then
                match c_str_at r with
                | Some s => be_pushstring s
                | None => undefined "be_pushstring"
                end
              else if Ascii.eqb c "c" then be_pushint r
              else be_raise "internal_error" "Unsupported return type") ;;
             be_return
           else
             be_find_global_or_module_member return_type ;;
             be_pushcomptr r ;;
             be_pushcomptr (-1) ;;
             be_call berry_call 2 ;;
             be_pop 2 ;;
             be_return
       end) vm.
Proof.
  unfold be_call_c_func. unfold bind at 1. unfold be_top.
  unfold bind at 1. rewrite adopt_test.
  destruct (adopts return_type vm); reflexivity.
Qed.

(** A conversion that fails in one round of the loop ends the loop, and a
    conversion that succeeds hands over to the next round. *)
Lemma check_loop_failure fuel n i arg_start chk st ty idx buf e vm vm' :
  next_token (ps_arg_type st) (ps_arg_idx st) (ps_buf st) = (ty, idx, buf, false) ->
  be_convert_single_elt berry_call str_addr fuel (i + arg_start)
    (if chk : bool then Some (c_str buf) else None) (Some "_lvgl.gen_cb") vm
  = Throw e vm' ->
  check_loop berry_call str_addr fuel (S n) i arg_start chk st vm = Throw e vm'.
Proof.
  intros Ht Hc. cbn [check_loop]. rewrite Ht.
  apply (bind_Throw _ _ _ _ _ Hc).
Qed.

Lemma check_loop_success fuel n i arg_start chk st ty idx buf w vm vm' :
  next_token (ps_arg_type st) (ps_arg_idx st) (ps_buf st) = (ty, idx, buf, false) ->
  be_convert_single_elt berry_call str_addr fuel (i + arg_start)
    (if chk : bool then Some (c_str buf) else None) (Some "_lvgl.gen_cb") vm
  = Done w vm' ->
  ps_p_idx st < 8 ->
  check_loop berry_call str_addr fuel (S n) i arg_start chk st vm
  = check_loop berry_call str_addr fuel n (i + 1) arg_start chk
      (mk_parse ty idx buf (<[Z.to_nat (ps_p_idx st) := w]> (ps_p st))
         (ps_p_idx st + 1)) vm'.
Proof.
  intros Ht Hc Hp. cbn [check_loop]. rewrite Ht.
  rewrite (bind_Done _ _ _ _ _ Hc).
  apply Z.ltb_lt in Hp. rewrite Hp. reflexivity.
Qed.

Lemma check_loop_skip fuel n i arg_start chk st ty idx buf vm :
  next_token (ps_arg_type st) (ps_arg_idx st) (ps_buf st) = (ty, idx, buf, true) ->
  check_loop berry_call str_addr fuel (S n) i arg_start chk st vm
  = check_loop berry_call str_addr fuel n (i + 1) arg_start chk
      (mk_parse ty idx buf (ps_p st) (ps_p_idx st)) vm.
Proof. intros Ht. cbn [check_loop]. rewrite Ht. reflexivity. Qed.

(** A failing conversion ends the loop with its error. *)
Lemma conversion_fails_check_loop fuel arg_start chk n i st vm e vm' :
  conversion_fails berry_call str_addr fuel arg_start chk n i st vm e vm' ->
  check_loop berry_call str_addr fuel n i arg_start chk st vm = Throw e vm'.
Proof.
  induction 1 as [n i st vm ty idx buf e vm' Ht Hc
                 |n i st vm ty idx buf e vm' Ht _ IH
                 |n i st vm ty idx buf w vm1 e vm' Ht Hc Hp _ IH].
  - exact (check_loop_failure fuel n i arg_start chk st ty idx buf e vm vm' Ht Hc).
  - rewrite (check_loop_skip fuel n i arg_start chk st ty idx buf vm Ht). exact IH.
  - rewrite (check_loop_success fuel n i arg_start chk st ty idx buf w vm vm1 Ht Hc Hp).
    exact IH.
Qed.

(** The check of the arguments raises: so does the dispatch, and the native
    function is not called. *)
Lemma check_failure_prevents_invocation fuel func return_type arg_type vm e vm' :
  be_check_arg_type berry_call str_addr fuel
    (if ctor_mode return_type then 2 else 1)
    (if ctor_mode return_type then top_of vm - 1 else top_of vm)
    arg_type p0 vm
  = Throw e vm' ->
  no_native_call vm
    (be_call_c_func berry_call str_addr c_str_at fuel func return_type arg_type vm)
  /\ (adopts return_type vm = true
      \/ be_call_c_func berry_call str_addr c_str_at fuel func return_type
           arg_type vm
         = Throw e vm').
Proof.
  intros H.
  rewrite be_call_c_func_unfold.
  destruct (adopts return_type vm).
  - split; [|left; reflexivity].
    assert (K : keeps_calls (obj <- be_tocomptr 2 ;;
                             be_set_ctor_ptr obj return_type ;; be_return_nil))
      by (unfold be_return_nil; keeps).
    apply K.
  - rewrite (bind_Throw _ _ _ _ _ H). split; [|right; reflexivity].
    pose proof (keeps_be_check_arg_type berry_call str_addr fuel
                  (if ctor_mode return_type then 2 else 1)
                  (if ctor_mode return_type then top_of vm - 1 else top_of vm)
                  arg_type p0 vm) as K.
    rewrite H in K. exact K.
Qed.

(** C1. For every dispatch, when the conversion of any dynamic argument in
    the window of the call fails with an error, the dispatch ends with this
    error and the native function is not called: the record of the native
    calls is as it was before the dispatch.  (A dispatch that adopts a
    supplied pointer converts no argument at all, and calls nothing
    either.) *)
Theorem C1_conversion_failure_prevents_invocation :
  forall fuel func return_type arg_type vm e vm',
    conversion_fails berry_call str_addr fuel
      (if ctor_mode return_type then 2 else 1)
      (bool_decide (arg_type <> None))
      (Z.to_nat (to_uint32 (if ctor_mode return_type then top_of vm - 1
                            else top_of vm)))
      0 (mk_parse arg_type 0 type_short_name0 p0 0) vm e vm' ->
    no_native_call vm
      (be_call_c_func berry_call str_addr c_str_at fuel func return_type arg_type vm)
    /\ (adopts return_type vm = true
        \/ be_call_c_func berry_call str_addr c_str_at fuel func return_type
             arg_type vm
           = Throw e vm').
Proof.
  intros fuel func return_type arg_type vm e vm' H.
  apply check_failure_prevents_invocation.
  unfold be_check_arg_type.
  apply bind_Throw.
  apply conversion_fails_check_loop. exact H.
Qed.

(** A dispatch that adopts a supplied pointer converts no argument and
    calls nothing, whether the member exists or not. *)
Lemma adopt_calls_nothing fuel func return_type arg_type vm :
  adopts return_type vm = true ->
  no_native_call vm
    (be_call_c_func berry_call str_addr c_str_at fuel func return_type arg_type vm).
Proof.
  intros H. rewrite be_call_c_func_unfold, H.
  assert (K : keeps_calls (obj <- be_tocomptr 2 ;;
                           be_set_ctor_ptr obj return_type ;; be_return_nil))
    by (unfold be_return_nil; keeps).
  apply K.
Qed.

(** C2 (as amended). For every dispatch whose return tag is [+] followed
    by the name of a member, whose first argument is the instance under
    construction, with that member, and whose second argument is the opaque
    pointer [P]: the dispatcher stores [P] in the member and returns nil at
    once.  The arguments are not converted and the native function is not
    called: the record of the native calls is as before. *)
Theorem C2_adopts_supplied_pointer :
  forall fuel func name arg_type w rest l o ins old P,
    name <> EmptyString ->
    instances w !! o = Some ins ->
    i_fields ins !! name = Some old ->
    be_call_c_func berry_call str_addr c_str_at fuel func
      (Some (String "+" name)) arg_type
      (mk_vm w (BInstance o :: BComptr P :: rest) l)
    = Done BNil
        (mk_vm (store_member w o ins name (BComptr P))
           (BInstance o :: BComptr P :: rest) l)
    /\ lookup_member (store_member w o ins name (BComptr P)) (BInstance o) name
       = Some (BComptr P).
Proof.
  intros fuel func name arg_type w rest l o ins old P Hname Hins Hf.
  split; [|apply store_member_lookup].
  rewrite be_call_c_func_unfold.
  replace (adopts (Some (String "+" name))
             (mk_vm w (BInstance o :: BComptr P :: rest) l)) with true.
  - rewrite (bind_Done _ _ _ _ _
               (be_tocomptr_at 2 _ _
                  (index_of_lookup w (BInstance o :: BComptr P :: rest) l 2
                     (BComptr P) ltac:(lia) eq_refl))).
    rewrite (bind_Done _ _ _ _ _
               (be_set_ctor_ptr_stores w (BInstance o :: BComptr P :: rest) l o ins
                  old name P Hname eq_refl Hins Hf)).
    reflexivity.
  - unfold adopts, top_of. cbn [stack length lookup list_lookup].
    symmetry. apply andb_true_iff. split; [|reflexivity].
    apply andb_true_iff. split; [reflexivity|].
    apply Z.ltb_lt. lia.
Qed.

(** C9 (as amended). For every dispatch whose return tag is exactly [+],
    the constructor pointer store does nothing, since no member is named:
    after the native call the dispatcher returns nil, and the virtual
    machine is as the conversion of the arguments left it, but for the
    record of the native call.  No default member is written. *)
Theorem C9_plus_alone_stores_nothing :
  forall fuel func arg_type ptr vm,
    be_set_ctor_ptr ptr (Some "+") vm = Done tt vm
    /\ be_call_c_func berry_call str_addr c_str_at fuel func (Some "+") arg_type vm
       = if adopts (Some "+") vm then Done BNil vm
         else match be_check_arg_type berry_call str_addr fuel 2 (top_of vm - 1)
                      arg_type p0 vm with
              | Done p vm1 =>
                  Done BNil (mk_vm (world vm1) (stack vm1) (native_calls vm1 ++ [p]))
              | Throw e vm1 => Throw e vm1
              | Undefined why => Undefined why
              | Timeout => Timeout
              end.
Proof.
  intros fuel func arg_type ptr vm. split; [reflexivity|].
  rewrite be_call_c_func_unfold.
  destruct (adopts (Some "+") vm) eqn:E.
  - unfold adopts in E. apply andb_true_iff in E as [E1 E2].
    apply andb_true_iff in E1 as [_ E1]. apply Z.ltb_lt in E1.
    destruct vm as [w st l]. cbn [stack] in E2.
    destruct (st !! 1%nat) as [v|] eqn:Hv; [|discriminate].
    rewrite (bind_Done _ _ _ _ _
               (be_tocomptr_at 2 _ _ (index_of_lookup w st l 2 v ltac:(lia) Hv))).
    reflexivity.
  - change (ctor_mode (Some "+")) with true. cbn match.
    unfold bind at 1.
    destruct (be_check_arg_type berry_call str_addr fuel 2 (top_of vm - 1)
                arg_type p0 vm); reflexivity.
Qed.

End Dispatch.

Lemma C1_witness :
  conversion_fails no_call addr_of 1 1 true 1 0
    (mk_parse (Some "i") 0 type_short_name0 p0 0) (sample_vm [BString "hello"])
    (Exception "type_error" "Unexpected argument type 's', expected 'i'")
    (sample_vm [BString "hello"])
  /\ no_native_call (sample_vm [BString "hello"])
       (be_call_c_func no_call addr_of no_c_string 1 (fun _ => 7) (Some "i")
          (Some "i") (sample_vm [BString "hello"]))
  /\ (adopts (Some "i") (sample_vm [BString "hello"]) = true
      \/ be_call_c_func no_call addr_of no_c_string 1 (fun _ => 7) (Some "i")
           (Some "i") (sample_vm [BString "hello"])
         = Throw (Exception "type_error" "Unexpected argument type 's', expected 'i'")
             (sample_vm [BString "hello"])).
Proof.
  assert (H : conversion_fails no_call addr_of 1 1 true 1 0
                (mk_parse (Some "i") 0 type_short_name0 p0 0)
                (sample_vm [BString "hello"])
                (Exception "type_error" "Unexpected argument type 's', expected 'i'")
                (sample_vm [BString "hello"])).
  { apply (fails_now no_call addr_of 1 1 true 0 0 _ _ (Some "i") 1
             (buf_store (buf_store (buf_store type_short_name0 0 NUL) 0 "i") 1 NUL));
      vm_compute; reflexivity. }
  exact (conj H
    (C1_conversion_failure_prevents_invocation no_call addr_of no_c_string 1
       (fun _ => 7) (Some "i") (Some "i") (sample_vm [BString "hello"]) _ _ H)).
Defined.

Lemma C2_witness :
  "_p" <> EmptyString
  /\ instances sample_world !! 0%nat = Some (mk_instance 0%nat {[ "_p" := BNil ]})
  /\ ({[ "_p" := BNil ]} : gmap string bvalue) !! "_p" = Some BNil
  /\ be_call_c_func no_call addr_of no_c_string 1 (fun _ => 7) (Some "+_p") None
       (sample_vm [BInstance 0; BComptr 1234])
     = Done BNil
         (mk_vm (store_member sample_world 0 (mk_instance 0%nat {[ "_p" := BNil ]})
                   "_p" (BComptr 1234))
            [BInstance 0; BComptr 1234] [])
  /\ lookup_member
       (store_member sample_world 0 (mk_instance 0%nat {[ "_p" := BNil ]})
          "_p" (BComptr 1234)) (BInstance 0) "_p"
     = Some (BComptr 1234).
Proof.
  assert (H1 : "_p" <> EmptyString) by discriminate.
  assert (H2 : instances sample_world !! 0%nat
               = Some (mk_instance 0%nat {[ "_p" := BNil ]}))
    by (vm_compute; reflexivity).
  assert (H3 : ({[ "_p" := BNil ]} : gmap string bvalue) !! "_p" = Some BNil)
    by (vm_compute; reflexivity).
  exact (conj H1 (conj H2 (conj H3
    (C2_adopts_supplied_pointer no_call addr_of no_c_string 1 (fun _ => 7) "_p"
       None sample_world [] [] 0%nat (mk_instance 0%nat {[ "_p" := BNil ]}) BNil
       1234 H1 H2 H3)))).
Defined.

(** C2 as stated fails for a return tag that names no member of the
    instance: with the tag [+] alone the pointer is not stored anywhere, and
    with the tag [+_p] over an instance that has no [_p] the dispatch ends
    with an attribute error instead of returning.  In both runs no native
    function is called. *)
Lemma C2_counterexample :
  be_call_c_func no_call addr_of no_c_string 1 (fun _ => 7) (Some "+") None
    (sample_vm [BInstance 0; BComptr 1234])
  = Done BNil (sample_vm [BInstance 0; BComptr 1234])
  /\ lookup_member sample_world (BInstance 0) "_p" = Some BNil
  /\ be_call_c_func no_call addr_of no_c_string 1 (fun _ => 7) (Some "+_p") None
       (sample_vm [BInstance 1; BComptr 1234])
     = Throw (Exception "attribute_error" "Missing member '_p' in ctor")
         (sample_vm [BInstance 1; BComptr 1234; BComptr 1234]).
Proof. vm_compute. repeat split; reflexivity. Qed.

(** C9 as stated fails: the native function gives the pointer 1234, the
    return tag is [+], and the member [_p] of the instance under
    construction still holds nil after the dispatch.  (With the return tag
    [+_p] it holds the pointer.) *)
Lemma C9_counterexample :
  be_call_c_func no_call addr_of no_c_string 1 (fun _ => 1234) (Some "+") None
    (sample_vm [BInstance 0])
  = Done BNil (mk_vm sample_world [BInstance 0] [p0])
  /\ lookup_member sample_world (BInstance 0) "_p" = Some BNil
  /\ exists vm',
       be_call_c_func no_call addr_of no_c_string 1 (fun _ => 1234) (Some "+_p") None
         (sample_vm [BInstance 0]) = Done BNil vm'
       /\ lookup_member (world vm') (BInstance 0) "_p" = Some (BComptr 1234).
Proof.
  split; [vm_compute; reflexivity|]. split; [vm_compute; reflexivity|].
  eexists. split; [vm_compute; reflexivity|]. vm_compute. reflexivity.
Qed.

Lemma C3_witness :
  named_class_tag "lv_obj"
  /\ index_of 1 (sample_vm [BNil]) = Done BNil (sample_vm [BNil])
  /\ null_valued BNil
  /\ be_convert_single_elt no_call addr_of 0 1 (Some "lv_obj") None (sample_vm [BNil])
     = Done 0 (sample_vm [BNil]).
Proof.
  assert (H1 : named_class_tag "lv_obj").
  { split; [reflexivity|]. intros H. vm_compute in H. discriminate H. }
  assert (H2 : index_of 1 (sample_vm [BNil]) = Done BNil (sample_vm [BNil]))
    by reflexivity.
  exact (conj H1 (conj H2 (conj null_nil
    (C3_named_class_accepts_null no_call addr_of 0 1 "lv_obj" None
       (sample_vm [BNil]) BNil H1 H2 null_nil)))).
Defined.

(** ** Characters and buffers *)

Lemma simple_tag_char_facts c :
  simple_tag_char c = true ->
  Ascii.eqb c "-" = false /\ Ascii.eqb c NUL = false.
Proof.
  destruct c as [[] [] [] [] [] [] [] []]; vm_compute; intros H;
    try discriminate H; split; reflexivity.
Qed.

Lemma char_at_0 c r : char_at (String c r) 0 = c.
Proof. reflexivity. Qed.

Lemma char_at_nat t n : char_at t (Z.of_nat n) = char_at (str_drop n t) 0.
Proof.
  unfold char_at. replace (Z.of_nat n <? 0) with false
    by (symmetry; apply Z.ltb_ge; lia).
  rewrite Nat2Z.id. change (0 <? 0) with false. change (Z.to_nat 0) with 0%nat.
  revert t. induction n as [|n IH]; intros t.
  - destruct t; reflexivity.
  - destruct t as [|c r]; [reflexivity|]. cbn [String.get str_drop]. apply IH.
Qed.

Lemma str_drop_S t n c r : str_drop n t = String c r -> str_drop (S n) t = r.
Proof.
  revert t. induction n as [|n IH]; intros t H.
  - cbn in H. subst t. reflexivity.
  - destruct t as [|d q]; [discriminate H|]. cbn [str_drop] in *. apply IH, H.
Qed.

Lemma str_drop_append pre rest : str_drop (String.length pre) (pre +:+ rest) = rest.
Proof. induction pre as [|c r IH]; [reflexivity|]. rewrite append_cons. exact IH. Qed.

Lemma c_str_app (s : string) (r : list ascii) :
  plain_name s = true ->
  c_str (list_ascii_of_string s ++ NUL :: r) = s.
Proof.
  induction s as [|c q IH]; intros H.
  - reflexivity.
  - cbn [plain_name] in H. apply andb_true_iff in H as [H Hq].
    apply andb_true_iff in H as [_ Hc]. apply negb_true_iff in Hc.
    cbn [list_ascii_of_string app c_str]. rewrite Hc, (IH Hq). reflexivity.
Qed.


Lemma buf_store_length buf i c : length (buf_store buf i c) = length buf.
Proof. unfold buf_store. apply length_insert. Qed.


(** ** The token buffer always holds a string of at most 31 characters *)




(** ** The copy of a name into the token buffer *)

Lemma store_pair (l1 r : list ascii) (i : Z) (c : ascii) :
  Z.to_nat i = length l1 -> 0 <= i -> r <> [] ->
  buf_store (buf_store (l1 ++ NUL :: r) i c) (i + 1) NUL
  = ((l1 ++ [c]) ++ NUL :: tail r)%list.
Proof.
  intros Hi Hpos Hr. unfold buf_store.
  replace (Z.to_nat (i + 1)) with (length l1 + 1)%nat by lia.
  rewrite Hi.
  replace (length l1) with (length l1 + 0)%nat at 2 by lia.
  rewrite !insert_app_r. cbn [insert list_insert].
  destruct r as [|x r]; [congruence|].
  rewrite <- app_assoc. reflexivity.
Qed.


Lemma str_drop_add t n m : str_drop (n + m) t = str_drop m (str_drop n t).
Proof.
  revert t. induction n as [|n IH]; intros t; [reflexivity|].
  destruct t as [|c r]; cbn [Nat.add str_drop].
  - destruct m; reflexivity.
  - apply IH.
Qed.

Lemma str_drop_all s : str_drop (String.length s) s = EmptyString.
Proof. induction s as [|c r IH]; [reflexivity|exact IH]. Qed.

Lemma c_str_cons c l : c <> NUL -> c_str (c :: l) = String c (c_str l).
Proof.
  intros H. cbn [c_str]. apply Ascii.eqb_neq in H. rewrite H. reflexivity.
Qed.

(** ** Tokens *)

(** A round without a descriptor leaves the empty string in the buffer. *)
Lemma next_token_exhausted arg_idx buf :
  next_token None arg_idx buf = (None, arg_idx, buf_store buf 0 NUL, false).
Proof. reflexivity. Qed.


(** A simple token. *)
Lemma next_token_simple t arg_idx buf :
  simple_tag_char (char_at t arg_idx) = true ->
  next_token (Some t) arg_idx buf
  = (Some t, arg_idx + 1,
     buf_store (buf_store (buf_store buf 0 NUL) 0 (char_at t arg_idx)) 1 NUL, false).
Proof.
  intros H. unfold next_token.
  destruct (simple_tag_char_facts _ H) as [H1 _]. rewrite H1.
  unfold simple_tag_char in H. rewrite H. reflexivity.
Qed.

Lemma c_str_simple buf c :
  length buf = 32%nat -> c <> NUL ->
  c_str (buf_store (buf_store (buf_store buf 0 NUL) 0 c) 1 NUL)
  = String c EmptyString.
Proof.
  intros Hlen Hc. destruct buf as [|b0 [|b1 r]]; try discriminate Hlen.
  change (buf_store (buf_store (buf_store (b0 :: b1 :: r) 0 NUL) 0 c) 1 NUL)
    with (c :: NUL :: r).
  rewrite c_str_cons by exact Hc. reflexivity.
Qed.


(** ** The loop over the arguments *)

Section Parser.

Variable berry_call :
  bworld -> bvalue -> list bvalue -> bexception + (bvalue * bworld).
Variable str_addr : string -> Z.


(** With the descriptor dropped, the test of line 309 lets the call go. *)
Lemma be_check_arg_type_exhausted fuel arg_start argc arg_type p vm st' vm' :
  check_loop berry_call str_addr fuel (Z.to_nat (to_uint32 argc)) 0 arg_start
    (bool_decide (arg_type <> None)) (mk_parse arg_type 0 type_short_name0 p 0) vm
  = Done st' vm' ->
  ps_arg_type st' = None ->
  be_check_arg_type berry_call str_addr fuel arg_start argc arg_type p vm
  = Done (ps_p st') vm'.
Proof.
  intros Hloop Hnone. unfold be_check_arg_type.
  rewrite (bind_Done _ _ _ _ _ Hloop). rewrite Hnone. reflexivity.
Qed.



End Parser.



Section MissingArguments.

Variable berry_call :
  bworld -> bvalue -> list bvalue -> bexception + (bvalue * bworld).
Variable str_addr : string -> Z.

Lemma accepted_length pre vs :
  accepted str_addr pre vs = true -> String.length pre = length vs.
Proof.
  revert vs. induction pre as [|c pre IH]; intros [|v vs] H;
    try discriminate H; [reflexivity|].
  cbn [accepted] in H. apply andb_true_iff in H as [_ H].
  cbn [String.length length]. f_equal. apply IH, H.
Qed.

(** A run of simple tokens over accepted simple values: every round reads
    one token, converts one argument and leaves the machine as it is. *)
Lemma check_loop_simple fuel w l back t rest arg_start :
  forall vs pre (k : nat) front buf p,
    accepted str_addr pre vs = true ->
    str_drop k t = pre +:+ rest ->
    Z.of_nat (length front) = Z.of_nat k + arg_start - 1 ->
    length buf = 32%nat ->
    (k + length vs <= 8)%nat ->
    exists buf' p',
      check_loop berry_call str_addr fuel (length vs) (Z.of_nat k) arg_start true
        (mk_parse (Some t) (Z.of_nat k) buf p (Z.of_nat k))
        (mk_vm w (front ++ vs ++ back) l)
      = Done (mk_parse (Some t) (Z.of_nat (k + length vs)) buf' p'
                (Z.of_nat (k + length vs)))
          (mk_vm w (front ++ vs ++ back) l)
      /\ length buf' = 32%nat.
Proof.
  induction vs as [|v vs IH]; intros pre k front buf p Hacc Hdrop Hfront Hlen Hk.
  - exists buf, p. cbn [length check_loop]. rewrite Nat.add_0_r.
    split; [reflexivity|exact Hlen].
  - destruct pre as [|c pre]; [discriminate Hacc|].
    cbn [accepted] in Hacc.
    apply andb_true_iff in Hacc as [Hacc Hrest].
    apply andb_true_iff in Hacc as [Hacc Hok].
    apply andb_true_iff in Hacc as [Hc Hv].
    rewrite append_cons in Hdrop.
    assert (Hchar : char_at t (Z.of_nat k) = c)
      by (rewrite char_at_nat, Hdrop; reflexivity).
    destruct (simple_tag_char_facts c Hc) as [_ Hnul].
    apply Ascii.eqb_neq in Hnul.
    assert (Hidx : index_of (Z.of_nat k + arg_start)
                     (mk_vm w (front ++ (v :: vs) ++ back) l)
                   = Done v (mk_vm w (front ++ (v :: vs) ++ back) l)).
    { apply index_of_lookup; [lia|].
      cbn [app]. apply list_lookup_middle. lia. }
    cbn [length] in Hk.
    destruct (IH pre (S k) (front ++ [v])%list
                (buf_store (buf_store (buf_store buf 0 NUL) 0 c) 1 NUL)
                (<[Z.to_nat (Z.of_nat k) := simple_word str_addr v]> p))
      as [buf' [p' [Hloop Hlen']]].
    + exact Hrest.
    + apply (str_drop_S _ _ _ _ Hdrop).
    + rewrite length_app. cbn [length]. lia.
    + rewrite !buf_store_length. exact Hlen.
    + lia.
    + exists buf', p'. split; [|exact Hlen'].
      cbn [length].
      rewrite (check_loop_success berry_call str_addr fuel (length vs) (Z.of_nat k)
                 arg_start true _ (Some t) (Z.of_nat k + 1)
                 (buf_store (buf_store (buf_store buf 0 NUL) 0 c) 1 NUL)
                 (simple_word str_addr v) _ (mk_vm w (front ++ (v :: vs) ++ back) l)).
      * cbn [ps_p ps_p_idx].
        replace (Z.of_nat k + 1) with (Z.of_nat (S k)) by lia.
        replace (front ++ (v :: vs) ++ back)%list
          with ((front ++ [v]) ++ vs ++ back)%list
          by (rewrite <- app_assoc; reflexivity).
        rewrite Hloop. f_equal. f_equal; f_equal; lia.
      * cbn [ps_arg_type ps_arg_idx ps_buf].
        rewrite next_token_simple by (rewrite Hchar; exact Hc).
        rewrite Hchar. reflexivity.
      * rewrite (c_str_simple buf c Hlen Hnul).
        rewrite (be_convert_single_elt_simple berry_call str_addr fuel _
                   (Some (String c EmptyString)) _ _ v Hidx Hv eq_refl).
        cbn [tag_or_wildcard]. rewrite Hok. reflexivity.
      * cbn [ps_p_idx]. lia.
Qed.

(** The test of line 309 in general: a loop that ends with characters left
    in the descriptor raises the error with these characters. *)
Lemma be_check_arg_type_missing fuel arg_start argc arg_type p vm st' vm' t :
  check_loop berry_call str_addr fuel (Z.to_nat (to_uint32 argc)) 0 arg_start
    (bool_decide (arg_type <> None)) (mk_parse arg_type 0 type_short_name0 p 0) vm
  = Done st' vm' ->
  ps_arg_type st' = Some t ->
  char_at t (ps_arg_idx st') <> NUL ->
  be_check_arg_type berry_call str_addr fuel arg_start argc arg_type p vm
  = Throw (Exception "value_error"
             ("Missing arguments, remaining type '"
              +:+ str_drop (Z.to_nat (ps_arg_idx st')) t +:+ "'")) vm'.
Proof.
  intros Hloop Ht Hc. unfold be_check_arg_type.
  rewrite (bind_Done _ _ _ _ _ Hloop). rewrite Ht.
  apply Ascii.eqb_neq in Hc. rewrite Hc. reflexivity.
Qed.

(** A call with fewer simple arguments than the descriptor has simple
    tokens: the error names the tokens that are left. *)
Lemma missing_arguments_simple_run fuel w front vs back l pre rest p :
  accepted str_addr pre vs = true ->
  (length vs <= 8)%nat ->
  char_at rest 0 <> NUL ->
  be_check_arg_type berry_call str_addr fuel (Z.of_nat (length front) + 1)
    (Z.of_nat (length vs)) (Some (pre +:+ rest)) p
    (mk_vm w (front ++ vs ++ back) l)
  = Throw (Exception "value_error"
             ("Missing arguments, remaining type '" +:+ rest +:+ "'"))
      (mk_vm w (front ++ vs ++ back) l).
Proof.
  intros Hacc Hn Hrest.
  unfold be_check_arg_type.
  replace (Z.to_nat (to_uint32 (Z.of_nat (length vs)))) with (length vs).
  2:{ unfold to_uint32. rewrite Z.mod_small by lia. lia. }
  rewrite bool_decide_eq_true_2 by discriminate.
  destruct (check_loop_simple fuel w l back (pre +:+ rest) rest
              (Z.of_nat (length front) + 1) vs pre 0%nat front type_short_name0 p
              Hacc eq_refl ltac:(lia) eq_refl ltac:(lia))
    as [buf' [p' [Hloop _]]].
  change (Z.of_nat 0) with 0 in Hloop.
  rewrite (bind_Done _ _ _ _ _ Hloop).
  cbn [ps_arg_type ps_arg_idx ps_p Nat.add].
  rewrite <- (accepted_length pre vs Hacc).
  rewrite char_at_nat, str_drop_append.
  apply Ascii.eqb_neq in Hrest. rewrite Hrest. cbn [negb].
  rewrite Nat2Z.id, str_drop_append. reflexivity.
Qed.

(** C5 (as amended). When the dynamic call arguments are used up while the
    descriptor still has characters to be read, the parser raises the
    "Missing arguments" error, which names the remainder of the descriptor:
    this is so whenever the loop over the arguments ends with a descriptor
    and a character at its position, and in particular for a run [pre] of
    simple tokens over as many accepted simple values, followed by further
    tokens [rest]. *)
Theorem C5_missing_arguments_names_remainder :
  forall fuel arg_start argc arg_type p vm st' vm' t w front vs back l pre rest,
    check_loop berry_call str_addr fuel (Z.to_nat (to_uint32 argc)) 0 arg_start
      (bool_decide (arg_type <> None)) (mk_parse arg_type 0 type_short_name0 p 0) vm
    = Done st' vm' ->
    ps_arg_type st' = Some t ->
    char_at t (ps_arg_idx st') <> NUL ->
    accepted str_addr pre vs = true ->
    (length vs <= 8)%nat ->
    char_at rest 0 <> NUL ->
    be_check_arg_type berry_call str_addr fuel arg_start argc arg_type p vm
    = Throw (Exception "value_error"
               ("Missing arguments, remaining type '"
                +:+ str_drop (Z.to_nat (ps_arg_idx st')) t +:+ "'")) vm'
    /\ be_check_arg_type berry_call str_addr fuel (Z.of_nat (length front) + 1)
         (Z.of_nat (length vs)) (Some (pre +:+ rest)) p
         (mk_vm w (front ++ vs ++ back) l)
       = Throw (Exception "value_error"
                  ("Missing arguments, remaining type '" +:+ rest +:+ "'"))
           (mk_vm w (front ++ vs ++ back) l).
Proof.
  intros fuel arg_start argc arg_type p vm st' vm' t w front vs back l pre rest
    Hloop Ht Hc Hacc Hn Hrest.
  split.
  - exact (be_check_arg_type_missing fuel arg_start argc arg_type p vm st' vm' t
             Hloop Ht Hc).
  - exact (missing_arguments_simple_run fuel w front vs back l pre rest p
             Hacc Hn Hrest).
Qed.

End MissingArguments.

Lemma C5_witness :
  check_loop no_call addr_of 1 (Z.to_nat (to_uint32 1)) 0 1
    (bool_decide (Some "is" <> None)) (mk_parse (Some "is") 0 type_short_name0 p0 0)
    (sample_vm [BInt 1])
  = Done (mk_parse (Some "is") 1
            (buf_store (buf_store (buf_store type_short_name0 0 NUL) 0 "i") 1 NUL)
            [1; 0; 0; 0; 0; 0; 0; 0] 1) (sample_vm [BInt 1])
  /\ char_at "is" 1 <> NUL
  /\ accepted addr_of "i" [BInt 1] = true
  /\ (length [BInt 1] <= 8)%nat
  /\ char_at "s" 0 <> NUL
  /\ be_check_arg_type no_call addr_of 1 1 1 (Some "is") p0 (sample_vm [BInt 1])
     = Throw (Exception "value_error"
                ("Missing arguments, remaining type '"
                 +:+ str_drop (Z.to_nat 1) "is" +:+ "'")) (sample_vm [BInt 1])
  /\ be_check_arg_type no_call addr_of 1 (Z.of_nat (length (@nil bvalue)) + 1)
       (Z.of_nat (length [BInt 1])) (Some ("i" +:+ "s")) p0
       (mk_vm sample_world ([] ++ [BInt 1] ++ []) [])
     = Throw (Exception "value_error"
                ("Missing arguments, remaining type '" +:+ "s" +:+ "'"))
         (mk_vm sample_world ([] ++ [BInt 1] ++ []) []).
Proof.
  assert (H0 : check_loop no_call addr_of 1 (Z.to_nat (to_uint32 1)) 0 1
                 (bool_decide (Some "is" <> None))
                 (mk_parse (Some "is") 0 type_short_name0 p0 0) (sample_vm [BInt 1])
               = Done (mk_parse (Some "is") 1
                         (buf_store (buf_store (buf_store type_short_name0 0 NUL)
                                       0 "i") 1 NUL)
                         [1; 0; 0; 0; 0; 0; 0; 0] 1) (sample_vm [BInt 1]))
    by (vm_compute; reflexivity).
  assert (Hc : char_at "is" 1 <> NUL) by (vm_compute; discriminate).
  assert (H1 : accepted addr_of "i" [BInt 1] = true) by (vm_compute; reflexivity).
  assert (H2 : (length [BInt 1] <= 8)%nat) by (cbn; lia).
  assert (H3 : char_at "s" 0 <> NUL) by (vm_compute; discriminate).
  exact (conj H0 (conj Hc (conj H1 (conj H2 (conj H3
    (C5_missing_arguments_names_remainder no_call addr_of 1 1 1 (Some "is") p0
       (sample_vm [BInt 1]) _ (sample_vm [BInt 1]) "is" sample_world []
       [BInt 1] [] [] "i" "s" H0 eq_refl Hc H1 H2 H3)))))).
Defined.

(** C5 as stated fails: the descriptor [i] is at its end while a second
    argument remains.  When that argument is nil the check succeeds, and
    when it is the integer 2 the error is a type error; none of them is
    "Missing arguments". *)
Lemma C5_counterexample :
  be_check_arg_type no_call addr_of 1 1 2 (Some "i") p0 (sample_vm [BInt 1; BNil])
  = Done [1; 0; 0; 0; 0; 0; 0; 0] (sample_vm [BInt 1; BNil])
  /\ be_check_arg_type no_call addr_of 1 1 2 (Some "i") p0 (sample_vm [BInt 1; BInt 2])
     = Throw (Exception "type_error" "Unexpected argument type 'i', expected ''")
         (sample_vm [BInt 1; BInt 2]).
Proof. vm_compute. split; reflexivity. Qed.

(** ** Sample runs *)

Example convert_int_42 :
  be_convert_single_elt no_call addr_of 0 1 (Some "i") None (sample_vm [BInt 42])
  = Done 42 (sample_vm [BInt 42]).
Proof. vm_compute. reflexivity. Qed.

Example convert_bool_true :
  be_convert_single_elt no_call addr_of 0 1 (Some "b") None (sample_vm [BBool true])
  = Done 1 (sample_vm [BBool true]).
Proof. vm_compute. reflexivity. Qed.

(** The descriptor [ii-s] over four arguments: the third one is skipped and
    three slots are filled. *)
Example check_ii_skip_s :
  be_check_arg_type no_call addr_of 0 1 4 (Some "ii-s") p0
    (sample_vm [BInt 1; BInt 2; BInt 3; BString "x"])
  = Done [1; 2; 4097; 0; 0; 0; 0; 0]
      (sample_vm [BInt 1; BInt 2; BInt 3; BString "x"]).
Proof. vm_compute. reflexivity. Qed.

(** A member that the module does not have is not found, and nothing is
    raised or left on the stack. *)
Example resolve_missing_member :
  be_find_global_or_module_member (Some "lv.nope") (sample_vm [BInt 1])
  = Done 0 (sample_vm [BInt 1]).
Proof. vm_compute. reflexivity. Qed.

(** A constructor whose native function gives the pointer 1234: the pointer
    is stored in [_p], and the instance converts to it. *)
Example construct_then_convert :
  exists vm',
    be_call_c_func no_call addr_of no_c_string 1 (fun _ => 1234) (Some "+_p")
      (Some "") (sample_vm [BInstance 0])
    = Done BNil vm'
    /\ native_calls vm' = [p0]
    /\ be_convert_single_elt no_call addr_of 1 1 (Some "lv_obj") None vm'
       = Done 1234 vm'.
Proof.
  eexists. split; [vm_compute; reflexivity|].
  split; vm_compute; reflexivity.
Qed.

(** The instance of the class [bare] has no member [_p]: the store fails. *)
Example construct_without_member :
  be_call_c_func no_call addr_of no_c_string 1 (fun _ => 1234) (Some "+_p")
    (Some "") (sample_vm [BInstance 1])
  = Throw (Exception "attribute_error" "Missing member '_p' in ctor")
      (mk_vm sample_world [BInstance 1; BComptr 1234] [p0]).
Proof. vm_compute. reflexivity. Qed.

(** A class name of forty letters is cut to 31 letters. *)
Example class_name_cut :
  token_of (next_token (Some ("(" +:+ forty +:+ ")")) 0 type_short_name0)
  = "abcdefghijklmnopqrstuvwxyzabcde".
Proof. vm_compute. reflexivity. Qed.

(** * Further properties of the wrapper functions *)

(** ** Calls of Berry callables *)

Section Calls.

Variable berry_call :
  bworld -> bvalue -> list bvalue -> bexception + (bvalue * bworld).

Lemma be_call_at w st l f args r w' :
  berry_call w f args = inr (r, w') ->
  be_call berry_call (Z.of_nat (length args)) (mk_vm w (st ++ f :: args) l)
  = Done tt (mk_vm w' (st ++ r :: args) l).
Proof.
  intros H. unfold be_call, top_of. cbn [stack world native_calls].
  rewrite length_app. cbn [length].
  replace ((0 <=? Z.of_nat (length args))
           && (Z.of_nat (length args) + 1
               <=? Z.of_nat (length st + S (length args)))) with true
    by (symmetry; apply andb_true_iff; split; apply Z.leb_le; lia).
  replace (Z.to_nat (Z.of_nat (length st + S (length args))
                     - Z.of_nat (length args) - 1)) with (length st) by lia.
  rewrite list_lookup_middle by reflexivity.
  replace (S (length st)) with (length st + 1)%nat by lia.
  rewrite drop_app_add. change (drop 1 (f :: args)) with args. rewrite H.
  replace (length st) with (length st + 0)%nat at 1 by lia.
  rewrite insert_app_r. reflexivity.
Qed.

Lemma be_call_raises w st l f args e :
  berry_call w f args = inl e ->
  be_call berry_call (Z.of_nat (length args)) (mk_vm w (st ++ f :: args) l)
  = Throw e (mk_vm w (st ++ f :: args) l).
Proof.
  intros H. unfold be_call, top_of. cbn [stack world native_calls].
  rewrite length_app. cbn [length].
  replace ((0 <=? Z.of_nat (length args))
           && (Z.of_nat (length args) + 1
               <=? Z.of_nat (length st + S (length args)))) with true
    by (symmetry; apply andb_true_iff; split; apply Z.leb_le; lia).
  replace (Z.to_nat (Z.of_nat (length st + S (length args))
                     - Z.of_nat (length args) - 1)) with (length st) by lia.
  rewrite list_lookup_middle by reflexivity.
  replace (S (length st)) with (length st + 1)%nat by lia.
  rewrite drop_app_add. change (drop 1 (f :: args)) with args. rewrite H. reflexivity.
Qed.

(** X1. [be_create_class_wrapper]: with a pointer that is not NULL, a
    global [class_name] whose call gives [inst], and an [init] member of
    [inst] whose call on [inst] and the pointer returns, the function
    returns with exactly one more value on the stack, the created [inst];
    [init] has been called with the instance and the pointer as [comptr]. *)
Theorem X1_create_class_wrapper_leaves_instance :
  forall class_name ptr w st l cls inst w1 init r w2,
    ptr <> 0 ->
    global_find w class_name = Some cls ->
    berry_call w cls [] = inr (inst, w1) ->
    lookup_member w1 inst "init" = Some init ->
    berry_call w1 init [inst; BComptr ptr] = inr (r, w2) ->
    be_create_class_wrapper berry_call class_name ptr (mk_vm w st l)
    = Done tt (mk_vm w2 (st ++ [inst]) l).
Proof.
  intros class_name ptr w st l cls inst w1 init r w2 Hptr Hg Hc Hm Hi.
  unfold be_create_class_wrapper.
  apply Z.eqb_neq in Hptr. rewrite Hptr.
  rewrite bind_Done with (a := tt) (vm' := mk_vm w st l) by reflexivity.
  unfold bind at 1. rewrite be_getglobal_at, Hg.
  pose proof (be_call_at w st l cls [] inst w1 Hc) as Hcall.
  cbn [length] in Hcall. change (Z.of_nat 0) with 0 in Hcall.
  rewrite (bind_Done _ _ _ _ _ Hcall).
  unfold bind at 1.
  rewrite (be_getmember_at w1 (st ++ [inst]) l (-1) inst "init"
             (index_of_m1 w1 st l inst)).
  rewrite Hm. cbn [from_option id]. rewrite app_two.
  rewrite (bind_Done _ _ _ _ _
             (be_pushvalue_at w1 _ l (-2) inst (index_of_m2 w1 st l inst init))).
  rewrite app_three.
  unfold be_pushcomptr. rewrite (bind_Done _ _ _ _ _ (push_app w1 _ l _)).
  replace ((st ++ [inst; init; inst]) ++ [BComptr ptr])%list
    with ((st ++ [inst]) ++ init :: [inst; BComptr ptr])%list
    by (rewrite <- !app_assoc; reflexivity).
  pose proof (be_call_at w1 (st ++ [inst]) l init [inst; BComptr ptr] r w2 Hi)
    as Hcall2.
  cbn [length] in Hcall2. change (Z.of_nat 2) with 2 in Hcall2.
  rewrite (bind_Done _ _ _ _ _ Hcall2).
  apply (be_pop_app w2 (st ++ [inst]) [r; inst; BComptr ptr] l 3). reflexivity.
Qed.

End Calls.

Lemma X1_witness :
  1234 <> 0
  /\ global_find zoo_world "lv_obj" = Some (BClass 0)
  /\ zoo_call zoo_world (BClass 0) [] = inr (BInstance 0, zoo_world)
  /\ lookup_member zoo_world (BInstance 0) "init" = Some (BClosure 7)
  /\ zoo_call zoo_world (BClosure 7) [BInstance 0; BComptr 1234]
     = inr (BNil, zoo_world)
  /\ be_create_class_wrapper zoo_call "lv_obj" 1234 (zoo_vm [BInt 1])
     = Done tt (zoo_vm ([BInt 1] ++ [BInstance 0])).
Proof.
  assert (H1 : 1234 <> 0) by lia.
  assert (H2 : global_find zoo_world "lv_obj" = Some (BClass 0))
    by (vm_compute; reflexivity).
  assert (H3 : zoo_call zoo_world (BClass 0) [] = inr (BInstance 0, zoo_world))
    by reflexivity.
  assert (H4 : lookup_member zoo_world (BInstance 0) "init" = Some (BClosure 7))
    by (vm_compute; reflexivity).
  assert (H5 : zoo_call zoo_world (BClosure 7) [BInstance 0; BComptr 1234]
               = inr (BNil, zoo_world)) by reflexivity.
  exact (conj H1 (conj H2 (conj H3 (conj H4 (conj H5
    (X1_create_class_wrapper_leaves_instance zoo_call "lv_obj" 1234 zoo_world
       [BInt 1] [] _ _ _ _ _ _ H1 H2 H3 H4 H5)))))).
Defined.

(** ** The name resolver *)

(** X2. For every name with a first part, [be_find_global_or_module_member]
    returns, never raises, leaves the object store as it is, and its result
    is the number of values that it has pushed, at most two.  For the NULL
    name the result is 0 although one nil has been pushed. *)
Theorem X2_resolver_result_counts_pushed_values :
  forall w st l name prefix suffix,
    split_name name = (Some prefix, suffix) ->
    (exists pushed,
        be_find_global_or_module_member (Some name) (mk_vm w st l)
        = Done (Z.of_nat (length pushed)) (mk_vm w (st ++ pushed) l)
        /\ (length pushed <= 2)%nat)
    /\ be_find_global_or_module_member None (mk_vm w st l)
       = Done 0 (mk_vm w (st ++ [BNil]) l).
Proof.
  intros w st l name prefix suffix Hs. split; [|reflexivity].
  rewrite (be_find_global_or_module_member_at w st l name prefix suffix Hs).
  destruct suffix as [sfx|].
  - destruct (global_find w prefix) as [g|].
    + destruct (lookup_member w g sfx) as [m|].
      * destruct (is_instance g).
        -- exists [m; g]. split; [reflexivity|cbn; lia].
        -- exists [m]. split; [reflexivity|cbn; lia].
      * exists []. rewrite app_nil_r. split; [reflexivity|cbn; lia].
    + exists []. rewrite app_nil_r. split; [reflexivity|cbn; lia].
  - destruct (global_find w prefix) as [g|].
    + exists [g]. split; [reflexivity|cbn; lia].
    + exists []. rewrite app_nil_r. split; [reflexivity|cbn; lia].
Qed.

Lemma X2_witness :
  split_name "scr.get" = (Some "scr", Some "get")
  /\ (exists pushed,
         be_find_global_or_module_member (Some "scr.get") (sample_vm [BInt 1])
         = Done (Z.of_nat (length pushed))
             (mk_vm sample_world ([BInt 1] ++ pushed) [])
         /\ (length pushed <= 2)%nat)
  /\ be_find_global_or_module_member None (sample_vm [BInt 1])
     = Done 0 (mk_vm sample_world ([BInt 1] ++ [BNil]) []).
Proof.
  assert (H : split_name "scr.get" = (Some "scr", Some "get")) by reflexivity.
  exact (conj H
    (X2_resolver_result_counts_pushed_values sample_world [BInt 1] [] "scr.get"
       "scr" (Some "get") H)).
Defined.

Lemma split_name_three prefix suffix rest :
  name_part prefix -> name_part suffix ->
  split_name (prefix +:+ "." +:+ suffix +:+ "." +:+ rest)
  = (Some prefix, Some suffix).
Proof.
  intros [Hp Hpd] [Hs Hsd]. unfold split_name, strtok_r.
  destruct prefix as [|c r]; [congruence|].
  cbn [no_dot] in Hpd. apply andb_true_iff in Hpd as [Hc Hr].
  apply negb_true_iff in Hc.
  rewrite append_cons. cbn [skip_delim]. rewrite Hc.
  cbn [take_token]. rewrite Hc.
  change ("." +:+ suffix +:+ "." +:+ rest)
    with (String "." (suffix +:+ "." +:+ rest)).
  rewrite (take_token_dotted r _ Hr).
  destruct suffix as [|d q]; [congruence|].
  cbn [no_dot] in Hsd. apply andb_true_iff in Hsd as [Hd Hq].
  apply negb_true_iff in Hd.
  rewrite append_cons. cbn [skip_delim]. rewrite Hd. cbn [take_token]. rewrite Hd.
  change ("." +:+ rest) with (String "." rest).
  rewrite (take_token_dotted q rest Hq). reflexivity.
Qed.

(** X3. Only one level of depth: what follows a second dot in a name is
    not looked at.  [module.member.more] is resolved as [module.member]. *)
Theorem X3_resolver_ignores_deeper_parts :
  forall prefix suffix rest vm,
    name_part prefix ->
    name_part suffix ->
    be_find_global_or_module_member
      (Some (prefix +:+ "." +:+ suffix +:+ "." +:+ rest)) vm
    = be_find_global_or_module_member (Some (prefix +:+ "." +:+ suffix)) vm.
Proof.
  intros prefix suffix rest [w st l] Hp Hs.
  rewrite (be_find_global_or_module_member_at w st l _ prefix (Some suffix)
             (split_name_three prefix suffix rest Hp Hs)).
  rewrite (be_find_global_or_module_member_at w st l _ prefix (Some suffix)
             (split_name_dotted prefix suffix Hp Hs)).
  reflexivity.
Qed.

Lemma X3_witness :
  name_part "lv" /\ name_part "obj"
  /\ be_find_global_or_module_member (Some ("lv" +:+ "." +:+ "obj" +:+ "." +:+ "x.y"))
       (sample_vm [])
     = be_find_global_or_module_member (Some ("lv" +:+ "." +:+ "obj")) (sample_vm []).
Proof.
  assert (H1 : name_part "lv") by (split; [discriminate|reflexivity]).
  assert (H2 : name_part "obj") by (split; [discriminate|reflexivity]).
  exact (conj H1 (conj H2
    (X3_resolver_ignores_deeper_parts "lv" "obj" "x.y" (sample_vm []) H1 H2))).
Defined.

(** ** The conversion of one value *)

Section Conversions.

Variable berry_call :
  bworld -> bvalue -> list bvalue -> bexception + (bvalue * bworld).
Variable str_addr : string -> Z.

(** X4. With a one-letter tag a simple value is converted to its word, and
    the machine is left as it is, exactly when the tag is the wildcard or
    the letter of the value; any other pair is a type error that names both
    letters.  A null value is no exception: nil and the NULL pointer are
    refused by [i], [b] and [s]. *)
Theorem X4_one_letter_tag :
  forall fuel idx c gen_cb vm v,
    index_of idx vm = Done v vm ->
    is_simple v = true ->
    be_convert_single_elt berry_call str_addr fuel idx (Some (String c EmptyString))
      gen_cb vm
    = if Ascii.eqb c "." || Ascii.eqb c (simple_letter v)
      then Done (simple_word str_addr v) vm
      else Throw (Exception "type_error"
                    ("Unexpected argument type '" +:+ fmt_c (simple_letter v)
                     +:+ "', expected '" +:+ fmt_c c +:+ "'")) vm.
Proof.
  intros fuel idx c gen_cb vm v Hidx Hs.
  rewrite (be_convert_single_elt_simple berry_call str_addr fuel idx
             (Some (String c EmptyString)) gen_cb vm v Hidx Hs eq_refl).
  unfold type_ok, tag_or_wildcard. rewrite char_at_0.
  change (strlen (String c EmptyString) =? 1) with true.
  cbn [negb]. rewrite andb_false_r, orb_false_r. reflexivity.
Qed.

(** X5. A callback tag wants a closure: any other value, nil and the NULL
    pointer included, is refused with "Closure expected for callback type",
    before anything else is looked at. *)
Theorem X5_callback_wants_closure :
  forall fuel idx tag gen_cb vm v,
    is_callback_tag tag = true ->
    index_of idx vm = Done v vm ->
    is_closure v = false ->
    be_convert_single_elt berry_call str_addr fuel idx (Some tag) gen_cb vm
    = Throw (Exception "type_error" "Closure expected for callback type") vm.
Proof.
  intros fuel idx tag gen_cb vm v Hcb Hidx Hv.
  apply index_of_abs in Hidx. unfold is_callback_tag in Hcb.
  assert (Hc : be_isclosure (abs_index vm idx) vm = Done false vm).
  { unfold be_isclosure. rewrite (bind_Done _ _ _ _ _ Hidx).
    destruct v; try reflexivity. discriminate Hv. }
  destruct fuel; cbn [be_convert_single_elt]; unfold bind at 1;
    unfold be_absindex; rewrite Hcb; unfold convert_callback;
    rewrite (bind_Done _ _ _ _ _ Hc); reflexivity.
Qed.

(** X6. A closure under a callback tag needs the callback generator: when
    the name resolver does not find it, the conversion fails with "Can't
    find callback generator" and the name, and nothing has been called. *)
Theorem X6_callback_generator_not_found :
  forall fuel idx tag gen_cb w st l v,
    is_callback_tag tag = true ->
    index_of idx (mk_vm w st l) = Done v (mk_vm w st l) ->
    is_closure v = true ->
    unresolved w gen_cb = true ->
    be_convert_single_elt berry_call str_addr fuel idx (Some tag) (Some gen_cb)
      (mk_vm w st l)
    = Throw (Exception "type_error" ("Can't find callback generator: " +:+ gen_cb))
        (mk_vm w st l).
Proof.
  intros fuel idx tag gen_cb w st l v Hcb Hidx Hv Hun.
  apply index_of_abs in Hidx. unfold is_callback_tag in Hcb.
  assert (Hc : be_isclosure (abs_index (mk_vm w st l) idx) (mk_vm w st l)
               = Done true (mk_vm w st l)).
  { unfold be_isclosure. rewrite (bind_Done _ _ _ _ _ Hidx).
    destruct v; try discriminate Hv. reflexivity. }
  destruct fuel; cbn [be_convert_single_elt]; unfold bind at 1;
    unfold be_absindex; rewrite Hcb; unfold convert_callback;
    rewrite (bind_Done _ _ _ _ _ Hc);
    rewrite (bind_Done _ _ _ _ _ (be_find_unresolved w st l gen_cb Hun));
    reflexivity.
Qed.

End Conversions.

Lemma X4_witness :
  index_of 1 (sample_vm [BNil]) = Done BNil (sample_vm [BNil])
  /\ is_simple BNil = true
  /\ be_convert_single_elt no_call addr_of 0 1 (Some "i") None (sample_vm [BNil])
     = Throw (Exception "type_error" "Unexpected argument type 'c', expected 'i'")
         (sample_vm [BNil]).
Proof.
  assert (H1 : index_of 1 (sample_vm [BNil]) = Done BNil (sample_vm [BNil]))
    by reflexivity.
  assert (H2 : is_simple BNil = true) by reflexivity.
  exact (conj H1 (conj H2
    (X4_one_letter_tag no_call addr_of 0 1 "i" None (sample_vm [BNil]) BNil H1 H2))).
Defined.

Lemma X5_witness :
  is_callback_tag "^lv_event_cb" = true
  /\ index_of 1 (sample_vm [BNil]) = Done BNil (sample_vm [BNil])
  /\ is_closure BNil = false
  /\ be_convert_single_elt no_call addr_of 0 1 (Some "^lv_event_cb")
       (Some "_lvgl.gen_cb") (sample_vm [BNil])
     = Throw (Exception "type_error" "Closure expected for callback type")
         (sample_vm [BNil]).
Proof.
  assert (H1 : is_callback_tag "^lv_event_cb" = true) by reflexivity.
  assert (H2 : index_of 1 (sample_vm [BNil]) = Done BNil (sample_vm [BNil]))
    by reflexivity.
  assert (H3 : is_closure BNil = false) by reflexivity.
  exact (conj H1 (conj H2 (conj H3
    (X5_callback_wants_closure no_call addr_of 0 1 "^lv_event_cb"
       (Some "_lvgl.gen_cb") (sample_vm [BNil]) BNil H1 H2 H3)))).
Defined.

Lemma X6_witness :
  is_callback_tag "^lv_event_cb" = true
  /\ index_of 1 (sample_vm [BClosure 3])
     = Done (BClosure 3) (sample_vm [BClosure 3])
  /\ is_closure (BClosure 3) = true
  /\ unresolved sample_world "_lvgl.gen_cb" = true
  /\ be_convert_single_elt no_call addr_of 0 1 (Some "^lv_event_cb")
       (Some "_lvgl.gen_cb") (sample_vm [BClosure 3])
     = Throw (Exception "type_error" "Can't find callback generator: _lvgl.gen_cb")
         (sample_vm [BClosure 3]).
Proof.
  assert (H1 : is_callback_tag "^lv_event_cb" = true) by reflexivity.
  assert (H2 : index_of 1 (sample_vm [BClosure 3])
               = Done (BClosure 3) (sample_vm [BClosure 3])) by reflexivity.
  assert (H3 : is_closure (BClosure 3) = true) by reflexivity.
  assert (H4 : unresolved sample_world "_lvgl.gen_cb" = true)
    by (vm_compute; reflexivity).
  exact (conj H1 (conj H2 (conj H3 (conj H4
    (X6_callback_generator_not_found no_call addr_of 0 1 "^lv_event_cb"
       "_lvgl.gen_cb" sample_world [BClosure 3] [] (BClosure 3) H1 H2 H3 H4))))).
Defined.

(** ** The conversion of an instance, in general *)

Lemma be_isderived_m2 w st l a b :
  be_isderived (-2) (mk_vm w (st ++ [a; b]) l)
  = Done (derives_from w b a) (mk_vm w (st ++ [a; b]) l).
Proof.
  unfold be_isderived.
  replace (st ++ [a; b])%list with ((st ++ [a]) ++ [b])%list
    by (rewrite <- app_assoc; reflexivity).
  rewrite (bind_Done _ _ _ _ _ (index_of_m1 w (st ++ [a]) l b)).
  rewrite app_two.
  rewrite (bind_Done _ _ _ _ _ (index_of_m2 w st l a b)).
  unfold bind, get_vm, derives_from. cbn [world].
  destruct (class_of_value w b); [|reflexivity].
  destruct (class_of_value w a); reflexivity.
Qed.

Lemma split_name_plain name :
  name_part name -> split_name name = (Some name, None).
Proof.
  intros [Hn Hd]. unfold split_name, strtok_r.
  destruct name as [|c r]; [congruence|].
  cbn [no_dot] in Hd. apply andb_true_iff in Hd as [Hc Hr].
  apply negb_true_iff in Hc.
  cbn [skip_delim]. rewrite Hc. cbn [take_token]. rewrite Hc.
  rewrite (take_token_no_dot r Hr). reflexivity.
Qed.

Section InstancesInGeneral.

Variable berry_call :
  bworld -> bvalue -> list bvalue -> bexception + (bvalue * bworld).
Variable str_addr : string -> Z.

(** The two ways of an instance: the buffer accessor for a byte buffer,
    the pointer member for any other instance. *)
Lemma be_convert_single_elt_instance_steps fuel idx arg_type gen_cb w st l v :
  index_of idx (mk_vm w st l) = Done v (mk_vm w st l) ->
  is_instance v = true ->
  is_callback_tag (tag_or_wildcard arg_type) = false ->
  be_convert_single_elt berry_call str_addr fuel idx arg_type gen_cb (mk_vm w st l)
  = if derives_from_bytes w v then
      (be_getmember (abs_index (mk_vm w st l) idx) "_buffer" ;;
       be_pushvalue (abs_index (mk_vm w st l) idx) ;;
       be_call berry_call 1 ;;
       p <- be_tocomptr (-2) ;;
       be_pop 2 ;;
       ret (to_int32 p)) (mk_vm w st l)
    else
      (r <- match fuel with
            | O => timeout
            | S fuel' => be_convert_single_elt berry_call str_addr fuel' (-1) None None
            end ;;
       be_pop 1 ;;
       check_instance_type (abs_index (mk_vm w st l) idx)
         (tag_or_wildcard arg_type) (strlen (tag_or_wildcard arg_type)) ;;
       ret (to_int32 r)) (mk_vm w (st ++ [pointer_member w v]) l).
Proof.
  intros Hidx Hinst Hcb.
  pose proof (index_of_Done _ _ _ _ Hidx) as (_ & Hrange & _).
  apply index_of_abs in Hidx.
  set (a := abs_index (mk_vm w st l) idx) in *.
  assert (Ha : 0 < a) by lia.
  unfold is_callback_tag, tag_or_wildcard in Hcb.
  destruct v; try discriminate Hinst.
  destruct fuel; cbn [be_convert_single_elt];
    unfold bind at 1; unfold be_absindex; fold a;
    rewrite Hcb;
    rewrite (bind_Done _ _ _ _ _ (convert_simple_at str_addr _ _ _ Hidx));
    cbn [simple_letter simple_word];
    change (Ascii.eqb NUL NUL) with true; cbn [negb];
    rewrite (bind_Done _ _ _ _ _ (be_isinstance_at _ _ _ Hidx)); cbn [is_instance];
    rewrite (bind_Done _ _ _ _ _ (be_getbuiltin_at w st l "bytes"));
    rewrite (bind_Done _ _ _ _ _ (be_isderived_bytes w st l a _ Hidx Ha));
    (destruct (derives_from_bytes w (BInstance o));
     [ rewrite (bind_Done _ _ _ _ _ (be_pop_app w st [_] l 1 eq_refl)); reflexivity
     | rewrite (bind_Done _ _ _ _ _ (be_pop_app w st [_] l 1 eq_refl));
       rewrite (bind_Done _ _ _ _ _ (get_pointer_member_at w st l a _ Hidx));
       reflexivity ]).
Qed.

(** X7. An instance that derives from the byte buffer class is converted
    by a call of its [_buffer] member on the instance: the word is the
    pointer that the call returns (0 when it returns no pointer), and the
    stack is as before.  The tag is not looked at: a byte buffer passes for
    any one-letter or class tag. *)
Theorem X7_byte_buffer_ignores_tag :
  forall fuel idx arg_type gen_cb w st l v f r w',
    index_of idx (mk_vm w st l) = Done v (mk_vm w st l) ->
    is_instance v = true ->
    is_callback_tag (tag_or_wildcard arg_type) = false ->
    derives_from_bytes w v = true ->
    lookup_member w v "_buffer" = Some f ->
    berry_call w f [v] = inr (r, w') ->
    be_convert_single_elt berry_call str_addr fuel idx arg_type gen_cb (mk_vm w st l)
    = Done (to_int32 (comptr_of r)) (mk_vm w' st l).
Proof.
  intros fuel idx arg_type gen_cb w st l v f r w' Hidx Hinst Hcb Hb Hm Hcall.
  rewrite (be_convert_single_elt_instance_steps fuel idx arg_type gen_cb w st l v
             Hidx Hinst Hcb).
  rewrite Hb.
  pose proof (index_of_Done _ _ _ _ Hidx) as (_ & Hrange & _).
  apply index_of_abs in Hidx.
  set (a := abs_index (mk_vm w st l) idx) in *.
  unfold bind at 1. rewrite (be_getmember_at w st l a v "_buffer" Hidx).
  rewrite Hm. cbn [from_option id].
  rewrite (bind_Done _ _ _ _ _
             (be_pushvalue_at w (st ++ [f]) l a v
                (index_of_below w st [f] l a v Hidx ltac:(lia)))).
  rewrite app_two.
  pose proof (be_call_at berry_call w st l f [v] r w' Hcall) as Hc.
  cbn [length] in Hc. change (Z.of_nat 1) with 1 in Hc.
  rewrite (bind_Done _ _ _ _ _ Hc).
  rewrite (bind_Done _ _ _ _ _ (be_tocomptr_at (-2) _ _ (index_of_m2 w' st l r v))).
  rewrite (bind_Done _ _ _ _ _ (be_pop_app w' st [r; v] l 2 eq_refl)).
  destruct r; reflexivity.
Qed.

(** X8. An instance under a class tag: when the tag is the name of a global,
    the word of the pointer member is returned exactly when the class of the
    instance is that global class or derives from it; otherwise the
    conversion fails with a type error that names the class of the instance
    and the tag. *)
Theorem X8_class_tag_checks_derivation :
  forall fuel idx tag gen_cb w st l o ins k g,
    named_class_tag tag ->
    name_part tag ->
    index_of idx (mk_vm w st l) = Done (BInstance o) (mk_vm w st l) ->
    instances w !! o = Some ins ->
    classes w !! i_class ins = Some k ->
    derives_from_bytes w (BInstance o) = false ->
    is_simple (pointer_member w (BInstance o)) = true ->
    global_find w tag = Some g ->
    be_convert_single_elt berry_call str_addr (S fuel) idx (Some tag) gen_cb
      (mk_vm w st l)
    = if derives_from w g (BClass (i_class ins))
      then Done (simple_word str_addr (pointer_member w (BInstance o))) (mk_vm w st l)
      else Throw (Exception "type_error"
                    ("Unexpected class type '" +:+ c_name k +:+ "', expected '"
                     +:+ tag +:+ "'"))
             (mk_vm w (st ++ [BClass (i_class ins); g]) l).
Proof.
  intros fuel idx tag gen_cb w st l o ins k g [Hlen Hc] Hpart Hidx Hins Hk
    Hbytes Hpm Hg.
  rewrite (be_convert_single_elt_instance berry_call str_addr fuel idx (Some tag)
             gen_cb w st l (BInstance o) Hidx eq_refl).
  - cbn [tag_or_wildcard]. unfold check_instance_type.
    apply Z.ltb_lt in Hlen. rewrite Hlen.
    pose proof (index_of_Done _ _ _ _ Hidx) as (_ & Hrange & _).
    apply index_of_abs in Hidx.
    set (a := abs_index (mk_vm w st l) idx) in *.
    unfold bind at 1. unfold bind at 1. unfold bind at 1.
    rewrite (be_classof_at w st l a o ins Hidx Hins).
    unfold bind at 1.
    rewrite (be_find_global_or_module_member_at w _ l tag tag None
               (split_name_plain tag Hpart)).
    rewrite Hg. change (negb (1 =? 0)) with true. cbn match.
    rewrite app_two.
    unfold bind at 1. rewrite be_isderived_m2.
    destruct (derives_from w g (BClass (i_class ins))); cbn [negb].
    + unfold ret at 1.
      rewrite (be_pop_app w st [_; _] l 2 eq_refl). reflexivity.
    + unfold bind at 1.
      rewrite (be_classname_instance w _ l a o ins k
                 (index_of_below w st _ l a _ Hidx ltac:(lia)) Hins Hk).
      reflexivity.
  - unfold is_callback_tag, tag_or_wildcard.
    apply andb_false_iff. right. apply Ascii.eqb_neq. exact Hc.
  - exact Hbytes.
  - exact Hpm.
Qed.

(** X9. The recursion on the pointer member has no guard: an instance
    that holds itself in [_p] is never converted.  Whatever the depth that
    the model allows, the conversion does not come back. *)
Theorem X9_self_reference_never_returns :
  forall fuel idx arg_type gen_cb w st l o,
    index_of idx (mk_vm w st l) = Done (BInstance o) (mk_vm w st l) ->
    is_callback_tag (tag_or_wildcard arg_type) = false ->
    derives_from_bytes w (BInstance o) = false ->
    lookup_member w (BInstance o) "_p" = Some (BInstance o) ->
    be_convert_single_elt berry_call str_addr fuel idx arg_type gen_cb (mk_vm w st l)
    = Timeout.
Proof.
  induction fuel as [|fuel IH];
    intros idx arg_type gen_cb w st l o Hidx Hcb Hb Hp;
    rewrite (be_convert_single_elt_instance_steps _ idx arg_type gen_cb w st l
               (BInstance o) Hidx eq_refl Hcb);
    rewrite Hb.
  - reflexivity.
  - assert (Hpm : pointer_member w (BInstance o) = BInstance o)
      by (unfold pointer_member; rewrite Hp; reflexivity).
    rewrite Hpm. unfold bind at 1.
    rewrite (IH (-1) None None w (st ++ [BInstance o])%list l o
               (index_of_m1 w st l _) eq_refl Hb Hp).
    reflexivity.
Qed.

(** X10. A wrapper of a wrapper: when the pointer member of an instance
    is itself an instance that wraps a simple value, the conversion with the
    wildcard tag goes down one level and gives the word of the inner
    member. *)
Theorem X10_nested_wrapper :
  forall fuel idx gen_cb w st l o inner,
    index_of idx (mk_vm w st l) = Done (BInstance o) (mk_vm w st l) ->
    derives_from_bytes w (BInstance o) = false ->
    pointer_member w (BInstance o) = BInstance inner ->
    derives_from_bytes w (BInstance inner) = false ->
    is_simple (pointer_member w (BInstance inner)) = true ->
    be_convert_single_elt berry_call str_addr (S (S fuel)) idx (Some ".") gen_cb
      (mk_vm w st l)
    = Done (simple_word str_addr (pointer_member w (BInstance inner))) (mk_vm w st l).
Proof.
  intros fuel idx gen_cb w st l o inner Hidx Hb Hpm Hbi Hsi.
  rewrite (be_convert_single_elt_instance_steps (S (S fuel)) idx (Some ".") gen_cb
             w st l (BInstance o) Hidx eq_refl eq_refl).
  rewrite Hb, Hpm. unfold bind at 1.
  rewrite (be_convert_single_elt_instance berry_call str_addr fuel (-1) None None
             w (st ++ [BInstance inner])%list l (BInstance inner)
             (index_of_m1 w st l _) eq_refl eq_refl Hbi Hsi).
  cbn [tag_or_wildcard]. unfold check_instance_type at 1.
  change (1 <? strlen ".") with false.
  change (negb (Ascii.eqb (char_at "." 0) ".")) with false. cbn match.
  unfold bind at 1. unfold ret at 1.
  unfold bind at 1. unfold ret at 1.
  rewrite (be_pop_app w st [_] l 1 eq_refl).
  unfold check_instance_type.
  change (1 <? strlen ".") with false.
  change (negb (Ascii.eqb (char_at "." 0) ".")) with false. cbn match.
  unfold bind at 1. unfold ret at 1.
  rewrite simple_word_int32. reflexivity.
Qed.

End InstancesInGeneral.

Lemma X7_witness :
  index_of 1 (zoo_vm [BInstance 3]) = Done (BInstance 3) (zoo_vm [BInstance 3])
  /\ is_instance (BInstance 3) = true
  /\ is_callback_tag (tag_or_wildcard (Some "i")) = false
  /\ derives_from_bytes zoo_world (BInstance 3) = true
  /\ lookup_member zoo_world (BInstance 3) "_buffer" = Some (BNtvfunc 3)
  /\ zoo_call zoo_world (BNtvfunc 3) [BInstance 3] = inr (BComptr 4242, zoo_world)
  /\ be_convert_single_elt zoo_call addr_of 0 1 (Some "i") None (zoo_vm [BInstance 3])
     = Done (to_int32 (comptr_of (BComptr 4242))) (zoo_vm [BInstance 3]).
Proof.
  assert (H1 : index_of 1 (zoo_vm [BInstance 3])
               = Done (BInstance 3) (zoo_vm [BInstance 3])) by reflexivity.
  assert (H2 : is_instance (BInstance 3) = true) by reflexivity.
  assert (H3 : is_callback_tag (tag_or_wildcard (Some "i")) = false) by reflexivity.
  assert (H4 : derives_from_bytes zoo_world (BInstance 3) = true)
    by (vm_compute; reflexivity).
  assert (H5 : lookup_member zoo_world (BInstance 3) "_buffer" = Some (BNtvfunc 3))
    by (vm_compute; reflexivity).
  assert (H6 : zoo_call zoo_world (BNtvfunc 3) [BInstance 3]
               = inr (BComptr 4242, zoo_world)) by reflexivity.
  exact (conj H1 (conj H2 (conj H3 (conj H4 (conj H5 (conj H6
    (X7_byte_buffer_ignores_tag zoo_call addr_of 0 1 (Some "i") None zoo_world
       [BInstance 3] [] (BInstance 3) _ _ _ H1 H2 H3 H4 H5 H6))))))).
Defined.

Lemma X8_witness :
  named_class_tag "lv_obj"
  /\ name_part "lv_obj"
  /\ index_of 1 (zoo_vm [BInstance 2]) = Done (BInstance 2) (zoo_vm [BInstance 2])
  /\ instances zoo_world !! 2%nat = Some (mk_instance 2%nat {[ "_p" := BComptr 77 ]})
  /\ classes zoo_world !! 2%nat = Some (mk_class "lv_btn" (Some 0%nat) ∅)
  /\ derives_from_bytes zoo_world (BInstance 2) = false
  /\ is_simple (pointer_member zoo_world (BInstance 2)) = true
  /\ global_find zoo_world "lv_obj" = Some (BClass 0)
  /\ be_convert_single_elt zoo_call addr_of 1 1 (Some "lv_obj") None
       (zoo_vm [BInstance 2])
     = (if derives_from zoo_world (BClass 0) (BClass 2)
        then Done (simple_word addr_of (pointer_member zoo_world (BInstance 2)))
               (zoo_vm [BInstance 2])
        else Throw (Exception "type_error"
                      ("Unexpected class type '" +:+ "lv_btn" +:+ "', expected '"
                       +:+ "lv_obj" +:+ "'"))
               (mk_vm zoo_world ([BInstance 2] ++ [BClass 2; BClass 0]) [])).
Proof.
  assert (H1 : named_class_tag "lv_obj").
  { split; [reflexivity|]. intros H. vm_compute in H. discriminate H. }
  assert (H2 : name_part "lv_obj") by (split; [discriminate|reflexivity]).
  assert (H3 : index_of 1 (zoo_vm [BInstance 2])
               = Done (BInstance 2) (zoo_vm [BInstance 2])) by reflexivity.
  assert (H4 : instances zoo_world !! 2%nat
               = Some (mk_instance 2%nat {[ "_p" := BComptr 77 ]}))
    by (vm_compute; reflexivity).
  assert (H5 : classes zoo_world !! 2%nat = Some (mk_class "lv_btn" (Some 0%nat) ∅))
    by (vm_compute; reflexivity).
  assert (H6 : derives_from_bytes zoo_world (BInstance 2) = false)
    by (vm_compute; reflexivity).
  assert (H7 : is_simple (pointer_member zoo_world (BInstance 2)) = true)
    by (vm_compute; reflexivity).
  assert (H8 : global_find zoo_world "lv_obj" = Some (BClass 0))
    by (vm_compute; reflexivity).
  exact (conj H1 (conj H2 (conj H3 (conj H4 (conj H5 (conj H6 (conj H7 (conj H8
    (X8_class_tag_checks_derivation zoo_call addr_of 0 1 "lv_obj" None zoo_world
       [BInstance 2] [] 2%nat _ _ _ H1 H2 H3 H4 H5 H6 H7 H8))))))))).
Defined.

Lemma X9_witness :
  index_of 1 (zoo_vm [BInstance 4]) = Done (BInstance 4) (zoo_vm [BInstance 4])
  /\ is_callback_tag (tag_or_wildcard (Some ".")) = false
  /\ derives_from_bytes zoo_world (BInstance 4) = false
  /\ lookup_member zoo_world (BInstance 4) "_p" = Some (BInstance 4)
  /\ be_convert_single_elt zoo_call addr_of 50 1 (Some ".") None (zoo_vm [BInstance 4])
     = Timeout.
Proof.
  assert (H1 : index_of 1 (zoo_vm [BInstance 4])
               = Done (BInstance 4) (zoo_vm [BInstance 4])) by reflexivity.
  assert (H2 : is_callback_tag (tag_or_wildcard (Some ".")) = false) by reflexivity.
  assert (H3 : derives_from_bytes zoo_world (BInstance 4) = false)
    by (vm_compute; reflexivity).
  assert (H4 : lookup_member zoo_world (BInstance 4) "_p" = Some (BInstance 4))
    by (vm_compute; reflexivity).
  exact (conj H1 (conj H2 (conj H3 (conj H4
    (X9_self_reference_never_returns zoo_call addr_of 50 1 (Some ".") None
       zoo_world [BInstance 4] [] 4%nat H1 H2 H3 H4))))).
Defined.

Lemma X10_witness :
  index_of 1 (zoo_vm [BInstance 5]) = Done (BInstance 5) (zoo_vm [BInstance 5])
  /\ derives_from_bytes zoo_world (BInstance 5) = false
  /\ pointer_member zoo_world (BInstance 5) = BInstance 2
  /\ derives_from_bytes zoo_world (BInstance 2) = false
  /\ is_simple (pointer_member zoo_world (BInstance 2)) = true
  /\ be_convert_single_elt zoo_call addr_of 2 1 (Some ".") None (zoo_vm [BInstance 5])
     = Done (simple_word addr_of (pointer_member zoo_world (BInstance 2)))
         (zoo_vm [BInstance 5]).
Proof.
  assert (H1 : index_of 1 (zoo_vm [BInstance 5])
               = Done (BInstance 5) (zoo_vm [BInstance 5])) by reflexivity.
  assert (H2 : derives_from_bytes zoo_world (BInstance 5) = false)
    by (vm_compute; reflexivity).
  assert (H3 : pointer_member zoo_world (BInstance 5) = BInstance 2)
    by (vm_compute; reflexivity).
  assert (H4 : derives_from_bytes zoo_world (BInstance 2) = false)
    by (vm_compute; reflexivity).
  assert (H5 : is_simple (pointer_member zoo_world (BInstance 2)) = true)
    by (vm_compute; reflexivity).
  exact (conj H1 (conj H2 (conj H3 (conj H4 (conj H5
    (X10_nested_wrapper zoo_call addr_of 0 1 None zoo_world [BInstance 5] []
       5%nat 2%nat H1 H2 H3 H4 H5)))))).
Defined.

(** ** The descriptor parser, in general *)

Lemma append_empty_r s : s +:+ EmptyString = s.
Proof. induction s as [|c r IH]; [reflexivity|]. rewrite append_cons, IH. reflexivity. Qed.

(** The skip token. *)
Lemma next_token_skip t arg_idx buf :
  char_at t arg_idx = "-"%char ->
  next_token (Some t) arg_idx buf = (Some t, arg_idx + 1, buf_store buf 0 NUL, true).
Proof. intros H. unfold next_token. rewrite H. reflexivity. Qed.

(** A character without a case: the token is empty and the position is
    kept. *)
Lemma next_token_unsupported t arg_idx buf :
  unsupported_char (char_at t arg_idx) = true ->
  next_token (Some t) arg_idx buf = (Some t, arg_idx, buf_store buf 0 NUL, false).
Proof.
  intros H. unfold unsupported_char in H.
  apply andb_true_iff in H as [H H5]. apply andb_true_iff in H as [H H4].
  apply andb_true_iff in H as [H H3]. apply andb_true_iff in H as [H1 H2].
  apply negb_true_iff in H1, H2, H3, H4, H5.
  unfold next_token. rewrite H1. unfold simple_tag_char in H2. rewrite H2.
  rewrite H3, H4, H5. reflexivity.
Qed.

Lemma insert_middle_tail {A} (done restp : list A) (x : A) :
  restp <> [] ->
  <[length done := x]> (done ++ restp)%list = ((done ++ [x]) ++ tail restp)%list.
Proof.
  intros H. destruct restp as [|y restp]; [congruence|].
  replace (length done) with (length done + 0)%nat by lia.
  rewrite insert_app_r. cbn [insert list_insert tail].
  rewrite <- app_assoc. reflexivity.
Qed.

Section ParserInGeneral.

Variable berry_call :
  bworld -> bvalue -> list bvalue -> bexception + (bvalue * bworld).
Variable str_addr : string -> Z.

Lemma slot_words_length pre vs ws :
  slot_words str_addr pre vs = Some ws -> String.length pre = length vs.
Proof.
  revert vs ws. induction pre as [|c pre IH]; intros [|v vs] ws H;
    try discriminate H; [reflexivity|].
  cbn [slot_words] in H. cbn [String.length length]. f_equal.
  destruct (Ascii.eqb c "-"); [exact (IH _ _ H)|].
  destruct (simple_tag_char c && is_simple v
            && type_ok str_addr (String c EmptyString) v); [|discriminate H].
  destruct (slot_words str_addr pre vs) as [ws'|] eqn:E; [|discriminate H].
  exact (IH _ _ E).
Qed.

(** A run of skips and simple tokens: [length vs] rounds read [length vs]
    characters, fill the slots from [length done] on with the words, and
    leave the machine as it is. *)
Lemma check_loop_tokens fuel w l back t rest arg_start m :
  forall vs pre (k : nat) (front : list bvalue) buf (done restp ws : list Z),
    slot_words str_addr pre vs = Some ws ->
    str_drop k t = pre +:+ rest ->
    Z.of_nat (length front) = Z.of_nat k + arg_start - 1 ->
    length buf = 32%nat ->
    (length done + length ws <= 8)%nat ->
    (length ws <= length restp)%nat ->
    exists buf',
      check_loop berry_call str_addr fuel (length vs + m) (Z.of_nat k) arg_start true
        (mk_parse (Some t) (Z.of_nat k) buf (done ++ restp)%list
           (Z.of_nat (length done)))
        (mk_vm w (front ++ vs ++ back) l)
      = check_loop berry_call str_addr fuel m (Z.of_nat (k + length vs)) arg_start true
          (mk_parse (Some t) (Z.of_nat (k + length vs)) buf'
             (done ++ ws ++ drop (length ws) restp)%list
             (Z.of_nat (length done + length ws)))
          (mk_vm w (front ++ vs ++ back) l)
      /\ length buf' = 32%nat.
Proof.
  induction vs as [|v vs IH];
    intros pre k front buf done restp ws Hw Hdrop Hfront Hlen Hd Hr.
  - destruct pre; [|discriminate Hw]. cbn [slot_words] in Hw.
    inversion Hw; subst ws. exists buf.
    cbn [length app Nat.add drop]. rewrite !Nat.add_0_r.
    split; [reflexivity|exact Hlen].
  - destruct pre as [|c pre]; [discriminate Hw|].
    cbn [slot_words] in Hw. rewrite append_cons in Hdrop.
    assert (Hchar : char_at t (Z.of_nat k) = c)
      by (rewrite char_at_nat, Hdrop; reflexivity).
    pose proof (str_drop_S _ _ _ _ Hdrop) as Hdrop'.
    assert (Hfront' : Z.of_nat (length (front ++ [v])) = Z.of_nat (S k) + arg_start - 1)
      by (rewrite length_app; cbn [length]; lia).
    assert (Hst : (front ++ (v :: vs) ++ back)%list
                  = ((front ++ [v]) ++ vs ++ back)%list)
      by (rewrite <- app_assoc; reflexivity).
    cbn [length Nat.add].
    destruct (Ascii.eqb c "-") eqn:Ec.
    + apply Ascii.eqb_eq in Ec. subst c.
      destruct (IH pre (S k) (front ++ [v])%list (buf_store buf 0 NUL) done restp ws
                  Hw Hdrop' Hfront' ltac:(rewrite buf_store_length; exact Hlen)
                  Hd Hr) as [buf' [Hloop Hlen']].
      exists buf'. split; [|exact Hlen'].
      rewrite (check_loop_skip berry_call str_addr fuel (length vs + m) (Z.of_nat k)
                 arg_start true _ (Some t) (Z.of_nat k + 1) (buf_store buf 0 NUL))
        by (apply next_token_skip; exact Hchar).
      cbn [ps_p ps_p_idx].
      replace (Z.of_nat k + 1) with (Z.of_nat (S k)) by lia.
      replace (k + S (length vs))%nat with (S k + length vs)%nat by lia.
      rewrite Hst, Hloop. reflexivity.
    + destruct (simple_tag_char c && is_simple v
                && type_ok str_addr (String c EmptyString) v) eqn:Eacc;
        [|discriminate Hw].
      destruct (slot_words str_addr pre vs) as [ws'|] eqn:Ews; [|discriminate Hw].
      inversion Hw; subst ws. clear Hw. cbn [length] in Hd, Hr.
      apply andb_true_iff in Eacc as [Eacc Hok].
      apply andb_true_iff in Eacc as [Hc Hv].
      destruct (simple_tag_char_facts c Hc) as [_ Hnul].
      apply Ascii.eqb_neq in Hnul.
      assert (Hidx : index_of (Z.of_nat k + arg_start)
                       (mk_vm w (front ++ (v :: vs) ++ back) l)
                     = Done v (mk_vm w (front ++ (v :: vs) ++ back) l)).
      { apply index_of_lookup; [lia|].
        cbn [app]. apply list_lookup_middle. lia. }
      assert (Hrne : restp <> []) by (intros ->; cbn in Hr; lia).
      destruct (IH pre (S k) (front ++ [v])%list
                  (buf_store (buf_store (buf_store buf 0 NUL) 0 c) 1 NUL)
                  (done ++ [simple_word str_addr v])%list (tail restp) ws'
                  Ews Hdrop' Hfront'
                  ltac:(rewrite !buf_store_length; exact Hlen)
                  ltac:(rewrite length_app; cbn [length]; lia)
                  ltac:(destruct restp; [congruence|cbn [tail length] in *; lia]))
        as [buf' [Hloop Hlen']].
      exists buf'. split; [|exact Hlen'].
      rewrite (check_loop_success berry_call str_addr fuel (length vs + m)
                 (Z.of_nat k) arg_start true _ (Some t) (Z.of_nat k + 1)
                 (buf_store (buf_store (buf_store buf 0 NUL) 0 c) 1 NUL)
                 (simple_word str_addr v) _ (mk_vm w (front ++ (v :: vs) ++ back) l)).
      * cbn [ps_p ps_p_idx]. rewrite Nat2Z.id.
        rewrite (insert_middle_tail done restp _ Hrne).
        replace (Z.of_nat k + 1) with (Z.of_nat (S k)) by lia.
        replace (Z.of_nat (length done) + 1)
          with (Z.of_nat (length (done ++ [simple_word str_addr v])))
          by (rewrite length_app; cbn [length]; lia).
        replace (k + S (length vs))%nat with (S k + length vs)%nat by lia.
        rewrite Hst, Hloop.
        assert (HP : ((done ++ [simple_word str_addr v]) ++ ws'
                      ++ drop (length ws') (tail restp))%list
                     = (done ++ (simple_word str_addr v :: ws')
                        ++ drop (length (simple_word str_addr v :: ws')) restp)%list).
        { rewrite <- app_assoc. cbn [app length].
          destruct restp; [congruence|reflexivity]. }
        assert (HI : Z.of_nat (length (done ++ [simple_word str_addr v]) + length ws')
                     = Z.of_nat (length done + length (simple_word str_addr v :: ws'))).
        { rewrite length_app. cbn [length]. lia. }
        rewrite HP, HI. reflexivity.
      * cbn [ps_arg_type ps_arg_idx ps_buf].
        rewrite next_token_simple by (rewrite Hchar; exact Hc).
        rewrite Hchar. reflexivity.
      * rewrite (c_str_simple buf c Hlen Hnul).
        rewrite (be_convert_single_elt_simple berry_call str_addr fuel _
                   (Some (String c EmptyString)) _ _ v Hidx Hv eq_refl).
        cbn [tag_or_wildcard]. rewrite Hok. reflexivity.
      * cbn [ps_p_idx]. lia.
Qed.

(** X11. A descriptor of skips and simple tokens over as many arguments:
    every argument under [-] is passed over without being looked at, every
    other one is converted by its token, the words fill the slots from 0 on
    in order, the slots that are left keep the 0 of the caller, and the
    machine is left as it is. *)
Theorem X11_descriptor_fills_slots_in_order :
  forall fuel w front vs back l pre ws,
    slot_words str_addr pre vs = Some ws ->
    (length ws <= 8)%nat ->
    Z.of_nat (length vs) < 2 ^ 32 ->
    be_check_arg_type berry_call str_addr fuel (Z.of_nat (length front) + 1)
      (Z.of_nat (length vs)) (Some pre) p0 (mk_vm w (front ++ vs ++ back) l)
    = Done (ws ++ drop (length ws) p0)%list (mk_vm w (front ++ vs ++ back) l).
Proof.
  intros fuel w front vs back l pre ws Hw Hn Hsmall.
  unfold be_check_arg_type.
  replace (Z.to_nat (to_uint32 (Z.of_nat (length vs)))) with (length vs + 0)%nat.
  2:{ unfold to_uint32. rewrite Z.mod_small by lia. lia. }
  rewrite bool_decide_eq_true_2 by discriminate.
  destruct (check_loop_tokens fuel w l back pre EmptyString
              (Z.of_nat (length front) + 1) 0%nat vs pre 0%nat front
              type_short_name0 [] p0 ws Hw
              ltac:(cbn [str_drop]; symmetry; apply append_empty_r)
              ltac:(lia) eq_refl ltac:(cbn [length]; lia)
              ltac:(cbn [length p0]; lia))
    as [buf' [Hloop _]].
  change (Z.of_nat 0) with 0 in Hloop. cbn [app length] in Hloop.
  change (Z.of_nat 0) with 0 in Hloop.
  unfold bind at 1. rewrite Hloop. cbn [check_loop]. unfold ret at 1.
  cbn [ps_arg_type ps_arg_idx ps_p Nat.add].
  rewrite <- (slot_words_length pre vs ws Hw).
  rewrite char_at_nat, str_drop_all.
  change (char_at EmptyString 0) with NUL.
  change (Ascii.eqb NUL NUL) with true. reflexivity.
Qed.

End ParserInGeneral.

Lemma X11_witness :
  slot_words addr_of "ii-s" [BInt 1; BInt 2; BClosure 3; BString "x"]
  = Some [1; 2; 4097]
  /\ (length [1; 2; 4097] <= 8)%nat
  /\ Z.of_nat (length [BInt 1; BInt 2; BClosure 3; BString "x"]) < 2 ^ 32
  /\ be_check_arg_type no_call addr_of 0 (Z.of_nat (length [BInstance 0]) + 1)
       (Z.of_nat (length [BInt 1; BInt 2; BClosure 3; BString "x"])) (Some "ii-s") p0
       (mk_vm sample_world
          ([BInstance 0] ++ [BInt 1; BInt 2; BClosure 3; BString "x"] ++ []) [])
     = Done ([1; 2; 4097] ++ drop (length [1; 2; 4097]) p0)%list
         (mk_vm sample_world
            ([BInstance 0] ++ [BInt 1; BInt 2; BClosure 3; BString "x"] ++ []) []).
Proof.
  assert (H1 : slot_words addr_of "ii-s" [BInt 1; BInt 2; BClosure 3; BString "x"]
               = Some [1; 2; 4097]) by (vm_compute; reflexivity).
  assert (H2 : (length [1; 2; 4097] <= 8)%nat) by (cbn; lia).
  assert (H3 : Z.of_nat (length [BInt 1; BInt 2; BClosure 3; BString "x"]) < 2 ^ 32)
    by (cbn; lia).
  exact (conj H1 (conj H2 (conj H3
    (X11_descriptor_fills_slots_in_order no_call addr_of 0 sample_world
       [BInstance 0] [BInt 1; BInt 2; BClosure 3; BString "x"] [] [] "ii-s"
       [1; 2; 4097] H1 H2 H3)))).
Defined.

Section ParserEdges.

Variable berry_call :
  bworld -> bvalue -> list bvalue -> bexception + (bvalue * bworld).
Variable str_addr : string -> Z.

(** Without a descriptor every round converts its argument with the
    wildcard tag. *)
Lemma check_loop_unchecked fuel w l back arg_start m idx0 :
  forall vs (i : nat) (front : list bvalue) buf (done restp : list Z),
    forallb is_simple vs = true ->
    Z.of_nat (length front) = Z.of_nat i + arg_start - 1 ->
    (length done + length vs <= 8)%nat ->
    (length vs <= length restp)%nat ->
    exists buf',
      check_loop berry_call str_addr fuel (length vs + m) (Z.of_nat i) arg_start false
        (mk_parse None idx0 buf (done ++ restp)%list (Z.of_nat (length done)))
        (mk_vm w (front ++ vs ++ back) l)
      = check_loop berry_call str_addr fuel m (Z.of_nat (i + length vs)) arg_start false
          (mk_parse None idx0 buf'
             (done ++ map (simple_word str_addr) vs ++ drop (length vs) restp)%list
             (Z.of_nat (length done + length vs)))
          (mk_vm w (front ++ vs ++ back) l).
Proof.
  induction vs as [|v vs IH]; intros i front buf done restp Hs Hfront Hd Hr.
  - exists buf. cbn [length app Nat.add drop map]. rewrite !Nat.add_0_r. reflexivity.
  - cbn [forallb] in Hs. apply andb_true_iff in Hs as [Hv Hs].
    cbn [length] in Hd, Hr.
    assert (Hidx : index_of (Z.of_nat i + arg_start)
                     (mk_vm w (front ++ (v :: vs) ++ back) l)
                   = Done v (mk_vm w (front ++ (v :: vs) ++ back) l)).
    { apply index_of_lookup; [lia|].
      cbn [app]. apply list_lookup_middle. lia. }
    assert (Hrne : restp <> []) by (intros ->; cbn in Hr; lia).
    assert (Hst : (front ++ (v :: vs) ++ back)%list
                  = ((front ++ [v]) ++ vs ++ back)%list)
      by (rewrite <- app_assoc; reflexivity).
    destruct (IH (S i) (front ++ [v])%list (buf_store buf 0 NUL)
                (done ++ [simple_word str_addr v])%list (tail restp) Hs
                ltac:(rewrite length_app; cbn [length]; lia)
                ltac:(rewrite length_app; cbn [length]; lia)
                ltac:(destruct restp; [congruence|cbn [tail length] in *; lia]))
      as [buf' Hloop].
    exists buf'. cbn [length Nat.add].
    rewrite (check_loop_success berry_call str_addr fuel (length vs + m)
               (Z.of_nat i) arg_start false _ None idx0 (buf_store buf 0 NUL)
               (simple_word str_addr v) _ (mk_vm w (front ++ (v :: vs) ++ back) l)).
    + cbn [ps_p ps_p_idx]. rewrite Nat2Z.id.
      rewrite (insert_middle_tail done restp _ Hrne).
      replace (Z.of_nat i + 1) with (Z.of_nat (S i)) by lia.
      replace (Z.of_nat (length done) + 1)
        with (Z.of_nat (length (done ++ [simple_word str_addr v])))
        by (rewrite length_app; cbn [length]; lia).
      replace (i + S (length vs))%nat with (S i + length vs)%nat by lia.
      rewrite Hst, Hloop.
      assert (HP : ((done ++ [simple_word str_addr v])
                    ++ map (simple_word str_addr) vs
                    ++ drop (length vs) (tail restp))%list
                   = (done ++ map (simple_word str_addr) (v :: vs)
                      ++ drop (length (v :: vs)) restp)%list).
      { rewrite <- app_assoc. cbn [app length map].
        destruct restp; [congruence|reflexivity]. }
      assert (HI : Z.of_nat (length (done ++ [simple_word str_addr v]) + length vs)
                   = Z.of_nat (length done + length (v :: vs))).
      { rewrite length_app. cbn [length]. lia. }
      rewrite HP, HI. reflexivity.
    + reflexivity.
    + rewrite (be_convert_single_elt_simple berry_call str_addr fuel _ None _ _ v
                 Hidx Hv eq_refl).
      reflexivity.
    + cbn [ps_p_idx]. lia.
Qed.

(** The whole check under a NULL descriptor, for a run of simple values in
    the middle of the stack. *)
Lemma be_check_arg_type_unchecked :
  forall fuel w front vs back l,
    forallb is_simple vs = true ->
    (length vs <= 8)%nat ->
    be_check_arg_type berry_call str_addr fuel (Z.of_nat (length front) + 1)
      (Z.of_nat (length vs)) None p0 (mk_vm w (front ++ vs ++ back) l)
    = Done (map (simple_word str_addr) vs ++ drop (length vs) p0)%list
        (mk_vm w (front ++ vs ++ back) l).
Proof.
  intros fuel w front vs back l Hs Hn.
  unfold be_check_arg_type.
  replace (Z.to_nat (to_uint32 (Z.of_nat (length vs)))) with (length vs + 0)%nat.
  2:{ unfold to_uint32. rewrite Z.mod_small by lia. lia. }
  rewrite bool_decide_eq_false_2 by (intros H; apply H; reflexivity).
  destruct (check_loop_unchecked fuel w l back (Z.of_nat (length front) + 1) 0%nat 0
              vs 0%nat front type_short_name0 [] p0 Hs ltac:(lia)
              ltac:(cbn [length]; lia) ltac:(cbn [length p0]; lia))
    as [buf' Hloop].
  change (Z.of_nat 0) with 0 in Hloop. cbn [app length] in Hloop.
  change (Z.of_nat 0) with 0 in Hloop.
  unfold bind at 1. rewrite Hloop. reflexivity.
Qed.

(** X12. Without a descriptor (NULL) no type is checked: up to eight simple
    arguments of any kind are converted to their words, slot after slot,
    and the machine is left as it is. *)
Theorem X12_no_descriptor_no_check :
  forall fuel w front vs back l,
    forallb is_simple vs = true ->
    (length vs <= 8)%nat ->
    be_check_arg_type berry_call str_addr fuel (Z.of_nat (length front) + 1)
      (Z.of_nat (length vs)) None p0 (mk_vm w (front ++ vs ++ back) l)
    = Done (map (simple_word str_addr) vs ++ drop (length vs) p0)%list
        (mk_vm w (front ++ vs ++ back) l).
Proof.
  intros fuel w front vs back l Hs Hn.
  apply be_check_arg_type_unchecked; assumption.
Qed.

(** X13. The array [p] has eight slots and line 305 does not test the
    index: with nine or more arguments that all convert, the ninth word is
    stored past the end of [p], which is no defined behaviour of C. *)
Theorem X13_ninth_argument_overflows :
  forall fuel w front vs8 v more back l,
    length vs8 = 8%nat ->
    forallb is_simple vs8 = true ->
    is_simple v = true ->
    Z.of_nat (length (vs8 ++ v :: more)) < 2 ^ 32 ->
    be_check_arg_type berry_call str_addr fuel (Z.of_nat (length front) + 1)
      (Z.of_nat (length (vs8 ++ v :: more))) None p0
      (mk_vm w (front ++ (vs8 ++ v :: more) ++ back) l)
    = Undefined "p[] overflow".
Proof.
  intros fuel w front vs8 v more back l H8 Hs Hv Hsmall.
  unfold be_check_arg_type.
  replace (Z.to_nat (to_uint32 (Z.of_nat (length (vs8 ++ v :: more)))))
    with (length vs8 + S (length more))%nat.
  2:{ unfold to_uint32. rewrite Z.mod_small by lia.
      rewrite length_app. cbn [length]. lia. }
  rewrite bool_decide_eq_false_2 by (intros H; apply H; reflexivity).
  replace (front ++ (vs8 ++ v :: more) ++ back)%list
    with (front ++ vs8 ++ ((v :: more) ++ back))%list
    by (rewrite <- (app_assoc vs8); reflexivity).
  destruct (check_loop_unchecked fuel w l ((v :: more) ++ back)
              (Z.of_nat (length front) + 1) (S (length more)) 0
              vs8 0%nat front type_short_name0 [] p0 Hs ltac:(lia)
              ltac:(cbn [length]; lia) ltac:(cbn [length p0]; lia))
    as [buf' Hloop].
  change (Z.of_nat 0) with 0 in Hloop. cbn [app length] in Hloop.
  change (Z.of_nat 0) with 0 in Hloop.
  cbn [app].
  unfold bind at 1. rewrite Hloop.
  cbn [check_loop Nat.add ps_arg_type ps_arg_idx ps_buf ps_p ps_p_idx].
  rewrite next_token_exhausted.
  assert (Hidx : index_of (Z.of_nat (length vs8) + (Z.of_nat (length front) + 1))
                   (mk_vm w (front ++ vs8 ++ (v :: more) ++ back) l)
                 = Done v (mk_vm w (front ++ vs8 ++ (v :: more) ++ back) l)).
  { apply index_of_lookup; [lia|].
    rewrite app_assoc. cbn [app]. apply list_lookup_middle.
    rewrite length_app. lia. }
  cbn [app] in Hidx. cbn [app].
  unfold bind at 1.
  rewrite (be_convert_single_elt_simple berry_call str_addr fuel _ None _ _ v
             Hidx Hv eq_refl).
  replace (type_ok str_addr (tag_or_wildcard None) v) with true by reflexivity.
  rewrite H8. reflexivity.
Qed.

(** A character without a case is never passed: the loop stays at it. *)
Lemma check_loop_stuck fuel t k chk n :
  unsupported_char (char_at t k) = true ->
  forall i arg_start buf p p_idx vm,
    match check_loop berry_call str_addr fuel n i arg_start chk
            (mk_parse (Some t) k buf p p_idx) vm with
    | Done st' _ => ps_arg_type st' = Some t /\ ps_arg_idx st' = k
    | _ => True
    end.
Proof.
  intros Hc. induction n as [|n IH]; intros i arg_start buf p p_idx vm.
  - cbn. auto.
  - cbn [check_loop ps_arg_type ps_arg_idx ps_buf].
    rewrite (next_token_unsupported t k buf Hc).
    unfold bind at 1.
    destruct (be_convert_single_elt berry_call str_addr fuel (i + arg_start) _ _ vm)
      as [w1 vm1|e vm1|why|]; try exact I.
    cbn [ps_p_idx ps_p]. destruct (p_idx <? 8); [|exact I].
    apply IH.
Qed.

(** X14. A descriptor that starts with a character for which the parser
    has no case (an upper case letter, a digit, a closing parenthesis, the
    [+] that the documentation gives for optional arguments) never lets a
    call through: the position stays on that character, so that the check
    of the arguments never returns normally, whatever the arguments are. *)
Theorem X14_unsupported_character_blocks_every_call :
  forall fuel arg_start argc t p vm p' vm',
    unsupported_char (char_at t 0) = true ->
    be_check_arg_type berry_call str_addr fuel arg_start argc (Some t) p vm
    <> Done p' vm'.
Proof.
  intros fuel arg_start argc t p vm p' vm' Hc.
  unfold be_check_arg_type. unfold bind at 1.
  pose proof (check_loop_stuck fuel t 0 (bool_decide (Some t <> None))
                (Z.to_nat (to_uint32 argc)) Hc 0 arg_start type_short_name0 p 0 vm)
    as H.
  destruct (check_loop berry_call str_addr fuel (Z.to_nat (to_uint32 argc)) 0
              arg_start (bool_decide (Some t <> None))
              (mk_parse (Some t) 0 type_short_name0 p 0) vm)
    as [st' vm1|e vm1|why|]; try discriminate.
  destruct H as [Ht Hk]. rewrite Ht, Hk.
  unfold unsupported_char in Hc. apply andb_true_iff in Hc as [_ Hn].
  apply negb_true_iff in Hn. rewrite Hn. discriminate.
Qed.

End ParserEdges.

Lemma X12_witness :
  forallb is_simple [BString "x"; BNil; BBool true] = true
  /\ (length [BString "x"; BNil; BBool true] <= 8)%nat
  /\ be_check_arg_type no_call addr_of 0 (Z.of_nat (length (@nil bvalue)) + 1)
       (Z.of_nat (length [BString "x"; BNil; BBool true])) None p0
       (mk_vm sample_world ([] ++ [BString "x"; BNil; BBool true] ++ []) [])
     = Done (map (simple_word addr_of) [BString "x"; BNil; BBool true]
             ++ drop (length [BString "x"; BNil; BBool true]) p0)%list
         (mk_vm sample_world ([] ++ [BString "x"; BNil; BBool true] ++ []) []).
Proof.
  assert (H1 : forallb is_simple [BString "x"; BNil; BBool true] = true)
    by reflexivity.
  assert (H2 : (length [BString "x"; BNil; BBool true] <= 8)%nat) by (cbn; lia).
  exact (conj H1 (conj H2
    (X12_no_descriptor_no_check no_call addr_of 0 sample_world []
       [BString "x"; BNil; BBool true] [] [] H1 H2))).
Defined.

Lemma X13_witness :
  length (replicate 8 (BInt 1)) = 8%nat
  /\ forallb is_simple (replicate 8 (BInt 1)) = true
  /\ is_simple (BInt 9) = true
  /\ Z.of_nat (length (replicate 8 (BInt 1) ++ BInt 9 :: [])) < 2 ^ 32
  /\ be_check_arg_type no_call addr_of 0 (Z.of_nat (length (@nil bvalue)) + 1)
       (Z.of_nat (length (replicate 8 (BInt 1) ++ BInt 9 :: []))) None p0
       (mk_vm sample_world ([] ++ (replicate 8 (BInt 1) ++ BInt 9 :: []) ++ []) [])
     = Undefined "p[] overflow".
Proof.
  assert (H1 : length (replicate 8 (BInt 1)) = 8%nat) by reflexivity.
  assert (H2 : forallb is_simple (replicate 8 (BInt 1)) = true) by reflexivity.
  assert (H3 : is_simple (BInt 9) = true) by reflexivity.
  assert (H4 : Z.of_nat (length (replicate 8 (BInt 1) ++ BInt 9 :: [])) < 2 ^ 32)
    by (cbn; lia).
  exact (conj H1 (conj H2 (conj H3 (conj H4
    (X13_ninth_argument_overflows no_call addr_of 0 sample_world []
       (replicate 8 (BInt 1)) (BInt 9) [] [] [] H1 H2 H3 H4))))).
Defined.

Lemma X14_witness :
  unsupported_char (char_at "+i" 0) = true
  /\ be_check_arg_type no_call addr_of 0 1 1 (Some "+i") p0 (sample_vm [BNil])
     <> Done p0 (sample_vm [BNil]).
Proof.
  assert (H1 : unsupported_char (char_at "+i" 0) = true) by reflexivity.
  exact (conj H1
    (X14_unsupported_character_blocks_every_call no_call addr_of 0 1 1 "+i" p0
       (sample_vm [BNil]) p0 (sample_vm [BNil]) H1)).
Defined.

(** ** Class and callback tokens that are closed *)

Lemma scan_name_until t (a : nat) (prefix : Z) :
  0 <= prefix ->
  forall name (offset : nat) (l1 r : list ascii) (fuel : nat) tl,
    str_drop (a + offset) t = name +:+ tl ->
    stop_char (char_at tl 0) = true ->
    plain_name name = true ->
    length l1 = (offset + Z.to_nat prefix)%nat ->
    (length l1 + String.length name <= 31)%nat ->
    length (l1 ++ NUL :: r) = 32%nat ->
    (String.length name < fuel)%nat ->
    exists r',
      scan_name fuel t (Z.of_nat a) prefix (Z.of_nat offset) (l1 ++ NUL :: r)
      = (Z.of_nat (offset + String.length name),
         ((l1 ++ list_ascii_of_string name) ++ NUL :: r')%list)
      /\ length ((l1 ++ list_ascii_of_string name) ++ NUL :: r')%list = 32%nat.
Proof.
  intros Hprefix name.
  induction name as [|c name IH];
    intros offset l1 r fuel tl Hdrop Hstop Hplain Hl1 Hfit Hlen Hfuel.
  - destruct fuel as [|fuel]; [cbn in Hfuel; lia|].
    change (EmptyString +:+ tl) with tl in Hdrop.
    cbn [scan_name].
    replace (Z.of_nat a + Z.of_nat offset) with (Z.of_nat (a + offset)) by lia.
    rewrite char_at_nat, Hdrop.
    unfold stop_char in Hstop.
    replace (negb (Ascii.eqb (char_at tl 0) ")")
             && negb (Ascii.eqb (char_at tl 0) "^")
             && negb (Ascii.eqb (char_at tl 0) NUL)
             && (Z.of_nat offset + prefix + 1 <? 32)) with false.
    2:{ destruct (Ascii.eqb (char_at tl 0) ")"); [reflexivity|].
        destruct (Ascii.eqb (char_at tl 0) "^"); [reflexivity|].
        destruct (Ascii.eqb (char_at tl 0) NUL); [reflexivity|discriminate Hstop]. }
    exists r. cbn [list_ascii_of_string String.length].
    rewrite app_nil_r, Nat.add_0_r. split; [reflexivity|exact Hlen].
  - destruct fuel as [|fuel]; [cbn in Hfuel; lia|].
    cbn [String.length] in Hfit, Hfuel.
    cbn [plain_name] in Hplain.
    apply andb_true_iff in Hplain as [Hc Hplain].
    rewrite append_cons in Hdrop.
    cbn [scan_name].
    replace (Z.of_nat a + Z.of_nat offset) with (Z.of_nat (a + offset)) by lia.
    rewrite char_at_nat, Hdrop, char_at_0, Hc.
    replace (Z.of_nat offset + prefix + 1 <? 32) with true
      by (symmetry; apply Z.ltb_lt; lia).
    cbn [andb].
    assert (Hr : r <> []).
    { intros ->. rewrite length_app in Hlen. cbn [length] in Hlen. lia. }
    rewrite (store_pair l1 r (Z.of_nat offset + prefix) c) by (lia || exact Hr).
    replace (Z.of_nat offset + 1) with (Z.of_nat (S offset)) by lia.
    destruct (IH (S offset) (l1 ++ [c])%list (tail r) fuel tl) as [r' [Hs Hl]].
    + replace (a + S offset)%nat with (S (a + offset)) by lia.
      apply (str_drop_S _ _ _ _ Hdrop).
    + exact Hstop.
    + exact Hplain.
    + rewrite length_app. cbn [length]. lia.
    + rewrite length_app. cbn [length]. lia.
    + destruct r as [|x r]; [congruence|].
      rewrite !length_app in *. cbn [length tail] in *. lia.
    + lia.
    + exists r'. rewrite Hs. cbn [list_ascii_of_string String.length].
      replace (S offset + String.length name)%nat
        with (offset + S (String.length name))%nat by lia.
      rewrite <- (app_assoc l1 [c]) in *. cbn [app] in *.
      split; [reflexivity|exact Hl].
Qed.

(** X15. A class token [(name)] and a callback token [^name^]: the name,
    when it fits into the buffer, is the token (with its caret for a
    callback), the closing character is passed over, and the descriptor is
    read on after it.  A name is closed by a parenthesis or by a caret
    alike. *)
Theorem X15_closed_name_token :
  forall t (k : nat) name d tl buf (caret : bool),
    length buf = 32%nat ->
    char_at t (Z.of_nat k) = (if caret then "^" else "(")%char ->
    str_drop (S k) t = name +:+ String d tl ->
    Ascii.eqb d ")" || Ascii.eqb d "^" = true ->
    plain_name name = true ->
    (String.length name + (if caret then 1 else 0) <= 31)%nat ->
    exists buf1,
      next_token (Some t) (Z.of_nat k) buf
      = (Some t, Z.of_nat (k + String.length name + 2), buf1, false)
      /\ c_str buf1 = (if caret then "^" else "") +:+ name
      /\ length buf1 = 32%nat.
Proof.
  intros t k name d tl buf caret Hlen Hc Hdrop Hd Hplain Hfit.
  assert (Hstop : stop_char (char_at (String d tl) 0) = true).
  { rewrite char_at_0. unfold stop_char. rewrite Hd. reflexivity. }
  assert (Hend : Ascii.eqb (char_at t (Z.of_nat (S k + String.length name))) NUL
                 = false).
  { rewrite char_at_nat, str_drop_add, Hdrop, str_drop_append, char_at_0.
    apply orb_true_iff in Hd as [Hd|Hd]; apply Ascii.eqb_eq in Hd; subst d;
      reflexivity. }
  destruct buf as [|b0 [|b1 r]]; try discriminate Hlen.
  unfold next_token. rewrite Hc.
  replace (Z.of_nat k + 1) with (Z.of_nat (S k)) by lia.
  destruct caret.
  - change (Ascii.eqb "^" "-") with false.
    change (Ascii.eqb "^" "." || is_lower "^") with false.
    change (Ascii.eqb "^" "(" || Ascii.eqb "^" "^") with true.
    change (Ascii.eqb "^" "^") with true. cbn match.
    change (buf_store (buf_store (buf_store (b0 :: b1 :: r) 0 NUL) 0 "^") 1 NUL)
      with (["^"%char] ++ NUL :: r)%list.
    destruct (scan_name_until t (S k) 1 ltac:(lia) name 0 ["^"%char] r 32
                (String d tl)) as [r' [Hs Hl]]; try assumption; try reflexivity.
    + cbn [length]. rewrite Nat.add_0_r. exact Hdrop.
    + cbn [length]. lia.
    + lia.
    + change (Z.of_nat 0) with 0 in Hs. rewrite Hs.
      cbn [Nat.add]. replace (Z.of_nat (S k) + Z.of_nat (String.length name))
        with (Z.of_nat (S k + String.length name)) by lia.
      rewrite Hend. cbn match.
      eexists. split; [|split].
      * f_equal. f_equal. f_equal. lia.
      * cbn [app]. rewrite c_str_cons by discriminate.
        rewrite (c_str_app name r' Hplain). reflexivity.
      * exact Hl.
  - change (Ascii.eqb "(" "-") with false.
    change (Ascii.eqb "(" "." || is_lower "(") with false.
    change (Ascii.eqb "(" "(" || Ascii.eqb "(" "^") with true.
    change (Ascii.eqb "(" "^") with false. cbn match.
    change (buf_store (b0 :: b1 :: r) 0 NUL) with ([] ++ NUL :: b1 :: r)%list.
    destruct (scan_name_until t (S k) 0 ltac:(lia) name 0 [] (b1 :: r) 32
                (String d tl)) as [r' [Hs Hl]]; try assumption; try reflexivity.
    + cbn [length]. rewrite Nat.add_0_r. exact Hdrop.
    + cbn [length]. lia.
    + lia.
    + change (Z.of_nat 0) with 0 in Hs. rewrite Hs.
      cbn [Nat.add]. replace (Z.of_nat (S k) + Z.of_nat (String.length name))
        with (Z.of_nat (S k + String.length name)) by lia.
      rewrite Hend. cbn match.
      eexists. split; [|split].
      * f_equal. f_equal. f_equal. lia.
      * cbn [app]. rewrite (c_str_app name r' Hplain). reflexivity.
      * exact Hl.
Qed.

Lemma X15_witness :
  length type_short_name0 = 32%nat
  /\ char_at "i(lv_obj)s" (Z.of_nat 1) = "("%char
  /\ str_drop 2 "i(lv_obj)s" = "lv_obj" +:+ String ")" "s"
  /\ Ascii.eqb ")" ")" || Ascii.eqb ")" "^" = true
  /\ plain_name "lv_obj" = true
  /\ (String.length "lv_obj" + 0 <= 31)%nat
  /\ exists buf1,
       next_token (Some "i(lv_obj)s") (Z.of_nat 1) type_short_name0
       = (Some "i(lv_obj)s", Z.of_nat (1 + String.length "lv_obj" + 2), buf1, false)
       /\ c_str buf1 = "" +:+ "lv_obj"
       /\ length buf1 = 32%nat.
Proof.
  assert (H1 : length type_short_name0 = 32%nat) by reflexivity.
  assert (H2 : char_at "i(lv_obj)s" (Z.of_nat 1) = "("%char) by reflexivity.
  assert (H3 : str_drop 2 "i(lv_obj)s" = "lv_obj" +:+ String ")" "s") by reflexivity.
  assert (H4 : Ascii.eqb ")" ")" || Ascii.eqb ")" "^" = true) by reflexivity.
  assert (H5 : plain_name "lv_obj" = true) by reflexivity.
  assert (H6 : (String.length "lv_obj" + 0 <= 31)%nat) by (vm_compute; lia).
  exact (conj H1 (conj H2 (conj H3 (conj H4 (conj H5 (conj H6
    (X15_closed_name_token "i(lv_obj)s" 1%nat "lv_obj" ")" "s" type_short_name0
       false H1 H2 H3 H4 H5 H6))))))).
Defined.

(** ** The dispatcher, in general *)

Section DispatchInGeneral.

Variable berry_call :
  bworld -> bvalue -> list bvalue -> bexception + (bvalue * bworld).
Variable str_addr : string -> Z.
Variable c_str_at : Z -> option string.

Lemma check_loop_length fuel n :
  forall i arg_start chk st vm st' vm',
    check_loop berry_call str_addr fuel n i arg_start chk st vm = Done st' vm' ->
    length (ps_p st') = length (ps_p st).
Proof.
  induction n as [|n IH]; intros i arg_start chk st vm st' vm' H.
  - cbn in H. inversion H; subst. reflexivity.
  - cbn [check_loop] in H.
    destruct (next_token (ps_arg_type st) (ps_arg_idx st) (ps_buf st))
      as [[[ty idx] buf] skip].
    destruct skip.
    + apply IH in H. exact H.
    + unfold bind at 1 in H.
      destruct (be_convert_single_elt berry_call str_addr fuel (i + arg_start) _ _ vm)
        as [w1 vm1|e vm1|why|]; try discriminate H.
      destruct (ps_p_idx st <? 8); [|discriminate H].
      apply IH in H. cbn [ps_p] in H. rewrite length_insert in H. exact H.
Qed.

Lemma be_check_arg_type_length fuel arg_start argc arg_type p vm p' vm' :
  be_check_arg_type berry_call str_addr fuel arg_start argc arg_type p vm
  = Done p' vm' ->
  length p' = length p.
Proof.
  unfold be_check_arg_type. unfold bind at 1. intros H.
  destruct (check_loop berry_call str_addr fuel (Z.to_nat (to_uint32 argc)) 0
              arg_start (bool_decide (arg_type <> None))
              (mk_parse arg_type 0 type_short_name0 p 0) vm)
    as [st1 vm1|e vm1|why|] eqn:E; try discriminate H.
  apply check_loop_length in E. cbn [ps_p] in E.
  destruct (ps_arg_type st1) as [t|].
  - destruct (negb (Ascii.eqb (char_at t (ps_arg_idx st1)) NUL)); [discriminate H|].
    inversion H; subst. exact E.
  - inversion H; subst. exact E.
Qed.

(** X16. In every dispatch the native function is called at most once, and
    then with exactly eight words: when the dispatch returns or raises, the
    record of the native calls is the one from before, or the one from
    before with one call of eight words added. *)
Theorem X16_at_most_one_call_of_eight_words :
  forall fuel func return_type arg_type vm,
    match be_call_c_func berry_call str_addr c_str_at fuel func return_type
            arg_type vm with
    | Done _ vm' | Throw _ vm' =>
        native_calls vm' = native_calls vm
        \/ exists p, length p = 8%nat
                     /\ native_calls vm' = (native_calls vm ++ [p])%list
    | _ => True
    end.
Proof.
  intros fuel func return_type arg_type vm.
  rewrite be_call_c_func_unfold.
  destruct (adopts return_type vm).
  - assert (K : keeps_calls (obj <- be_tocomptr 2 ;;
                             be_set_ctor_ptr obj return_type ;; be_return_nil))
      by (unfold be_return_nil; keeps).
    specialize (K vm).
    destruct ((obj <- be_tocomptr 2 ;;
               be_set_ctor_ptr obj return_type ;; be_return_nil) vm);
      try exact I; left; exact K.
  - unfold bind at 1.
    pose proof (keeps_be_check_arg_type berry_call str_addr fuel
                  (if ctor_mode return_type then 2 else 1)
                  (if ctor_mode return_type then top_of vm - 1 else top_of vm)
                  arg_type p0 vm) as K1.
    destruct (be_check_arg_type berry_call str_addr fuel
                (if ctor_mode return_type then 2 else 1)
                (if ctor_mode return_type then top_of vm - 1 else top_of vm)
                arg_type p0 vm) as [p vm1|e vm1|why|] eqn:E; try exact I.
    + cbn in K1. apply be_check_arg_type_length in E.
      unfold bind at 1. unfold invoke at 1.
      set (vm2 := mk_vm (world vm1) (stack vm1) (native_calls vm1 ++ [p])).
      match goal with
      | |- match ?T vm2 with _ => _ end =>
          assert (K2 : keeps_calls T)
      end.
      { unfold be_return_nil, be_return, be_pushint, be_pushbool, be_pushstring,
          be_pushcomptr. keeps. }
      specialize (K2 vm2).
      match goal with
      | |- match ?T vm2 with _ => _ end => destruct (T vm2)
      end; try exact I; right; exists p; (split; [exact E|]);
        cbn in K2; rewrite K2; unfold vm2; cbn [native_calls]; rewrite K1;
        reflexivity.
    + left. exact K1.
Qed.

(** X17. After a successful check of the arguments the native function is
    called with the words [p], and a one-letter return tag makes the value
    of its result [r]: an integer for [i], [.] and [c], a boolean (is [r]
    not 0) for [b], the string at the address [r] for [s].  The value is
    pushed and returned.  Any other letter is an internal error, raised
    after the native function has been called. *)
Theorem X17_one_letter_return_tag :
  forall fuel func c arg_type vm p w1 st1 l1,
    Ascii.eqb c "+" = false ->
    be_check_arg_type berry_call str_addr fuel 1 (top_of vm) arg_type p0 vm
    = Done p (mk_vm w1 st1 l1) ->
    be_call_c_func berry_call str_addr c_str_at fuel func
      (Some (String c EmptyString)) arg_type vm
    = match return_value c_str_at c (func p) with
      | Some v => Done v (mk_vm w1 (st1 ++ [v]) (l1 ++ [p]))
      | None =>
          if supported_return c then Undefined "be_pushstring"
          else Throw (Exception "internal_error" "Unsupported return type")
                 (mk_vm w1 st1 (l1 ++ [p]))
      end.
Proof.
  intros fuel func c arg_type vm p w1 st1 l1 Hc Hchk.
  rewrite be_call_c_func_unfold.
  assert (Hm : ctor_mode (Some (String c EmptyString)) = false) by exact Hc.
  unfold adopts. rewrite Hm. cbn [andb].
  rewrite (bind_Done _ _ _ _ _ Hchk).
  unfold bind at 1. unfold invoke at 1. cbn [world stack native_calls].
  change (strlen (String c EmptyString) =? 0) with false.
  change (strlen (String c EmptyString) =? 1) with true.
  rewrite char_at_0, Hc. cbn match.
  unfold return_value, supported_return.
  destruct (Ascii.eqb c ".") eqn:E1; [|destruct (Ascii.eqb c "i") eqn:E2];
    cbn [orb].
  - unfold be_pushint. rewrite (bind_Done _ _ _ _ _ (push_app w1 st1 _ _)).
    apply index_of_m1.
  - unfold be_pushint. rewrite (bind_Done _ _ _ _ _ (push_app w1 st1 _ _)).
    apply index_of_m1.
  - destruct (Ascii.eqb c "b") eqn:E3.
    + unfold be_pushbool. rewrite (bind_Done _ _ _ _ _ (push_app w1 st1 _ _)).
      apply index_of_m1.
    + destruct (Ascii.eqb c "s") eqn:E4.
      * destruct (c_str_at (func p)) as [s|]; cbn [fmap option_fmap option_map].
        -- unfold be_pushstring.
           rewrite (bind_Done _ _ _ _ _ (push_app w1 st1 _ _)).
           apply index_of_m1.
        -- reflexivity.
      * destruct (Ascii.eqb c "c") eqn:E5.
        -- unfold be_pushint. rewrite (bind_Done _ _ _ _ _ (push_app w1 st1 _ _)).
           apply index_of_m1.
        -- reflexivity.
Qed.

(** X18. A return tag that is the name of a global class: after the
    native call the class is called with two pointers, the result of the
    native function and the mark -1, and what this call gives is pushed and
    returned as the value of the dispatch. *)
Theorem X18_class_name_return_tag :
  forall fuel func rt arg_type vm p w1 st1 l1 g inst w2,
    named_class_tag rt ->
    Ascii.eqb (char_at rt 0) "+" = false ->
    name_part rt ->
    be_check_arg_type berry_call str_addr fuel 1 (top_of vm) arg_type p0 vm
    = Done p (mk_vm w1 st1 l1) ->
    global_find w1 rt = Some g ->
    berry_call w1 g [BComptr (func p); BComptr (-1)] = inr (inst, w2) ->
    be_call_c_func berry_call str_addr c_str_at fuel func (Some rt) arg_type vm
    = Done inst (mk_vm w2 (st1 ++ [inst]) (l1 ++ [p])).
Proof.
  intros fuel func rt arg_type vm p w1 st1 l1 g inst w2 [Hlen _] Hplus Hpart
    Hchk Hg Hcall.
  rewrite be_call_c_func_unfold.
  assert (Hm : ctor_mode (Some rt) = false) by exact Hplus.
  unfold adopts. rewrite Hm. cbn [andb].
  rewrite (bind_Done _ _ _ _ _ Hchk).
  unfold bind at 1. unfold invoke at 1. cbn [world stack native_calls].
  replace (strlen rt =? 0) with false by (symmetry; apply Z.eqb_neq; lia).
  replace (strlen rt =? 1) with false by (symmetry; apply Z.eqb_neq; lia).
  rewrite Hplus. cbn match.
  unfold bind at 1.
  rewrite (be_find_global_or_module_member_at w1 st1 _ rt rt None
             (split_name_plain rt Hpart)).
  rewrite Hg.
  unfold be_pushcomptr.
  rewrite (bind_Done _ _ _ _ _ (push_app w1 _ _ _)).
  rewrite (bind_Done _ _ _ _ _ (push_app w1 _ _ _)).
  replace (((st1 ++ [g]) ++ [BComptr (func p)]) ++ [BComptr (-1)])%list
    with (st1 ++ g :: [BComptr (func p); BComptr (-1)])%list
    by (rewrite <- !app_assoc; reflexivity).
  pose proof (be_call_at berry_call w1 st1 (l1 ++ [p]) g
                [BComptr (func p); BComptr (-1)] inst w2 Hcall) as Hc.
  cbn [length] in Hc. change (Z.of_nat 2) with 2 in Hc.
  rewrite (bind_Done _ _ _ _ _ Hc).
  replace (st1 ++ inst :: [BComptr (func p); BComptr (-1)])%list
    with ((st1 ++ [inst]) ++ [BComptr (func p); BComptr (-1)])%list
    by (rewrite <- app_assoc; reflexivity).
  rewrite (bind_Done _ _ _ _ _ (be_pop_app w2 (st1 ++ [inst]) [_; _] _ 2 eq_refl)).
  apply index_of_m1.
Qed.

(** X19. A constructor whose return tag is [+] and a member name, without
    a descriptor and without a pointer to adopt: the instance itself, the
    first argument, is not handed to the native function; the words of the
    other arguments are.  The result of the native function is stored as a
    pointer in the member of the instance, and the dispatch returns nil. *)
Theorem X19_constructor_stores_native_result :
  forall fuel func name w vs l o ins old,
    name <> EmptyString ->
    instances w !! o = Some ins ->
    i_fields ins !! name = Some old ->
    forallb is_simple vs = true ->
    (length vs <= 8)%nat ->
    adopts (Some (String "+" name)) (mk_vm w (BInstance o :: vs) l) = false ->
    be_call_c_func berry_call str_addr c_str_at fuel func
      (Some (String "+" name)) None (mk_vm w (BInstance o :: vs) l)
    = Done BNil
        (mk_vm (store_member w o ins name
                  (BComptr (func (map (simple_word str_addr) vs
                                  ++ drop (length vs) p0)%list)))
           (BInstance o :: vs)
           (l ++ [(map (simple_word str_addr) vs ++ drop (length vs) p0)%list])).
Proof.
  intros fuel func name w vs l o ins old Hname Hins Hf Hs Hn Had.
  rewrite be_call_c_func_unfold, Had.
  change (ctor_mode (Some (String "+" name))) with true. cbn match.
  pose proof (be_check_arg_type_unchecked berry_call str_addr fuel w [BInstance o]
                vs [] l Hs Hn) as Hchk.
  rewrite app_nil_r in Hchk. cbn [length app] in Hchk.
  replace (top_of (mk_vm w (BInstance o :: vs) l) - 1) with (Z.of_nat (length vs))
    by (unfold top_of; cbn [stack length]; lia).
  change (Z.of_nat 1 + 1) with 2 in Hchk.
  rewrite (bind_Done _ _ _ _ _ Hchk).
  unfold bind at 1. unfold invoke at 1. cbn [world stack native_calls].
  change (strlen (String "+" name) =? 0) with false.
  change (Ascii.eqb (char_at (String "+" name) 0) "+") with true. cbn match.
  rewrite (bind_Done _ _ _ _ _
             (be_set_ctor_ptr_stores w (BInstance o :: vs) _ o ins old name _
                Hname eq_refl Hins Hf)).
  reflexivity.
Qed.

(** X20. The constructor pointer store needs the member: when the
    instance at position 1 has no variable of that name, the store fails
    with an attribute error that names the member, and the object store is
    as it was. *)
Theorem X20_ctor_store_without_member :
  forall ptr name w st l o ins,
    name <> EmptyString ->
    st !! 0%nat = Some (BInstance o) ->
    instances w !! o = Some ins ->
    i_fields ins !! name = None ->
    be_set_ctor_ptr ptr (Some (String "+" name)) (mk_vm w st l)
    = Throw (Exception "attribute_error" ("Missing member '" +:+ name +:+ "' in ctor"))
        (mk_vm w (st ++ [BComptr ptr]) l).
Proof.
  intros ptr name w st l o ins Hname Hst Hins Hf.
  unfold be_set_ctor_ptr.
  change (char_at (String "+" name) 0) with "+"%char.
  change (Ascii.eqb "+" "+") with true. cbn [str_drop].
  rewrite (strlen_nonempty name Hname).
  unfold be_pushcomptr. rewrite (bind_Done _ _ _ _ _ (push_app w st l _)).
  assert (Hset : be_setmember 1 name (mk_vm w (st ++ [BComptr ptr]) l)
                 = Done false (mk_vm w (st ++ [BComptr ptr]) l)).
  { unfold be_setmember.
    assert (H1 : index_of 1 (mk_vm w (st ++ [BComptr ptr]) l)
                 = Done (BInstance o) (mk_vm w (st ++ [BComptr ptr]) l)).
    { apply index_of_lookup; [lia|]. apply lookup_app_l_Some. exact Hst. }
    rewrite (bind_Done _ _ _ _ _ H1).
    rewrite (bind_Done _ _ _ _ _ (index_of_m1 w st l _)).
    unfold bind, get_vm. cbn [world]. rewrite Hins, Hf. reflexivity. }
  rewrite (bind_Done _ _ _ _ _ Hset). reflexivity.
Qed.

(** X21. The instance must be at position 1: a constructor dispatch on an
    empty stack takes -1 for the number of arguments, which the loop
    counter, an unsigned number, reads as 4294967295, and the first round
    reads the stack outside of the frame. *)
Theorem X21_constructor_without_instance :
  forall fuel func return_type w l,
    ctor_mode return_type = true ->
    be_call_c_func berry_call str_addr c_str_at fuel func return_type None
      (mk_vm w [] l)
    = Undefined "stack index".
Proof.
  intros fuel func return_type w l Hm.
  rewrite be_call_c_func_unfold.
  unfold adopts. rewrite Hm. change (1 <? top_of (mk_vm w [] l)) with false.
  cbn [andb]. cbn match.
  unfold bind at 1. unfold be_check_arg_type. unfold bind at 1.
  change (top_of (mk_vm w [] l) - 1) with (-1).
  change (to_uint32 (-1)) with 4294967295.
  assert (Hn : exists n, Z.to_nat 4294967295 = S n)
    by (exists (Z.to_nat 4294967294); lia).
  destruct Hn as [n ->].
  cbn [check_loop ps_arg_type ps_arg_idx ps_buf].
  rewrite next_token_exhausted.
  rewrite bool_decide_eq_false_2 by (intros H; apply H; reflexivity).
  unfold bind at 1.
  destruct fuel; reflexivity.
Qed.

End DispatchInGeneral.

Lemma X17_witness :
  Ascii.eqb "b" "+" = false
  /\ be_check_arg_type no_call addr_of 0 1 (top_of (sample_vm [BInt 5])) (Some "i") p0
       (sample_vm [BInt 5])
     = Done [5; 0; 0; 0; 0; 0; 0; 0] (mk_vm sample_world [BInt 5] [])
  /\ be_call_c_func no_call addr_of no_c_string 0 (fun _ => 7) (Some "b") (Some "i")
       (sample_vm [BInt 5])
     = match return_value no_c_string "b" 7 with
       | Some v =>
           Done v (mk_vm sample_world ([BInt 5] ++ [v])
                     ([] ++ [[5; 0; 0; 0; 0; 0; 0; 0]]))
       | None =>
           if supported_return "b" then Undefined "be_pushstring"
           else Throw (Exception "internal_error" "Unsupported return type")
                  (mk_vm sample_world [BInt 5] ([] ++ [[5; 0; 0; 0; 0; 0; 0; 0]]))
       end.
Proof.
  assert (H1 : Ascii.eqb "b" "+" = false) by reflexivity.
  assert (H2 : be_check_arg_type no_call addr_of 0 1 (top_of (sample_vm [BInt 5]))
                 (Some "i") p0 (sample_vm [BInt 5])
               = Done [5; 0; 0; 0; 0; 0; 0; 0] (mk_vm sample_world [BInt 5] []))
    by (vm_compute; reflexivity).
  exact (conj H1 (conj H2
    (X17_one_letter_return_tag no_call addr_of no_c_string 0 (fun _ => 7) "b"
       (Some "i") (sample_vm [BInt 5]) _ _ _ _ H1 H2))).
Defined.

Lemma X18_witness :
  named_class_tag "lv_obj"
  /\ Ascii.eqb (char_at "lv_obj" 0) "+" = false
  /\ name_part "lv_obj"
  /\ be_check_arg_type zoo_call addr_of 0 1 (top_of (zoo_vm [BInt 5])) None p0
       (zoo_vm [BInt 5])
     = Done [5; 0; 0; 0; 0; 0; 0; 0] (mk_vm zoo_world [BInt 5] [])
  /\ global_find zoo_world "lv_obj" = Some (BClass 0)
  /\ zoo_call zoo_world (BClass 0) [BComptr 7; BComptr (-1)]
     = inr (BInstance 0, zoo_world)
  /\ be_call_c_func zoo_call addr_of no_c_string 0 (fun _ => 7) (Some "lv_obj") None
       (zoo_vm [BInt 5])
     = Done (BInstance 0)
         (mk_vm zoo_world ([BInt 5] ++ [BInstance 0])
            ([] ++ [[5; 0; 0; 0; 0; 0; 0; 0]])).
Proof.
  assert (H1 : named_class_tag "lv_obj").
  { split; [reflexivity|]. intros H. vm_compute in H. discriminate H. }
  assert (H2 : Ascii.eqb (char_at "lv_obj" 0) "+" = false) by reflexivity.
  assert (H3 : name_part "lv_obj") by (split; [discriminate|reflexivity]).
  assert (H4 : be_check_arg_type zoo_call addr_of 0 1 (top_of (zoo_vm [BInt 5]))
                 None p0 (zoo_vm [BInt 5])
               = Done [5; 0; 0; 0; 0; 0; 0; 0] (mk_vm zoo_world [BInt 5] []))
    by (vm_compute; reflexivity).
  assert (H5 : global_find zoo_world "lv_obj" = Some (BClass 0))
    by (vm_compute; reflexivity).
  assert (H6 : zoo_call zoo_world (BClass 0) [BComptr 7; BComptr (-1)]
               = inr (BInstance 0, zoo_world)) by reflexivity.
  exact (conj H1 (conj H2 (conj H3 (conj H4 (conj H5 (conj H6
    (X18_class_name_return_tag zoo_call addr_of no_c_string 0 (fun _ => 7)
       "lv_obj" None (zoo_vm [BInt 5]) _ _ _ _ _ _ _ H1 H2 H3 H4 H5 H6))))))).
Defined.

Lemma X19_witness :
  "_p" <> EmptyString
  /\ instances sample_world !! 0%nat = Some (mk_instance 0%nat {[ "_p" := BNil ]})
  /\ ({[ "_p" := BNil ]} : gmap string bvalue) !! "_p" = Some BNil
  /\ forallb is_simple [BInt 3; BString "x"] = true
  /\ (length [BInt 3; BString "x"] <= 8)%nat
  /\ adopts (Some "+_p") (mk_vm sample_world (BInstance 0 :: [BInt 3; BString "x"]) [])
     = false
  /\ be_call_c_func no_call addr_of no_c_string 0 (fun p => 1000 + nth 0 p 0)
       (Some "+_p") None
       (mk_vm sample_world (BInstance 0 :: [BInt 3; BString "x"]) [])
     = Done BNil
         (mk_vm (store_member sample_world 0 (mk_instance 0%nat {[ "_p" := BNil ]})
                   "_p"
                   (BComptr ((fun p => 1000 + nth 0 p 0)
                               (map (simple_word addr_of) [BInt 3; BString "x"]
                                ++ drop (length [BInt 3; BString "x"]) p0)%list)))
            (BInstance 0 :: [BInt 3; BString "x"])
            ([] ++ [(map (simple_word addr_of) [BInt 3; BString "x"]
                     ++ drop (length [BInt 3; BString "x"]) p0)%list])).
Proof.
  assert (H1 : "_p" <> EmptyString) by discriminate.
  assert (H2 : instances sample_world !! 0%nat
               = Some (mk_instance 0%nat {[ "_p" := BNil ]}))
    by (vm_compute; reflexivity).
  assert (H3 : ({[ "_p" := BNil ]} : gmap string bvalue) !! "_p" = Some BNil)
    by (vm_compute; reflexivity).
  assert (H4 : forallb is_simple [BInt 3; BString "x"] = true) by reflexivity.
  assert (H5 : (length [BInt 3; BString "x"] <= 8)%nat) by (cbn; lia).
  assert (H6 : adopts (Some "+_p")
                 (mk_vm sample_world (BInstance 0 :: [BInt 3; BString "x"]) [])
               = false) by reflexivity.
  exact (conj H1 (conj H2 (conj H3 (conj H4 (conj H5 (conj H6
    (X19_constructor_stores_native_result no_call addr_of no_c_string 0
       (fun p => 1000 + nth 0 p 0) "_p" sample_world [BInt 3; BString "x"] []
       0%nat _ BNil H1 H2 H3 H4 H5 H6))))))).
Defined.

Lemma X20_witness :
  "_p" <> EmptyString
  /\ [BInstance 1] !! 0%nat = Some (BInstance 1)
  /\ instances sample_world !! 1%nat = Some (mk_instance 1%nat ∅)
  /\ (∅ : gmap string bvalue) !! "_p" = None
  /\ be_set_ctor_ptr 1234 (Some "+_p") (sample_vm [BInstance 1])
     = Throw (Exception "attribute_error" "Missing member '_p' in ctor")
         (mk_vm sample_world ([BInstance 1] ++ [BComptr 1234]) []).
Proof.
  assert (H1 : "_p" <> EmptyString) by discriminate.
  assert (H2 : [BInstance 1] !! 0%nat = Some (BInstance 1)) by reflexivity.
  assert (H3 : instances sample_world !! 1%nat = Some (mk_instance 1%nat ∅))
    by (vm_compute; reflexivity).
  assert (H4 : (∅ : gmap string bvalue) !! "_p" = None) by reflexivity.
  exact (conj H1 (conj H2 (conj H3 (conj H4
    (X20_ctor_store_without_member 1234 "_p" sample_world [BInstance 1] [] 1%nat
       (mk_instance 1%nat ∅) H1 H2 H3 H4))))).
Defined.

Lemma X21_witness :
  ctor_mode (Some "+_p") = true
  /\ be_call_c_func no_call addr_of no_c_string 0 (fun _ => 7) (Some "+_p") None
       (mk_vm sample_world [] [])
     = Undefined "stack index".
Proof.
  assert (H1 : ctor_mode (Some "+_p") = true) by reflexivity.
  exact (conj H1
    (X21_constructor_without_instance no_call addr_of no_c_string 0 (fun _ => 7)
       (Some "+_p") sample_world [] H1)).
Defined.

(** ** The callback branch when the generator is found *)

Section CallbackInGeneral.

Variable berry_call :
  bworld -> bvalue -> list bvalue -> bexception + (bvalue * bworld).
Variable str_addr : string -> Z.



End CallbackInGeneral.

